(** * Trainer app: the database procedures and the food-scan function

    A shallow embedding of

    - the PL/pgSQL procedures of the schema script ([handle_new_user],
      [add_client_by_email], [create_full_program]) over an explicit model
      of the tables they touch, their constraints, their row-level
      policies and their identity sequences;
    - the [food-scan] edge function ([serve] handler) over an explicit
      model of JavaScript strings, [JSON.parse] and the single outbound
      [fetch].

    Part I ([Module Pg]) and part II ([Module FoodScan]) hold the
    definitions; part III ([Module PgFacts]) and part IV
    ([Module FoodScanFacts]) hold what is proved about them:

    - a failing [create_full_program] leaves every table untouched, at
      whatever depth the failure occurs, and raises its error to the
      caller; a successful one writes exactly the rows of its document,
      in input order; a well-formed document is accepted;
    - [add_client_by_email] always returns one of its five objects, and
      never looks at the caller's role;
    - [handle_new_user] fails the registration exactly on a bad role or a
      taken email;
    - the [food-scan] handler answers a request without image before any
      upstream call, passes the parsed reply through unchecked, and
      removes every run of three backticks from the reply. *)

From Stdlib Require Import ZArith NArith List String Ascii Bool Lia.
From Stdlib Require Import DecimalString DecimalZ.
Import ListNotations.

#[local] Set Warnings "-register-all".
#[local] Open Scope string_scope.
#[local] Open Scope Z_scope.

(* ================================================================= *)
(** * Part I: the database                                            *)
(* ================================================================= *)

Module Pg.

(** ** SQL values *)

(** [TEXT] is a byte string; a [UUID] key is an opaque value, kept in its
    canonical text form.  A nullable SQL value of type [T] is an
    [option T], [None] being [NULL]. *)
Definition text := string.
Definition uuid := text.

(** A [jsonb] value.  A number is kept as the decimal it was written as,
    [m * 10^e]: [numeric] is an exact decimal type, and its display scale
    is [max 0 (-e)].  An object is kept as its association list; a lookup
    takes the last binding of a key, which is the one [jsonb] keeps. *)
Inductive jsonb : Type :=
| JNull
| JBool (b : bool)
| JNumber (m e : Z)
| JString (s : text)
| JArray (items : list jsonb)
| JObject (fields : list (text * jsonb)).

(** The error conditions (SQLSTATE classes) the procedures can meet. *)
Inductive sqlstate : Type :=
| not_null_violation                (* 23502 *)
| foreign_key_violation             (* 23503 *)
| unique_violation                  (* 23505 *)
| check_violation                   (* 23514 *)
| invalid_text_representation       (* 22P02 *)
| numeric_value_out_of_range        (* 22003 *)
| invalid_parameter_value           (* 22023 *)
| sequence_generator_limit_exceeded (* 2200H *)
| insufficient_privilege.           (* 42501 *)

(** ** Text and number conversions *)

Definition isspace (c : ascii) : bool :=
  match N_of_ascii c with
  | 9%N | 10%N | 11%N | 12%N | 13%N | 32%N => true
  | _ => false
  end.

Fixpoint skip_spaces (s : text) : text :=
  match s with
  | String c r => if isspace c then skip_spaces r else s
  | EmptyString => EmptyString
  end.

Definition rev_text (s : text) : text :=
  string_of_list_ascii (rev (list_ascii_of_string s)).

Definition strip_spaces (s : text) : text :=
  rev_text (skip_spaces (rev_text (skip_spaces s))).

(** The integer input routine shared by [int4in] and [int8in]: blanks, an
    optional sign, one or more decimal digits, blanks.  (The hexadecimal,
    octal and binary forms and the digit separators of recent servers are
    not recognised here.) *)
Definition strtoint (lo hi : Z) (s : text) : sqlstate + Z :=
  let body := strip_spaces s in
  let '(negative, digits) :=
    match body with
    | String "-"%char r => (true, r)
    | String "+"%char r => (false, r)
    | _ => (false, body)
    end in
  match NilZero.uint_of_string digits with
  | None => inl invalid_text_representation
  | Some d =>
      let v := if negative then - Z.of_uint d else Z.of_uint d in
      if (lo <=? v) && (v <=? hi) then inr v
      else inl numeric_value_out_of_range
  end.

Definition int4_min : Z := - 2 ^ 31.
Definition int4_max : Z := 2 ^ 31 - 1.
Definition int8_min : Z := - 2 ^ 63.
Definition int8_max : Z := 2 ^ 63 - 1.

Definition int4in : text -> sqlstate + Z := strtoint int4_min int4_max.
Definition int8in : text -> sqlstate + Z := strtoint int8_min int8_max.

(** [(x)::INT] and [(x)::BIGINT] on a nullable text: a cast is strict, so
    [NULL] stays [NULL]. *)
Definition cast (input : text -> sqlstate + Z) (x : option text)
  : sqlstate + option Z :=
  match x with
  | None => inr None
  | Some t => match input t with
              | inl e => inl e
              | inr v => inr (Some v)
              end
  end.

(** Decimal text of an integer, as [numeric_out] and [int8out] print it. *)
Definition Z_to_text (z : Z) : text := NilZero.string_of_int (Z.to_int z).

Fixpoint zeros (n : nat) : text :=
  match n with
  | O => EmptyString
  | S k => String "0"%char (zeros k)
  end.

(** [numeric_out] of [m * 10^e].  With [e >= 0] the value is an integer
    of display scale 0; with [e < 0] it is printed with exactly [-e]
    fractional digits. *)
Definition numeric_out (m e : Z) : text :=
  if 0 <=? e then Z_to_text (m * 10 ^ e)
  else
    let scale := Z.to_nat (- e) in
    let digits := Z_to_text (Z.abs m) in
    let padded := zeros (S scale - String.length digits) ++ digits in
    let int_len := (String.length padded - scale)%nat in
    (if m <? 0 then "-" else EmptyString)
      ++ substring 0 int_len padded ++ "." ++ substring int_len scale padded.

(** ** jsonb output *)

Definition hex_digit (n : N) : ascii :=
  ascii_of_N (if (n <? 10)%N then 48 + n else 87 + n)%N.

Definition dquote : ascii := "034"%char.
Definition backslash : ascii := "092"%char.

Definition one_char (c : ascii) : text := String c EmptyString.

(** [escape_json]: how one character is written inside a quoted string. *)
Definition escape_char (c : ascii) : text :=
  match N_of_ascii c with
  | 34%N => String backslash (one_char dquote)
  | 92%N => String backslash (one_char backslash)
  | 8%N => String backslash "b"
  | 12%N => String backslash "f"
  | 10%N => String backslash "n"
  | 13%N => String backslash "r"
  | 9%N => String backslash "t"
  | n => if (n <? 32)%N
         then String backslash "u00"
                ++ String (hex_digit (n / 16)) (one_char (hex_digit (n mod 16)))
         else one_char c
  end.

Definition escape_json (s : text) : text :=
  String dquote
    (fold_right (fun c acc => escape_char c ++ acc) (one_char dquote)
       (list_ascii_of_string s)).

(** Object keys are stored ordered by length, then bytewise, one binding
    per key, the last one winning. *)
Definition key_compare (a b : text) : comparison :=
  match Nat.compare (String.length a) (String.length b) with
  | Eq => String.compare a b
  | c => c
  end.

Fixpoint put {A : Type} (k : text) (v : A) (l : list (text * A))
  : list (text * A) :=
  match l with
  | [] => [(k, v)]
  | (k', v') :: r =>
      match key_compare k k' with
      | Eq => (k, v) :: r
      | Lt => (k, v) :: l
      | Gt => (k', v') :: put k v r
      end
  end.

Definition stored_fields {A : Type} (l : list (text * A)) : list (text * A) :=
  fold_left (fun acc kv => put (fst kv) (snd kv) acc) l [].

Fixpoint join (sep : text) (l : list text) : text :=
  match l with
  | [] => EmptyString
  | [x] => x
  | x :: r => x ++ sep ++ join sep r
  end.

Fixpoint jsonb_out (j : jsonb) : text :=
  match j with
  | JNull => "null"
  | JBool true => "true"
  | JBool false => "false"
  | JNumber m e => numeric_out m e
  | JString s => escape_json s
  | JArray items => "[" ++ join ", " (map jsonb_out items) ++ "]"
  | JObject fields =>
      "{" ++ join ", "
               (map (fun kv => escape_json (fst kv) ++ ": " ++ snd kv)
                  (stored_fields
                     (map (fun '(k, v) => (k, jsonb_out v)) fields)))
          ++ "}"
  end.

(** ** jsonb operators *)

Fixpoint last_binding {A : Type} (k : text) (l : list (text * A)) : option A :=
  match l with
  | [] => None
  | (k', v) :: r =>
      match last_binding k r with
      | Some v' => Some v'
      | None => if String.eqb k k' then Some v else None
      end
  end.

(** [j -> 'k']: the field of an object; [NULL] when [j] is not an object
    or has no such key. *)
Definition arrow (j : option jsonb) (k : text) : option jsonb :=
  match j with
  | Some (JObject fields) => last_binding k fields
  | _ => None
  end.

(** [j ->> 'k']: the field as text.  A JSON [null] gives SQL [NULL], a
    string gives its content, anything else its printed form. *)
Definition arrow_text (j : option jsonb) (k : text) : option text :=
  match arrow j k with
  | None => None
  | Some JNull => None
  | Some (JString s) => Some s
  | Some v => Some (jsonb_out v)
  end.

(** [jsonb_array_elements]: a strict set-returning function, so a [NULL]
    argument yields no row; anything but an array is an error. *)
Definition jsonb_array_elements (j : option jsonb) : sqlstate + list jsonb :=
  match j with
  | None => inr []
  | Some (JArray items) => inr items
  | Some _ => inl invalid_parameter_value
  end.

(** [json_build_object] on alternating keys and values. *)
Definition json_build_object (kvs : list (text * jsonb)) : jsonb := JObject kvs.

(** ** Tables *)

(** The columns the procedures read or write; [created_at] (a clock
    default) is left out.  [auth.users] belongs to the identity provider:
    only its key, email and registration metadata appear. *)
Record auth_user : Type := {
  au_id : uuid;
  au_email : option text;
  au_raw_user_meta_data : option jsonb }.

Record profile : Type := {
  p_id : uuid;
  p_full_name : option text;
  p_email : option text;
  p_role : text }.

Record client : Type := {
  c_trainer_id : uuid;
  c_client_id : uuid }.

Record exercise : Type := {
  e_id : Z;
  e_name : text;
  e_creator_id : option uuid }.

Record training_program : Type := {
  tp_id : Z;
  tp_name : text;
  tp_description : option text;
  tp_trainer_id : uuid;
  tp_client_id : uuid }.

Record training_day : Type := {
  td_id : Z;
  td_program_id : Z;
  td_name : text;
  td_day_order : option Z }.

Record program_exercise : Type := {
  pe_id : Z;
  pe_day_id : Z;
  pe_exercise_id : Z;
  pe_sets : option Z;
  pe_reps : option text;
  pe_rest_period_seconds : option Z;
  pe_notes : option text;
  pe_exercise_order : option Z }.

Record tables : Type := {
  auth_users : list auth_user;
  profiles : list profile;
  clients : list client;
  exercises : list exercise;
  training_programs : list training_program;
  training_days : list training_day;
  program_exercises : list program_exercise }.

(** The sequences behind the [GENERATED ALWAYS AS IDENTITY] columns: the
    value the next [nextval] returns. *)
Record sequences : Type := {
  training_programs_id_seq : Z;
  training_days_id_seq : Z;
  program_exercises_id_seq : Z }.

Record database : Type := {
  rows : tables;
  seqs : sequences }.

Definition with_profiles (l : list profile) (t : tables) : tables :=
  {| auth_users := auth_users t; profiles := l; clients := clients t;
     exercises := exercises t; training_programs := training_programs t;
     training_days := training_days t;
     program_exercises := program_exercises t |}.

Definition with_auth_users (l : list auth_user) (t : tables) : tables :=
  {| auth_users := l; profiles := profiles t; clients := clients t;
     exercises := exercises t; training_programs := training_programs t;
     training_days := training_days t;
     program_exercises := program_exercises t |}.

Definition with_clients (l : list client) (t : tables) : tables :=
  {| auth_users := auth_users t; profiles := profiles t; clients := l;
     exercises := exercises t; training_programs := training_programs t;
     training_days := training_days t;
     program_exercises := program_exercises t |}.

Definition with_training_programs (l : list training_program) (t : tables)
  : tables :=
  {| auth_users := auth_users t; profiles := profiles t;
     clients := clients t; exercises := exercises t;
     training_programs := l; training_days := training_days t;
     program_exercises := program_exercises t |}.

Definition with_training_days (l : list training_day) (t : tables) : tables :=
  {| auth_users := auth_users t; profiles := profiles t;
     clients := clients t; exercises := exercises t;
     training_programs := training_programs t; training_days := l;
     program_exercises := program_exercises t |}.

Definition with_program_exercises (l : list program_exercise) (t : tables)
  : tables :=
  {| auth_users := auth_users t; profiles := profiles t;
     clients := clients t; exercises := exercises t;
     training_programs := training_programs t;
     training_days := training_days t; program_exercises := l |}.

(** ** The procedure monad: state and errors *)

(** A PL/pgSQL computation runs on the database and either yields a value
    or raises; the database it leaves is the working state, which the
    enclosing block or statement may still roll back. *)
Definition plpgsql (A : Type) : Type := database -> (sqlstate + A) * database.

Definition ret {A : Type} (a : A) : plpgsql A := fun db => (inr a, db).

Definition raise {A : Type} (e : sqlstate) : plpgsql A := fun db => (inl e, db).

Definition bind {A B : Type} (c : plpgsql A) (k : A -> plpgsql B) : plpgsql B :=
  fun db =>
    match c db with
    | (inr a, db') => k a db'
    | (inl e, db') => (inl e, db')
    end.

Declare Scope plpgsql_scope.
Delimit Scope plpgsql_scope with plpgsql.
Notation "x <- c ;; k" := (bind c (fun x => k))
  (at level 61, c at next level, right associativity) : plpgsql_scope.
Notation "c ;; k" := (bind c (fun _ => k))
  (at level 61, right associativity) : plpgsql_scope.
#[local] Open Scope plpgsql_scope.

(** An expression that may fail, evaluated inside a statement. *)
Definition eval {A : Type} (r : sqlstate + A) : plpgsql A :=
  match r with
  | inl e => raise e
  | inr a => ret a
  end.

Definition get_rows : plpgsql tables := fun db => (inr (rows db), db).

Definition set_rows (t : tables) : plpgsql unit :=
  fun db => (inr tt, {| rows := t; seqs := seqs db |}).

Definition require (holds : bool) (e : sqlstate) : plpgsql unit :=
  if holds then ret tt else raise e.

Definition not_null {A : Type} (x : option A) : plpgsql A :=
  match x with
  | Some a => ret a
  | None => raise not_null_violation
  end.

Fixpoint for_each {X : Type} (l : list X) (body : X -> plpgsql unit)
  : plpgsql unit :=
  match l with
  | [] => ret tt
  | x :: r => body x ;; for_each r body
  end.

(** Rolling back restores the tables; a sequence is not transactional
    and keeps the values it has handed out. *)
Definition rollback_to (saved current : database) : database :=
  {| rows := rows saved; seqs := seqs current |}.

(** [BEGIN ... EXCEPTION WHEN ... END]: the body runs under a savepoint;
    when it raises, the tables go back to the savepoint and the handler
    runs. *)
Definition block_exception {A : Type} (body : plpgsql A)
    (handler : sqlstate -> plpgsql A) : plpgsql A :=
  fun db =>
    match body db with
    | (inr a, db') => (inr a, db')
    | (inl e, db') => handler e (rollback_to db db')
    end.

(** What the caller of a procedure gets: its value, or the error it
    raised. *)
Inductive outcome (A : Type) : Type :=
| Returned (a : A)
| Raised (e : sqlstate).
Arguments Returned {A} a.
Arguments Raised {A} e.

(** One call from a client is one statement in its own transaction: an
    error that reaches the top aborts the transaction. *)
Definition call {A : Type} (c : plpgsql A) (db : database)
  : outcome A * database :=
  match c db with
  | (inr a, db') => (Returned a, db')
  | (inl e, db') => (Raised e, rollback_to db db')
  end.

(** [nextval] of an identity sequence of a [BIGINT] column. *)
Definition nextval (get : sequences -> Z) (set : Z -> sequences -> sequences)
  : plpgsql Z :=
  fun db =>
    let v := get (seqs db) in
    if v <=? int8_max
    then (inr v, {| rows := rows db; seqs := set (v + 1) (seqs db) |})
    else (inl sequence_generator_limit_exceeded, db).

Definition set_training_programs_id_seq (v : Z) (s : sequences) : sequences :=
  {| training_programs_id_seq := v;
     training_days_id_seq := training_days_id_seq s;
     program_exercises_id_seq := program_exercises_id_seq s |}.

Definition set_training_days_id_seq (v : Z) (s : sequences) : sequences :=
  {| training_programs_id_seq := training_programs_id_seq s;
     training_days_id_seq := v;
     program_exercises_id_seq := program_exercises_id_seq s |}.

Definition set_program_exercises_id_seq (v : Z) (s : sequences) : sequences :=
  {| training_programs_id_seq := training_programs_id_seq s;
     training_days_id_seq := training_days_id_seq s;
     program_exercises_id_seq := v |}.

(** ** Comparisons under three-valued logic *)

(** [a = b] in a [WHERE] or [CHECK] position, where only [TRUE] counts. *)
Definition is_true_eq (a b : option text) : bool :=
  match a, b with
  | Some x, Some y => String.eqb x y
  | _, _ => false
  end.

Definition is_true_eqZ (a b : option Z) : bool :=
  match a, b with
  | Some x, Some y => x =? y
  | _, _ => false
  end.

(** ** Row-level policies *)

(** "Trainers can manage their own programs" ([FOR ALL]) and "Clients can
    view their own programs" ([FOR SELECT]): the programs a [SELECT] by
    the caller sees. *)
Definition visible_programs (auth_uid : option uuid) (t : tables)
  : list training_program :=
  filter (fun p => is_true_eq auth_uid (Some (tp_trainer_id p))
                   || is_true_eq auth_uid (Some (tp_client_id p)))
    (training_programs t).

(** "Users can manage days for accessible programs":
    [program_id IN (SELECT id FROM public.training_programs)]. *)
Definition day_policy (auth_uid : option uuid) (t : tables)
    (program_id : option Z) : bool :=
  existsb (fun p => is_true_eqZ program_id (Some (tp_id p)))
    (visible_programs auth_uid t).

Definition visible_days (auth_uid : option uuid) (t : tables)
  : list training_day :=
  filter (fun d => day_policy auth_uid t (Some (td_program_id d)))
    (training_days t).

(** "Users can manage exercises for accessible days":
    [day_id IN (SELECT id FROM public.training_days)]. *)
Definition exercise_policy (auth_uid : option uuid) (t : tables)
    (day_id : option Z) : bool :=
  existsb (fun d => is_true_eqZ day_id (Some (td_id d)))
    (visible_days auth_uid t).

(** ** Key lookups *)

Definition profile_exists (t : tables) (id : uuid) : bool :=
  existsb (fun p => String.eqb (p_id p) id) (profiles t).

Definition account_exists (t : tables) (id : uuid) : bool :=
  existsb (fun u => String.eqb (au_id u) id) (auth_users t).

Definition email_taken (t : tables) (email : option text) : bool :=
  existsb (fun p => is_true_eq (p_email p) email) (profiles t).

Definition link_exists (t : tables) (trainer_id client_id : uuid) : bool :=
  existsb (fun c => String.eqb (c_trainer_id c) trainer_id
                    && String.eqb (c_client_id c) client_id)
    (clients t).

Definition program_exists (t : tables) (id : Z) : bool :=
  existsb (fun p => tp_id p =? id) (training_programs t).

Definition day_exists (t : tables) (id : Z) : bool :=
  existsb (fun d => td_id d =? id) (training_days t).

Definition exercise_exists (t : tables) (id : Z) : bool :=
  existsb (fun x => e_id x =? id) (exercises t).

Definition assignment_exists (t : tables) (id : Z) : bool :=
  existsb (fun x => pe_id x =? id) (program_exercises t).

(** A row already holds this [(day_id, exercise_id, exercise_order)]. *)
Definition assignment_taken (t : tables) (day_id exercise_id : Z)
    (exercise_order : option Z) : bool :=
  existsb (fun x => (pe_day_id x =? day_id)
                    && (pe_exercise_id x =? exercise_id)
                    && is_true_eqZ (pe_exercise_order x) exercise_order)
    (program_exercises t).

(** The foreign keys of [profiles.id], of [training_days.program_id] and
    of [program_exercises.day_id], as properties of the stored rows. *)
Definition fk_profiles (t : tables) : bool :=
  forallb (fun p => account_exists t (p_id p)) (profiles t).

Definition fk_training_days (t : tables) : bool :=
  forallb (fun d => program_exists t (td_program_id d)) (training_days t).

Definition fk_program_exercises (t : tables) : bool :=
  forallb (fun x => day_exists t (pe_day_id x)) (program_exercises t).

(** ** INSERT statements *)

(** Each insert evaluates its column values in column order (the identity
    default first), then applies the row-level policy where the caller is
    subject to one, the [NOT NULL] and [CHECK] constraints, the unique
    indexes, and last the foreign keys. *)

Definition role_allowed (r : text) : bool :=
  String.eqb r "trainer" || String.eqb r "client".

(** [INSERT INTO public.profiles (id, email, full_name, role)], run by the
    table owner. *)
Definition insert_profiles (id : option uuid) (email full_name role : option text)
  : plpgsql unit :=
  id' <- not_null id ;;
  role' <- not_null role ;;
  require (role_allowed role') check_violation ;;
  t <- get_rows ;;
  require (negb (profile_exists t id')) unique_violation ;;
  require (negb (email_taken t email)) unique_violation ;;
  require (account_exists t id') foreign_key_violation ;;
  set_rows (with_profiles
              (profiles t ++ [ {| p_id := id'; p_full_name := full_name;
                                  p_email := email; p_role := role' |} ]) t).

(** [INSERT INTO public.clients (trainer_id, client_id)], run by the
    table owner. *)
Definition insert_clients (trainer_id client_id : option uuid) : plpgsql unit :=
  trainer' <- not_null trainer_id ;;
  client' <- not_null client_id ;;
  t <- get_rows ;;
  require (negb (link_exists t trainer' client')) unique_violation ;;
  require (profile_exists t trainer') foreign_key_violation ;;
  require (profile_exists t client') foreign_key_violation ;;
  set_rows (with_clients
              (clients t ++ [ {| c_trainer_id := trainer';
                                 c_client_id := client' |} ]) t).

(** [INSERT INTO public.training_programs (name, description, trainer_id,
    client_id) ... RETURNING id], run by the caller. *)
Definition insert_training_programs (auth_uid : option uuid)
    (name description : option text) (trainer_id client_id : option uuid)
  : plpgsql Z :=
  id <- nextval training_programs_id_seq set_training_programs_id_seq ;;
  require (is_true_eq auth_uid trainer_id) insufficient_privilege ;;
  name' <- not_null name ;;
  trainer' <- not_null trainer_id ;;
  client' <- not_null client_id ;;
  t <- get_rows ;;
  require (negb (program_exists t id)) unique_violation ;;
  require (profile_exists t trainer') foreign_key_violation ;;
  require (profile_exists t client') foreign_key_violation ;;
  set_rows (with_training_programs
              (training_programs t
                 ++ [ {| tp_id := id; tp_name := name';
                         tp_description := description;
                         tp_trainer_id := trainer';
                         tp_client_id := client' |} ]) t) ;;
  ret id.

(** [INSERT INTO public.training_days (program_id, name, day_order) ...
    RETURNING id], run by the caller. *)
Definition insert_training_days (auth_uid : option uuid)
    (program_id : option Z) (name : option text)
    (day_order : sqlstate + option Z) : plpgsql Z :=
  id <- nextval training_days_id_seq set_training_days_id_seq ;;
  day_order' <- eval day_order ;;
  t <- get_rows ;;
  require (day_policy auth_uid t program_id) insufficient_privilege ;;
  program' <- not_null program_id ;;
  name' <- not_null name ;;
  require (negb (day_exists t id)) unique_violation ;;
  require (program_exists t program') foreign_key_violation ;;
  set_rows (with_training_days
              (training_days t
                 ++ [ {| td_id := id; td_program_id := program';
                         td_name := name'; td_day_order := day_order' |} ]) t) ;;
  ret id.

(** [INSERT INTO public.program_exercises (day_id, exercise_id, sets, reps,
    rest_period_seconds, exercise_order, notes)], run by the caller.  The
    unique index is on [(day_id, exercise_id, exercise_order)]; a row
    with a [NULL] order never collides. *)
Definition insert_program_exercises (auth_uid : option uuid)
    (day_id : option Z) (exercise_id sets : sqlstate + option Z)
    (reps : option text) (rest_period_seconds exercise_order : sqlstate + option Z)
    (notes : option text) : plpgsql unit :=
  id <- nextval program_exercises_id_seq set_program_exercises_id_seq ;;
  exercise_id' <- eval exercise_id ;;
  sets' <- eval sets ;;
  rest' <- eval rest_period_seconds ;;
  order' <- eval exercise_order ;;
  t <- get_rows ;;
  require (exercise_policy auth_uid t day_id) insufficient_privilege ;;
  day' <- not_null day_id ;;
  exercise' <- not_null exercise_id' ;;
  require (negb (assignment_exists t id)) unique_violation ;;
  require (negb (assignment_taken t day' exercise' order')) unique_violation ;;
  require (day_exists t day') foreign_key_violation ;;
  require (exercise_exists t exercise') foreign_key_violation ;;
  set_rows (with_program_exercises
              (program_exercises t
                 ++ [ {| pe_id := id; pe_day_id := day';
                         pe_exercise_id := exercise'; pe_sets := sets';
                         pe_reps := reps; pe_rest_period_seconds := rest';
                         pe_notes := notes; pe_exercise_order := order' |} ]) t).

(** ** The procedures *)

(** [public.handle_new_user()], the [AFTER INSERT] row trigger on
    [auth.users]. *)
Definition handle_new_user (new : auth_user) : plpgsql auth_user :=
  insert_profiles
    (Some (au_id new))
    (au_email new)
    (arrow_text (au_raw_user_meta_data new) "full_name")
    (arrow_text (au_raw_user_meta_data new) "role") ;;
  ret new.

(** The identity provider registering an account: the insert into
    [auth.users] (of which only the primary key is modelled) fires
    [on_auth_user_created] in the same statement. *)
Definition insert_auth_users (new : auth_user) : plpgsql unit :=
  t <- get_rows ;;
  require (negb (account_exists t (au_id new))) unique_violation ;;
  set_rows (with_auth_users (auth_users t ++ [new]) t) ;;
  handle_new_user new ;;
  ret tt.

(** The [RECORD] variable of [add_client_by_email]: when the query finds
    no row, both fields are [NULL]. *)
Record client_record_t : Type := {
  cr_id : option uuid;
  cr_role : option text }.

(** [SELECT id, role INTO client_record FROM public.profiles
     WHERE email = client_email]. *)
Definition select_profile_by_email (client_email : option text)
  : plpgsql client_record_t :=
  t <- get_rows ;;
  ret (match find (fun p => is_true_eq (p_email p) client_email) (profiles t) with
       | Some p => {| cr_id := Some (p_id p); cr_role := Some (p_role p) |}
       | None => {| cr_id := None; cr_role := None |}
       end).

(** [client_record IS NULL]: every field is [NULL]. *)
Definition record_is_null (r : client_record_t) : bool :=
  match cr_id r, cr_role r with
  | None, None => true
  | _, _ => false
  end.

(** [client_record.role != 'client'] as an [IF] condition: taken only when
    the comparison is [TRUE]. *)
Definition role_is_not_client (r : client_record_t) : bool :=
  match cr_role r with
  | Some role => negb (String.eqb role "client")
  | None => false
  end.

Definition json_of_uuid (u : option uuid) : jsonb :=
  match u with
  | Some id => JString id
  | None => JNull
  end.

Definition msg_not_found : jsonb :=
  json_build_object
    [("status", JString "error");
     ("message", JString "Nessun utente trovato con questa email.")].

Definition msg_not_a_client : jsonb :=
  json_build_object
    [("status", JString "error");
     ("message", JString "L'utente trovato non è un cliente.")].

Definition msg_client_added (id : option uuid) : jsonb :=
  json_build_object
    [("status", JString "success");
     ("message", JString "Cliente aggiunto con successo!");
     ("client_id", json_of_uuid id)].

Definition msg_already_added : jsonb :=
  json_build_object
    [("status", JString "error");
     ("message", JString "Questo cliente è già stato aggiunto.")].

Definition msg_unexpected : jsonb :=
  json_build_object
    [("status", JString "error");
     ("message", JString "Si è verificato un errore imprevisto.")].

(** [public.add_client_by_email(client_email TEXT)], [SECURITY DEFINER]. *)
Definition add_client_by_email (auth_uid : option uuid)
    (client_email : option text) : plpgsql jsonb :=
  block_exception
    (client_record <- select_profile_by_email client_email ;;
     if record_is_null client_record then ret msg_not_found
     else if role_is_not_client client_record then ret msg_not_a_client
     else
       insert_clients auth_uid (cr_id client_record) ;;
       ret (msg_client_added (cr_id client_record)))
    (fun e =>
       match e with
       | unique_violation => ret msg_already_added
       | _ => ret msg_unexpected
       end).

Definition msg_program_created (new_program_id : Z) : jsonb :=
  json_build_object
    [("status", JString "success");
     ("message", JString "Program created successfully");
     ("program_id", JNumber new_program_id 0)].

(** The body of the inner loop of [create_full_program]. *)
Definition insert_exercise_of (auth_uid : option uuid) (new_day_id : Z)
    (exercise_data : jsonb) : plpgsql unit :=
  insert_program_exercises auth_uid
    (Some new_day_id)
    (cast int8in (arrow_text (Some exercise_data) "exercise_id"))
    (cast int4in (arrow_text (Some exercise_data) "sets"))
    (arrow_text (Some exercise_data) "reps")
    (cast int4in (arrow_text (Some exercise_data) "rest_period_seconds"))
    (cast int4in (arrow_text (Some exercise_data) "exercise_order"))
    (arrow_text (Some exercise_data) "notes").

(** The body of the outer loop of [create_full_program]. *)
Definition insert_day_of (auth_uid : option uuid) (new_program_id : Z)
    (day_data : jsonb) : plpgsql unit :=
  new_day_id <-
    insert_training_days auth_uid
      (Some new_program_id)
      (arrow_text (Some day_data) "name")
      (cast int4in (arrow_text (Some day_data) "day_order")) ;;
  exercise_rows <- eval (jsonb_array_elements (arrow (Some day_data) "exercises")) ;;
  for_each exercise_rows (insert_exercise_of auth_uid new_day_id).

(** [public.create_full_program(program_name TEXT, program_description
    TEXT, client_id_in UUID, days JSON)].  The body has no [EXCEPTION]
    clause: whatever a statement raises leaves the function. *)
Definition create_full_program (auth_uid : option uuid)
    (program_name program_description : option text)
    (client_id_in : option uuid) (days : option jsonb) : plpgsql jsonb :=
  new_program_id <-
    insert_training_programs auth_uid
      program_name program_description auth_uid client_id_in ;;
  day_rows <- eval (jsonb_array_elements days) ;;
  for_each day_rows (insert_day_of auth_uid new_program_id) ;;
  ret (msg_program_created new_program_id).

(** ** What a successful create_full_program writes *)

(** The integer a descriptor gives for a field: what the cast of
    [j ->> 'k'] yields ([NULL] for an absent field or a JSON [null]). *)
Definition given (input : text -> sqlstate + Z) (j : jsonb) (k : text)
  : option Z :=
  match cast input (arrow_text (Some j) k) with
  | inr v => v
  | inl _ => None
  end.

(** The assignment descriptors of a day descriptor, in input order. *)
Definition exercises_of (day_data : jsonb) : list jsonb :=
  match jsonb_array_elements (arrow (Some day_data) "exercises") with
  | inr l => l
  | inl _ => []
  end.

(** The exercise a descriptor names (0 where it names none, which no
    row ever holds). *)
Definition exercise_id_of (exercise_data : jsonb) : Z :=
  match given int8in exercise_data "exercise_id" with
  | Some v => v
  | None => 0
  end.

Definition exercise_row (id day_id : Z) (exercise_data : jsonb)
  : program_exercise :=
  {| pe_id := id;
     pe_day_id := day_id;
     pe_exercise_id := exercise_id_of exercise_data;
     pe_sets := given int4in exercise_data "sets";
     pe_reps := arrow_text (Some exercise_data) "reps";
     pe_rest_period_seconds := given int4in exercise_data "rest_period_seconds";
     pe_notes := arrow_text (Some exercise_data) "notes";
     pe_exercise_order := given int4in exercise_data "exercise_order" |}.

Fixpoint exercise_rows (id day_id : Z) (xs : list jsonb)
  : list program_exercise :=
  match xs with
  | [] => []
  | x :: r => exercise_row id day_id x :: exercise_rows (id + 1) day_id r
  end.

Definition day_row (id program_id : Z) (day_data : jsonb) : training_day :=
  {| td_id := id;
     td_program_id := program_id;
     td_name := match arrow_text (Some day_data) "name" with
                | Some n => n
                | None => EmptyString
                end;
     td_day_order := given int4in day_data "day_order" |}.

Fixpoint day_rows (id program_id : Z) (ds : list jsonb) : list training_day :=
  match ds with
  | [] => []
  | d :: r => day_row id program_id d :: day_rows (id + 1) program_id r
  end.

(** The assignment rows of a list of days: those of the first day, then
    those of the next, with consecutive ids. *)
Fixpoint tree_exercise_rows (id day_id : Z) (ds : list jsonb)
  : list program_exercise :=
  match ds with
  | [] => []
  | d :: r =>
      exercise_rows id day_id (exercises_of d)
        ++ tree_exercise_rows
             (id + Z.of_nat (List.length (exercises_of d))) (day_id + 1) r
  end.

(** The database after one more day row, and after more assignment rows. *)
Definition after_day (db : database) (row : training_day) : database :=
  {| rows := with_training_days (training_days (rows db) ++ [row]) (rows db);
     seqs := set_training_days_id_seq
               (training_days_id_seq (seqs db) + 1) (seqs db) |}.

Definition after_exercises (db : database) (news : list program_exercise)
  : database :=
  {| rows := with_program_exercises
               (program_exercises (rows db) ++ news) (rows db);
     seqs := set_program_exercises_id_seq
               (program_exercises_id_seq (seqs db)
                  + Z.of_nat (List.length news)) (seqs db) |}.

Definition after_one_day (program_id : Z) (db : database) (d : jsonb)
  : database :=
  after_exercises
    (after_day db (day_row (training_days_id_seq (seqs db)) program_id d))
    (exercise_rows (program_exercises_id_seq (seqs db))
       (training_days_id_seq (seqs db)) (exercises_of d)).

Definition after_days (program_id : Z) (db : database) (ds : list jsonb)
  : database :=
  fold_left (after_one_day program_id) ds db.

(** ** Well-formed input *)

Definition castable (input : text -> sqlstate + Z) (x : option text) : bool :=
  match cast input x with
  | inr _ => true
  | inl _ => false
  end.

(** An assignment descriptor whose numeric fields can be cast and whose
    exercise is in the library. *)
Definition well_formed_exercise (library : list exercise) (x : jsonb) : bool :=
  castable int8in (arrow_text (Some x) "exercise_id")
  && castable int4in (arrow_text (Some x) "sets")
  && castable int4in (arrow_text (Some x) "rest_period_seconds")
  && castable int4in (arrow_text (Some x) "exercise_order")
  && match given int8in x "exercise_id" with
     | Some id => existsb (fun e => e_id e =? id) library
     | None => false
     end.

(** Two descriptors that would collide on the unique index when put in
    the same day. *)
Definition same_slot (x y : jsonb) : bool :=
  (exercise_id_of x =? exercise_id_of y)
  && is_true_eqZ (given int4in x "exercise_order")
       (given int4in y "exercise_order").

Fixpoint distinct_slots (xs : list jsonb) : bool :=
  match xs with
  | [] => true
  | x :: r => forallb (fun y => negb (same_slot x y)) r && distinct_slots r
  end.

(** A day descriptor with a name, a castable order, and an [exercises]
    member that is absent or an array of well-formed descriptors, no two
    of which collide. *)
Definition well_formed_day (library : list exercise) (d : jsonb) : bool :=
  match arrow_text (Some d) "name" with
  | Some _ => true
  | None => false
  end
  && castable int4in (arrow_text (Some d) "day_order")
  && match jsonb_array_elements (arrow (Some d) "exercises") with
     | inr _ => true
     | inl _ => false
     end
  && forallb (well_formed_exercise library) (exercises_of d)
  && distinct_slots (exercises_of d).

(** The ids in use are below the next values of their sequences, as they
    are when every id came from its sequence. *)
Definition ids_below_sequences (db : database) : bool :=
  forallb (fun p => tp_id p <? training_programs_id_seq (seqs db))
    (training_programs (rows db))
  && forallb (fun d => td_id d <? training_days_id_seq (seqs db))
       (training_days (rows db))
  && forallb (fun x => pe_id x <? program_exercises_id_seq (seqs db))
       (program_exercises (rows db)).

(** The number of assignment descriptors of a list of days. *)
Definition count_exercises (ds : list jsonb) : nat :=
  list_sum (map (fun d => List.length (exercises_of d)) ds).

(** ** The declared constraints, as properties of the stored rows *)

(** No row of the list clashes with a later one. *)
Fixpoint pairwise {A : Type} (clash : A -> A -> bool) (l : list A) : bool :=
  match l with
  | [] => true
  | a :: r => negb (existsb (clash a) r) && pairwise clash r
  end.

(** [auth.users]: the primary key. *)
Definition pk_auth_users (t : tables) : bool :=
  pairwise (fun u v => String.eqb (au_id u) (au_id v)) (auth_users t).

(** [profiles]: [PRIMARY KEY], [UNIQUE] on [email] (two [NULL]s never
    clash) and the [CHECK] on [role]; the foreign key is [fk_profiles]. *)
Definition pk_profiles (t : tables) : bool :=
  pairwise (fun p q => String.eqb (p_id p) (p_id q)) (profiles t).

Definition unique_profiles_email (t : tables) : bool :=
  pairwise (fun p q => is_true_eq (p_email p) (p_email q)) (profiles t).

Definition check_profiles_role (t : tables) : bool :=
  forallb (fun p => role_allowed (p_role p)) (profiles t).

(** [clients]: [PRIMARY KEY (trainer_id, client_id)] and the two foreign
    keys. *)
Definition pk_clients (t : tables) : bool :=
  pairwise (fun c d => String.eqb (c_trainer_id c) (c_trainer_id d)
                       && String.eqb (c_client_id c) (c_client_id d))
    (clients t).

Definition fk_clients (t : tables) : bool :=
  forallb (fun c => profile_exists t (c_trainer_id c)
                    && profile_exists t (c_client_id c))
    (clients t).

(** [exercises]: the primary key and the nullable [creator_id]. *)
Definition pk_exercises (t : tables) : bool :=
  pairwise (fun x y => e_id x =? e_id y) (exercises t).

Definition fk_exercises (t : tables) : bool :=
  forallb (fun x => match e_creator_id x with
                    | Some id => profile_exists t id
                    | None => true
                    end)
    (exercises t).

(** [training_programs]: the primary key and the two foreign keys. *)
Definition pk_training_programs (t : tables) : bool :=
  pairwise (fun p q => tp_id p =? tp_id q) (training_programs t).

Definition fk_training_programs (t : tables) : bool :=
  forallb (fun p => profile_exists t (tp_trainer_id p)
                    && profile_exists t (tp_client_id p))
    (training_programs t).

(** [training_days]: the primary key; the foreign key is
    [fk_training_days]. *)
Definition pk_training_days (t : tables) : bool :=
  pairwise (fun d d' => td_id d =? td_id d') (training_days t).

(** [program_exercises]: the primary key, [UNIQUE(day_id, exercise_id,
    exercise_order)] and the foreign key of [exercise_id]; the foreign
    key of [day_id] is [fk_program_exercises]. *)
Definition pk_program_exercises (t : tables) : bool :=
  pairwise (fun x y => pe_id x =? pe_id y) (program_exercises t).

Definition unique_program_exercises (t : tables) : bool :=
  pairwise (fun x y => (pe_day_id x =? pe_day_id y)
                       && (pe_exercise_id x =? pe_exercise_id y)
                       && is_true_eqZ (pe_exercise_order x) (pe_exercise_order y))
    (program_exercises t).

Definition fk_program_exercises_exercise (t : tables) : bool :=
  forallb (fun x => exercise_exists t (pe_exercise_id x)) (program_exercises t).

Definition accounts_hold (t : tables) : bool :=
  pk_auth_users t && pk_profiles t && unique_profiles_email t
  && check_profiles_role t && fk_profiles t.

Definition links_hold (t : tables) : bool :=
  pk_clients t && fk_clients t.

Definition library_holds (t : tables) : bool :=
  pk_exercises t && fk_exercises t.

Definition programs_hold (t : tables) : bool :=
  pk_training_programs t && fk_training_programs t
  && pk_training_days t && fk_training_days t
  && pk_program_exercises t && unique_program_exercises t
  && fk_program_exercises t && fk_program_exercises_exercise t.

(** Every constraint the schema declares on the seven tables. *)
Definition constraints_hold (t : tables) : bool :=
  accounts_hold t && links_hold t && library_holds t && programs_hold t.

(** No sequence has gone back. *)
Definition seqs_le (s s' : sequences) : Prop :=
  training_programs_id_seq s <= training_programs_id_seq s' /\
  training_days_id_seq s <= training_days_id_seq s' /\
  program_exercises_id_seq s <= program_exercises_id_seq s'.

(** A computation that never takes a sequence back, however it ends. *)
Definition advances {A : Type} (c : plpgsql A) : Prop :=
  forall db r db', c db = (r, db') -> seqs_le (seqs db) (seqs db').

(** ** The metadata the frontend registers with *)



(** ** Deleting a program *)

(** [workout_logs] hangs below [program_exercises]; [weight_used] is a
    decimal [m * 10^e], [log_date] a count of microseconds. *)
Record workout_log : Type := {
  wl_id : Z;
  wl_program_exercise_id : Z;
  wl_client_id : uuid;
  wl_set_number : Z;
  wl_reps_completed : option Z;
  wl_weight_used : option (Z * Z);
  wl_log_date : option Z }.

(** The tables a delete of a program can reach. *)
Record store : Type := {
  core : tables;
  workout_logs : list workout_log }.

Definition log_exists (s : store) (id : Z) : bool :=
  existsb (fun l => wl_id l =? id) (workout_logs s).

Definition pk_workout_logs (s : store) : bool :=
  pairwise (fun l l' => wl_id l =? wl_id l') (workout_logs s).

(** [UNIQUE(program_exercise_id, client_id, set_number, log_date)]. *)
Definition unique_workout_logs (s : store) : bool :=
  pairwise (fun l l' => (wl_program_exercise_id l =? wl_program_exercise_id l')
                        && String.eqb (wl_client_id l) (wl_client_id l')
                        && (wl_set_number l =? wl_set_number l')
                        && is_true_eqZ (wl_log_date l) (wl_log_date l'))
    (workout_logs s).

Definition fk_workout_logs (s : store) : bool :=
  forallb (fun l => assignment_exists (core s) (wl_program_exercise_id l)
                    && profile_exists (core s) (wl_client_id l))
    (workout_logs s).

Definition store_constraints_hold (s : store) : bool :=
  constraints_hold (core s) && pk_workout_logs s && unique_workout_logs s
  && fk_workout_logs s.

(** The rows a [DELETE FROM public.training_programs WHERE id = ...] by
    the caller removes: "Trainers can manage their own programs" is the
    only policy that covers [DELETE]. *)
Definition deleted_program (auth_uid : option uuid) (id : Z)
    (p : training_program) : bool :=
  (tp_id p =? id) && is_true_eq auth_uid (Some (tp_trainer_id p)).

(** [supabase.from('training_programs').delete().eq('id', programId)],
    with the [ON DELETE CASCADE] of [training_days.program_id], of
    [program_exercises.day_id] and of
    [workout_logs.program_exercise_id]; the cascades run whatever the
    policies of the tables below say. *)
Definition delete_training_programs (auth_uid : option uuid) (id : Z)
    (s : store) : store :=
  let t := core s in
  let gone_programs := filter (deleted_program auth_uid id) (training_programs t) in
  let gone_day d :=
    existsb (fun p => tp_id p =? td_program_id d) gone_programs in
  let gone_days := filter gone_day (training_days t) in
  let gone_exercise x :=
    existsb (fun d => td_id d =? pe_day_id x) gone_days in
  let gone_exercises := filter gone_exercise (program_exercises t) in
  let gone_log l :=
    existsb (fun x => pe_id x =? wl_program_exercise_id l) gone_exercises in
  {| core :=
       with_program_exercises
         (filter (fun x => negb (gone_exercise x)) (program_exercises t))
         (with_training_days
            (filter (fun d => negb (gone_day d)) (training_days t))
            (with_training_programs
               (filter (fun p => negb (deleted_program auth_uid id p))
                  (training_programs t))
               t));
     workout_logs := filter (fun l => negb (gone_log l)) (workout_logs s) |}.

(** The constraints hold and every id in use came from its sequence. *)
Definition consistent (db : database) : bool :=
  constraints_hold (rows db) && ids_below_sequences db.

(** The tables [create_full_program] has no statement for. *)
Definition same_accounts_and_library (t t' : tables) : Prop :=
  auth_users t' = auth_users t /\
  profiles t' = profiles t /\
  clients t' = clients t /\
  exercises t' = exercises t.

(** ** Sample data *)

Module Sample.

Definition trainer1 : uuid := "11111111-1111-1111-1111-111111111111".
Definition client1 : uuid := "22222222-2222-2222-2222-222222222222".
Definition nobody : uuid := "99999999-9999-9999-9999-999999999999".

Definition base : database :=
  {| rows :=
       {| auth_users :=
            [ {| au_id := trainer1; au_email := Some "trainer@example.org";
                 au_raw_user_meta_data := None |};
              {| au_id := client1; au_email := Some "client@example.org";
                 au_raw_user_meta_data := None |} ];
          profiles :=
            [ {| p_id := trainer1; p_full_name := Some "Tina";
                 p_email := Some "trainer@example.org"; p_role := "trainer" |};
              {| p_id := client1; p_full_name := None;
                 p_email := Some "client@example.org"; p_role := "client" |} ];
          clients := [];
          exercises :=
            [ {| e_id := 1; e_name := "Squat"; e_creator_id := None |};
              {| e_id := 2; e_name := "Bench press";
                 e_creator_id := Some trainer1 |} ];
          training_programs := [];
          training_days := [];
          program_exercises := [] |};
     seqs := {| training_programs_id_seq := 1;
                training_days_id_seq := 1;
                program_exercises_id_seq := 1 |} |}.

Definition assignment (exercise_id sets : Z) (reps : text) (order : Z) : jsonb :=
  JObject [("exercise_id", JNumber exercise_id 0);
           ("sets", JNumber sets 0);
           ("reps", JString reps);
           ("rest_period_seconds", JNumber 90 0);
           ("exercise_order", JNumber order 0);
           ("notes", JNull)].

(** The day descriptors of the two-day program of the specification's
    scenario. *)
Definition push_pull_legs : list jsonb :=
  [ JObject [("name", JString "Day 1"); ("day_order", JNumber 1 0);
             ("exercises", JArray [assignment 1 3 "8-12" 1])];
    JObject [("name", JString "Day 2"); ("day_order", JNumber 2 0);
             ("exercises", JArray [assignment 2 4 "5" 1])] ].

(** Two days, the second with an assignment that names an exercise that
    does not exist. *)
Definition bad_exercise : list jsonb :=
  [ JObject [("name", JString "Day 1"); ("day_order", JNumber 1 0);
             ("exercises", JArray [assignment 1 3 "8-12" 1])];
    JObject [("name", JString "Day 2"); ("day_order", JNumber 2 0);
             ("exercises", JArray [assignment 1 3 "8-12" 1;
                                   assignment 77 4 "5" 2])] ].

(** The database after the two-day program was created. *)
Definition with_program : database :=
  snd (call (create_full_program (Some trainer1) (Some "Push Pull Legs")
               None (Some client1) (Some (JArray push_pull_legs)))
         base).

Definition the_program : training_program :=
  {| tp_id := 1; tp_name := "Push Pull Legs"; tp_description := None;
     tp_trainer_id := trainer1; tp_client_id := client1 |}.

(** One logged set of the first assignment, 42.5 kg. *)
Definition logs : list workout_log :=
  [ {| wl_id := 1; wl_program_exercise_id := 1; wl_client_id := client1;
       wl_set_number := 1; wl_reps_completed := Some 10;
       wl_weight_used := Some (425, -1); wl_log_date := Some 0 |} ].

Definition logged : store :=
  {| core := rows with_program; workout_logs := logs |}.

Definition new_account : auth_user :=
  {| au_id := "33333333-3333-3333-3333-333333333333";
     au_email := Some "new@example.org";
     au_raw_user_meta_data :=
       Some (JObject [("full_name", JString "Nina");
                      ("role", JString "trainer")]) |}.

(** A day whose order is written [1.5]. *)
Definition half_day : jsonb :=
  JObject [("name", JString "Day 1"); ("day_order", JNumber 15 (-1))].

End Sample.

End Pg.

(* ================================================================= *)
(** * Part II: the food-scan function                                 *)
(* ================================================================= *)

Module FoodScan.

#[local] Open Scope list_scope.
#[local] Open Scope N_scope.

(** ** JavaScript strings and values *)

(** A string is its sequence of UTF-16 code units. *)
Definition jsstring := list N.

(** A literal of the source, all of whose characters are ASCII. *)
Definition str (s : string) : jsstring :=
  map N_of_ascii (list_ascii_of_string s).

Fixpoint eqb_str (a b : jsstring) : bool :=
  match a, b with
  | [], [] => true
  | x :: a', y :: b' => (x =? y) && eqb_str a' b'
  | _, _ => false
  end.

(** What [JSON.parse] can build, and [undefined].  A number is kept as the
    decimal [m * 10^e] it was written as; it denotes the nearest double.
    An object keeps its members as written; a property read takes the
    last member of that name. *)
Inductive value : Type :=
| Undefined
| Null
| Bool (b : bool)
| Number (m e : Z)
| Str (s : jsstring)
| Array (items : list value)
| Object (members : list (jsstring * value)).

(** ** String.prototype.replace with a global literal pattern, and trim *)

Fixpoint is_prefix (p s : jsstring) : bool :=
  match p, s with
  | [], _ => true
  | a :: p', b :: s' => (a =? b) && is_prefix p' s'
  | _ :: _, [] => false
  end.

(** [s.replace(/p/g, '')] for a non-empty literal [p]: the matches are
    found left to right and do not overlap; [skip] counts the code units
    of the current match still to drop. *)
Fixpoint remove_from (p : jsstring) (skip : nat) (s : jsstring) : jsstring :=
  match s with
  | [] => []
  | c :: r =>
      match skip with
      | S k => remove_from p k r
      | O => if is_prefix p s then remove_from p (pred (List.length p)) r
             else c :: remove_from p O r
      end
  end.

Definition remove_all (p s : jsstring) : jsstring := remove_from p O s.

(** WhiteSpace and LineTerminator code units, which [trim] strips. *)
Definition is_js_space (c : N) : bool :=
  ((9 <=? c) && (c <=? 13)) || (c =? 32) || (c =? 160) || (c =? 5760)
  || ((8192 <=? c) && (c <=? 8202)) || (c =? 8232) || (c =? 8233)
  || (c =? 8239) || (c =? 8287) || (c =? 12288) || (c =? 65279).

Fixpoint trim_start (s : jsstring) : jsstring :=
  match s with
  | c :: r => if is_js_space c then trim_start r else s
  | [] => []
  end.

Definition trim (s : jsstring) : jsstring :=
  rev (trim_start (rev (trim_start s))).

(** ** JSON.parse *)

Inductive token : Type :=
| TLBrace | TRBrace | TLBracket | TRBracket | TColon | TComma
| TString (s : jsstring)
| TNumber (m e : Z)
| TTrue | TFalse | TNull.

Definition is_json_space (c : N) : bool :=
  (c =? 9) || (c =? 10) || (c =? 13) || (c =? 32).

Definition is_digit (c : N) : bool := (48 <=? c) && (c <=? 57).

(** The code units a number can be made of: digits, sign, point, e, E. *)
Definition is_number_char (c : N) : bool :=
  is_digit c || (c =? 45) || (c =? 43) || (c =? 46) || (c =? 101) || (c =? 69).

Definition punctuation (c : N) : option token :=
  if c =? 123 then Some TLBrace
  else if c =? 125 then Some TRBrace
  else if c =? 91 then Some TLBracket
  else if c =? 93 then Some TRBracket
  else if c =? 58 then Some TColon
  else if c =? 44 then Some TComma
  else None.

Fixpoint span_digits (s : jsstring) : jsstring * jsstring :=
  match s with
  | c :: r => if is_digit c
              then let '(ds, rest) := span_digits r in (c :: ds, rest)
              else ([], s)
  | [] => ([], [])
  end.

Definition digits_value (ds : jsstring) : Z :=
  fold_left (fun acc d => (10 * acc + (Z.of_N d - 48))%Z) ds 0%Z.

Definition is_nil {A : Type} (l : list A) : bool :=
  match l with
  | [] => true
  | _ => false
  end.

(** The exponent part, or nothing, up to the end of the lexeme. *)
Definition exponent_of (s : jsstring) : option Z :=
  match s with
  | [] => Some 0%Z
  | c :: r =>
      if (c =? 101) || (c =? 69) then
        let '(negative, r') :=
          match r with
          | 43 :: q => (false, q)
          | 45 :: q => (true, q)
          | _ => (false, r)
          end in
        let '(ds, rest) := span_digits r' in
        if is_nil ds || negb (is_nil rest) then None
        else Some (if negative then (- digits_value ds)%Z else digits_value ds)
      else None
  end.

(** The number grammar: an optional minus; a single zero, or a non-zero
    digit and more digits; optionally a point and one or more digits;
    optionally an exponent. *)
Definition number_of_lexeme (s : jsstring) : option (Z * Z) :=
  let '(negative, s1) :=
    match s with
    | 45 :: r => (true, r)
    | _ => (false, s)
    end in
  let '(int_part, s2) := span_digits s1 in
  match int_part with
  | [] => None
  | d :: more =>
      if (d =? 48) && negb (is_nil more) then None
      else
        let '(frac, s3) :=
          match s2 with
          | 46 :: r => let '(ds, rest) := span_digits r in (Some ds, rest)
          | _ => (None, s2)
          end in
        match frac with
        | Some [] => None
        | _ =>
            let frac_digits := match frac with Some ds => ds | None => [] end in
            match exponent_of s3 with
            | None => None
            | Some ex =>
                let m := digits_value (int_part ++ frac_digits) in
                Some (if negative then (- m)%Z else m,
                      (ex - Z.of_nat (List.length frac_digits))%Z)
            end
        end
  end.

Definition number_token (lexeme : jsstring) : option token :=
  match number_of_lexeme lexeme with
  | Some (m, e) => Some (TNumber m e)
  | None => None
  end.

Definition hex_value (c : N) : option N :=
  if is_digit c then Some (c - 48)
  else if (97 <=? c) && (c <=? 102) then Some (c - 87)
  else if (65 <=? c) && (c <=? 70) then Some (c - 55)
  else None.

Definition hex4 (a b c d : N) : option N :=
  match hex_value a, hex_value b, hex_value c, hex_value d with
  | Some x, Some y, Some z, Some w => Some (((x * 16 + y) * 16 + z) * 16 + w)
  | _, _, _, _ => None
  end.

(** The single-character escapes: quote, backslash, slash, b, f, n, r, t. *)
Definition simple_escape (c : N) : option N :=
  if c =? 34 then Some 34
  else if c =? 92 then Some 92
  else if c =? 47 then Some 47
  else if c =? 98 then Some 8
  else if c =? 102 then Some 12
  else if c =? 110 then Some 10
  else if c =? 114 then Some 13
  else if c =? 116 then Some 9
  else None.

Inductive lex_mode : Type :=
| Outside
| InString (acc : jsstring)     (* the content so far, reversed *)
| InNumber (acc : jsstring).    (* the lexeme so far, reversed *)

Definition cons_token (t : token) (rest : option (list token))
  : option (list token) :=
  option_map (cons t) rest.

(** The lexer.  A number is read as the longest run of number characters
    and then checked against the grammar; it must be followed by blank
    space, punctuation or the end of the text, as nothing else can follow
    a number in a JSON text. *)
Fixpoint lex (mode : lex_mode) (s : jsstring) : option (list token) :=
  match s with
  | [] =>
      match mode with
      | Outside => Some []
      | InString _ => None
      | InNumber acc => option_map (fun t => [t]) (number_token (rev acc))
      end
  | c :: r =>
      match mode with
      | Outside =>
          if is_json_space c then lex Outside r
          else if c =? 34 then lex (InString []) r
          else if is_number_char c then lex (InNumber [c]) r
          else
            match punctuation c with
            | Some t => cons_token t (lex Outside r)
            | None =>
                match s with
                | 116 :: 114 :: 117 :: 101 :: r' =>
                    cons_token TTrue (lex Outside r')
                | 102 :: 97 :: 108 :: 115 :: 101 :: r' =>
                    cons_token TFalse (lex Outside r')
                | 110 :: 117 :: 108 :: 108 :: r' =>
                    cons_token TNull (lex Outside r')
                | _ => None
                end
            end
      | InString acc =>
          if c =? 34 then cons_token (TString (rev acc)) (lex Outside r)
          else if c =? 92 then
            match r with
            | [] => None
            | e :: r1 =>
                if e =? 117 then
                  match r1 with
                  | h1 :: h2 :: h3 :: h4 :: r2 =>
                      match hex4 h1 h2 h3 h4 with
                      | Some u => lex (InString (u :: acc)) r2
                      | None => None
                      end
                  | _ => None
                  end
                else
                  match simple_escape e with
                  | Some x => lex (InString (x :: acc)) r1
                  | None => None
                  end
            end
          else if c <? 32 then None
          else lex (InString (c :: acc)) r
      | InNumber acc =>
          if is_number_char c then lex (InNumber (c :: acc)) r
          else
            match number_token (rev acc) with
            | None => None
            | Some t =>
                if is_json_space c then cons_token t (lex Outside r)
                else
                  match punctuation c with
                  | Some p => cons_token t (cons_token p (lex Outside r))
                  | None => None
                  end
            end
      end
  end.

(** The parser: a stack of the arrays and objects that are still open,
    and what may come next. *)
Inductive frame : Type :=
| InArray (acc : list value)                            (* reversed *)
| InObject (acc : list (jsstring * value)) (key : option jsstring).

Inductive phase : Type :=
| WantValue
| WantValueOrClose      (* just after an opening bracket *)
| WantKey
| WantKeyOrClose        (* just after an opening brace *)
| WantColon
| WantCommaOrClose
| Finished (v : value).

Definition parser_state : Type := list frame * phase.

(** A value is complete: it is the whole text, the next item of the
    innermost array, or the value of the pending key. *)
Definition complete (frames : list frame) (v : value) : option parser_state :=
  match frames with
  | [] => Some ([], Finished v)
  | InArray acc :: fs => Some (InArray (v :: acc) :: fs, WantCommaOrClose)
  | InObject acc (Some k) :: fs =>
      Some (InObject ((k, v) :: acc) None :: fs, WantCommaOrClose)
  | InObject _ None :: _ => None
  end.

Definition close_array (frames : list frame) : option parser_state :=
  match frames with
  | InArray acc :: fs => complete fs (Array (rev acc))
  | _ => None
  end.

Definition close_object (frames : list frame) : option parser_state :=
  match frames with
  | InObject acc None :: fs => complete fs (Object (rev acc))
  | _ => None
  end.

Definition start_value (frames : list frame) (t : token) : option parser_state :=
  match t with
  | TString s => complete frames (Str s)
  | TNumber m e => complete frames (Number m e)
  | TTrue => complete frames (Bool true)
  | TFalse => complete frames (Bool false)
  | TNull => complete frames Null
  | TLBracket => Some (InArray [] :: frames, WantValueOrClose)
  | TLBrace => Some (InObject [] None :: frames, WantKeyOrClose)
  | _ => None
  end.

Definition start_member (frames : list frame) (t : token) : option parser_state :=
  match t, frames with
  | TString k, InObject acc None :: fs =>
      Some (InObject acc (Some k) :: fs, WantColon)
  | _, _ => None
  end.

Definition step (st : parser_state) (t : token) : option parser_state :=
  let '(frames, ph) := st in
  match ph with
  | WantValue => start_value frames t
  | WantValueOrClose =>
      match t with
      | TRBracket => close_array frames
      | _ => start_value frames t
      end
  | WantKey => start_member frames t
  | WantKeyOrClose =>
      match t with
      | TRBrace => close_object frames
      | _ => start_member frames t
      end
  | WantColon =>
      match t with
      | TColon => Some (frames, WantValue)
      | _ => None
      end
  | WantCommaOrClose =>
      match t, frames with
      | TComma, InArray _ :: _ => Some (frames, WantValue)
      | TComma, InObject _ None :: _ => Some (frames, WantKey)
      | TRBracket, _ => close_array frames
      | TRBrace, _ => close_object frames
      | _, _ => None
      end
  | Finished _ => None
  end.

Fixpoint parse_tokens (st : parser_state) (ts : list token) : option parser_state :=
  match ts with
  | [] => Some st
  | t :: r => match step st t with
              | Some st' => parse_tokens st' r
              | None => None
              end
  end.

(** [JSON.parse(text)]: the value, or [None] where it throws a
    [SyntaxError]. *)
Definition JSON_parse (text : jsstring) : option value :=
  match lex Outside text with
  | None => None
  | Some ts =>
      match parse_tokens ([], WantValue) ts with
      | Some ([], Finished v) => Some v
      | _ => None
      end
  end.

(** ** Property reads and truthiness *)

Fixpoint last_member (k : jsstring) (l : list (jsstring * value)) : option value :=
  match l with
  | [] => None
  | (k', v) :: r =>
      match last_member k r with
      | Some v' => Some v'
      | None => if eqb_str k k' then Some v else None
      end
  end.

(** What a thrown error carries in its [message].  The texts the engine
    writes for its own errors are not fixed by the language. *)
Inductive message : Type :=
| Text (s : jsstring)
| SyntaxErrorMessage
| TypeErrorMessage.

(** A computation inside the [try] block: a value, or a thrown error. *)
Definition throws (A : Type) : Type := (message + A)%type.

(** [v.name] for one of the names the handler reads ([image],
    [candidates], [content], [parts], [text]), none of which is a built-in
    property of arrays, strings, numbers or booleans.  Reading a property
    of [undefined] or [null] throws a [TypeError]. *)
Definition get (v : value) (name : jsstring) : throws value :=
  match v with
  | Undefined | Null => inl TypeErrorMessage
  | Object members =>
      inr (match last_member name members with
           | Some x => x
           | None => Undefined
           end)
  | _ => inr Undefined
  end.

(** [v[0]] *)
Definition get0 (v : value) : throws value :=
  match v with
  | Undefined | Null => inl TypeErrorMessage
  | Object members =>
      inr (match last_member (str "0") members with
           | Some x => x
           | None => Undefined
           end)
  | Array items =>
      inr (match items with
           | x :: _ => x
           | [] => Undefined
           end)
  | Str s =>
      inr (match s with
           | c :: _ => Str [c]
           | [] => Undefined
           end)
  | _ => inr Undefined
  end.

(** Whether the double nearest to [m * 10^e] is a zero: the value is zero,
    or at most half the least positive double, [2^-1075]. *)
Definition rounds_to_zero (m e : Z) : bool :=
  ((m =? 0) || ((e <? 0) && (Z.abs m * 2 ^ 1075 <=? 10 ^ (- e))))%Z.

(** [!v] *)
Definition falsy (v : value) : bool :=
  match v with
  | Undefined | Null => true
  | Bool b => negb b
  | Number m e => rounds_to_zero m e
  | Str s => is_nil s
  | Array _ | Object _ => false
  end.

(** ** The handler *)

Record request : Type := {
  method : jsstring;
  req_body : jsstring }.

(** The body handed to [new Response]: a plain text, [JSON.stringify] of
    a parsed value, or [JSON.stringify({ error: m })]. *)
Inductive body : Type :=
| Plain (s : jsstring)
| Json (v : value)
| ErrorJson (m : message).

Record response : Type := {
  status : Z;
  headers : list (jsstring * jsstring);
  res_body : body }.

(** The one outbound call, and what comes back from it: a rejected
    promise, or a response with its [ok] flag, status text and body. *)
Record fetch_call : Type := {
  url : jsstring;
  fetch_method : jsstring;
  fetch_headers : list (jsstring * jsstring);
  fetch_body : value }.

Record fetch_response : Type := {
  ok : bool;
  statusText : jsstring;
  res_text : jsstring }.

Definition fetch_result : Type := throws fetch_response.

(** A handler run: it ends with a result, or calls [fetch] and goes on
    with what the call gives. *)
Inductive io (A : Type) : Type :=
| Done (a : A)
| Fetch (c : fetch_call) (k : fetch_result -> io A).
Arguments Done {A} a.
Arguments Fetch {A} c k.

(** Running a handler against an upstream: the result and the calls made,
    in order. *)
Fixpoint run {A : Type} (upstream : fetch_call -> fetch_result) (p : io A)
  : A * list fetch_call :=
  match p with
  | Done a => (a, [])
  | Fetch c k => let '(a, calls) := run upstream (k (upstream c)) in
                 (a, c :: calls)
  end.

Definition corsHeaders : list (jsstring * jsstring) :=
  [ (str "Access-Control-Allow-Origin", str "*");
    (str "Access-Control-Allow-Headers",
     str "authorization, x-client-info, apikey, content-type") ].

Definition prompt : jsstring :=
  str "Analyze the attached image of food. Return a JSON object with your best estimate of the total calories, protein (in grams), carbohydrates (in grams), and fat (in grams). The JSON object should have only the following keys: 'calories_kcal', 'protein_g', 'carb_g', 'fat_g'. Do not return any other text or explanation, only the raw JSON object.".

Definition payload (image : value) : value :=
  Object
    [ (str "contents",
       Array
         [ Object
             [ (str "parts",
                Array
                  [ Object [ (str "text", Str prompt) ];
                    Object
                      [ (str "inline_data",
                         Object [ (str "mime_type", Str (str "image/jpeg"));
                                  (str "data", image) ]) ] ]) ] ]) ].

Definition json_headers : list (jsstring * jsstring) :=
  corsHeaders ++ [ (str "Content-Type", str "application/json") ].

Definition error_response (m : message) : response :=
  {| status := 400; headers := json_headers; res_body := ErrorJson m |}.

Definition ok_response (nutritionData : value) : response :=
  {| status := 200; headers := json_headers; res_body := Json nutritionData |}.

(** [await x.json()]: the body text parsed as JSON. *)
Definition json_of (text : jsstring) : throws value :=
  match JSON_parse text with
  | Some v => inr v
  | None => inl SyntaxErrorMessage
  end.

Definition and_then {A B : Type} (x : throws A) (k : A -> throws B) : throws B :=
  match x with
  | inl m => inl m
  | inr a => k a
  end.

(** The first statements of the [try] block, up to the check of [image]. *)
Definition image_of (req : request) : throws value :=
  and_then (json_of (req_body req)) (fun parsed =>
  and_then (get parsed (str "image")) (fun image =>
  if falsy image then inl (Text (str "No image data provided."))
  else inr image)).

(** [text.replace(/```json/g, '').replace(/```/g, '').trim()], where the
    method call itself throws unless [text] is a string. *)
Definition jsonString_of (text : value) : throws jsstring :=
  match text with
  | Str s => inr (trim (remove_all (str "```") (remove_all (str "```json") s)))
  | _ => inl TypeErrorMessage
  end.

(** [geminiData.candidates[0].content.parts[0].text] *)
Definition reply_text (geminiData : value) : throws value :=
  and_then (get geminiData (str "candidates")) (fun candidates =>
  and_then (get0 candidates) (fun candidate =>
  and_then (get candidate (str "content")) (fun content =>
  and_then (get content (str "parts")) (fun parts =>
  and_then (get0 parts) (fun part =>
  get part (str "text")))))).

(** The statements of the [try] block after the call to [fetch]. *)
Definition nutritionData_of (fetched : fetch_result) : throws value :=
  and_then fetched (fun geminiResponse =>
  if negb (ok geminiResponse)
  then inl (Text (str "Gemini API error: " ++ statusText geminiResponse
                    ++ str " - " ++ res_text geminiResponse))
  else
    and_then (json_of (res_text geminiResponse)) (fun geminiData =>
    and_then (reply_text geminiData) (fun text =>
    and_then (jsonString_of text) (fun jsonString =>
    json_of jsonString)))).

Section Serve.

(** [Deno.env.get('GEMINI_API_KEY')], read once when the module loads. *)
Variable GEMINI_API_KEY : option jsstring.

Definition GEMINI_API_URL : jsstring :=
  str "https://generativelanguage.googleapis.com/v1beta/models/gemini-pro-vision:generateContent?key="
    ++ match GEMINI_API_KEY with
       | Some k => k
       | None => str "undefined"
       end.

Definition gemini_call (image : value) : fetch_call :=
  {| url := GEMINI_API_URL;
     fetch_method := str "POST";
     fetch_headers := [ (str "Content-Type", str "application/json") ];
     fetch_body := payload image |}.

(** The handler passed to [serve]. *)
Definition serve (req : request) : io response :=
  if eqb_str (method req) (str "OPTIONS")
  then Done {| status := 200; headers := corsHeaders;
               res_body := Plain (str "ok") |}
  else
    match image_of req with
    | inl m => Done (error_response m)
    | inr image =>
        Fetch (gemini_call image) (fun fetched =>
          Done (match nutritionData_of fetched with
                | inl m => error_response m
                | inr nutritionData => ok_response nutritionData
                end))
    end.

End Serve.

(** Running the handler against an upstream: the response alone. *)
Definition respond (GEMINI_API_KEY : option jsstring)
    (upstream : fetch_call -> fetch_result) (req : request) : response :=
  fst (run upstream (serve GEMINI_API_KEY req)).

(** ** The specification's wording *)

(** A reply text wrapped in fenced code-block markers: the opening
    marker, the wrapped text, the closing marker. *)
Definition fenced (inner : jsstring) : jsstring :=
  str "```json" ++ inner ++ str "```".

(** The specification's reading of such a reply: the markers stripped,
    the remainder trimmed and parsed. *)
Definition parse_wrapped (inner : jsstring) : throws value :=
  json_of (trim inner).

(** The two markers, as code units. *)
Definition fence : jsstring := [96; 96; 96].
Definition fence_json : jsstring := [96; 96; 96; 106; 115; 111; 110].

(** Whether [p] occurs in [s]. *)
Fixpoint contains (p s : jsstring) : bool :=
  is_prefix p s ||
  match s with
  | [] => false
  | _ :: r => contains p r
  end.

Definition is_number (v : value) : bool :=
  match v with
  | Number _ _ => true
  | _ => false
  end.

Definition nutrition_fields : list jsstring :=
  [ str "calories_kcal"; str "protein_g"; str "carb_g"; str "fat_g" ].

(** A mapping with exactly the four numeric fields: each of the four names
    is a member holding a number, and there is no member of another name. *)
Definition four_numeric_fields (v : value) : bool :=
  match v with
  | Object members =>
      forallb (fun k => match last_member k members with
                        | Some x => is_number x
                        | None => false
                        end) nutrition_fields
      && forallb (fun kv => existsb (eqb_str (fst kv)) nutrition_fields) members
  | _ => false
  end.

(** ** Sample data *)

Module Sample.

(** A text of the samples, written with an apostrophe wherever the text
    has a double quote. *)
Definition quoted (s : string) : jsstring :=
  map (fun c => if c =? 39 then 34 else c) (str s).

Definition line_feed : jsstring := [10].

Definition post (body_text : jsstring) : request :=
  {| method := str "POST"; req_body := body_text |}.

Definition scan_request : request := post (quoted "{'image': 'aGVsbG8='}").

(** An upstream that answers every call with [200 OK] and the given body. *)
Definition answering (body_text : jsstring) : fetch_call -> fetch_result :=
  fun _ => inr {| ok := true; statusText := str "OK"; res_text := body_text |}.

(** The model answers with one field only. *)
Definition one_field_reply : jsstring :=
  quoted "{'candidates': [{'content': {'parts': [{'text': '{\'calories_kcal\': 250}'}]}}]}".

(** The model answers with a fenced object, one of whose strings holds
    three backticks. *)
Definition backticks_inside : jsstring :=
  line_feed ++ quoted "{'note': '```'}" ++ line_feed.

Definition backticks_reply : jsstring :=
  quoted "{'candidates': [{'content': {'parts': [{'text': '```json\n{\'note\': \'```\'}\n```'}]}}]}".

(** The model answers with the four fields, fenced. *)
Definition four_fields_inside : jsstring :=
  line_feed
    ++ quoted "{'calories_kcal': 250, 'protein_g': 12.5, 'carb_g': 30, 'fat_g': 9}"
    ++ line_feed.

Definition four_fields_reply : jsstring :=
  quoted "{'candidates': [{'content': {'parts': [{'text': '```json\n{\'calories_kcal\': 250, \'protein_g\': 12.5, \'carb_g\': 30, \'fat_g\': 9}\n```'}]}}]}".

End Sample.

End FoodScan.

(* ================================================================= *)
(** * Part III: properties of the database procedures                 *)
(* ================================================================= *)

Module PgFacts.

Import Pg.
#[local] Open Scope plpgsql_scope.

(** ** Running the monad *)

Lemma bind_inr {A B : Type} (c : plpgsql A) (k : A -> plpgsql B) db b db' :
  bind c k db = (inr b, db') ->
  exists a db1, c db = (inr a, db1) /\ k a db1 = (inr b, db').
Proof.
  unfold bind. destruct (c db) as [[e | a] db1]; intros H.
  - discriminate.
  - exists a, db1. auto.
Qed.

Lemma bind_inl {A B : Type} (c : plpgsql A) (k : A -> plpgsql B) db e db' :
  bind c k db = (inl e, db') ->
  c db = (inl e, db') \/
  exists a db1, c db = (inr a, db1) /\ k a db1 = (inl e, db').
Proof.
  unfold bind. destruct (c db) as [[e1 | a] db1]; intros H.
  - left. inversion H; subst. reflexivity.
  - right. exists a, db1. auto.
Qed.

Lemma require_inr holds e db u db' :
  require holds e db = (inr u, db') -> holds = true /\ db' = db.
Proof.
  destruct holds; cbn; intros H; inversion H; auto.
Qed.

Lemma not_null_inr {A : Type} (x : option A) db a db' :
  not_null x db = (inr a, db') -> x = Some a /\ db' = db.
Proof.
  destruct x; cbn; intros H; inversion H; auto.
Qed.

Lemma eval_inr {A : Type} (r : sqlstate + A) db a db' :
  eval r db = (inr a, db') -> r = inr a /\ db' = db.
Proof.
  destruct r; cbn; intros H; inversion H; auto.
Qed.

Lemma ret_inr {A : Type} (x : A) db a db' :
  ret x db = (inr a, db') -> a = x /\ db' = db.
Proof.
  cbn; intros H; inversion H; auto.
Qed.

Lemma get_rows_inr db t db' :
  get_rows db = (inr t, db') -> t = rows db /\ db' = db.
Proof.
  cbn; intros H; inversion H; auto.
Qed.

Lemma set_rows_inr t db u db' :
  set_rows t db = (inr u, db') -> db' = {| rows := t; seqs := seqs db |}.
Proof.
  cbn; intros H; inversion H; auto.
Qed.

Lemma nextval_inr get set db v db' :
  nextval get set db = (inr v, db') ->
  v = get (seqs db) /\ v <= int8_max /\
  db' = {| rows := rows db; seqs := set (v + 1) (seqs db) |}.
Proof.
  unfold nextval. destruct (get (seqs db) <=? int8_max) eqn:E; intros H.
  - inversion H; subst. apply Z.leb_le in E. auto.
  - discriminate.
Qed.

(** Taking a successful run apart, statement by statement. *)
Ltac run_inv H :=
  match type of H with
  | bind _ _ _ = (inr _, _) =>
      let a := fresh "a" in
      let d := fresh "db" in
      let H1 := fresh "Hrun" in
      let H2 := fresh "Hrun" in
      apply bind_inr in H; destruct H as (a & d & H1 & H2);
      run_inv H1; run_inv H2
  | require _ _ _ = (inr _, _) =>
      let Hc := fresh "Hreq" in
      apply require_inr in H; destruct H as [Hc ->]
  | not_null _ _ = (inr _, _) =>
      let Hc := fresh "Hnn" in
      apply not_null_inr in H; destruct H as [Hc ->]
  | eval _ _ = (inr _, _) =>
      let Hc := fresh "Hev" in
      apply eval_inr in H; destruct H as [Hc ->]
  | ret _ _ = (inr _, _) =>
      apply ret_inr in H; destruct H as [-> ->]
  | get_rows _ = (inr _, _) =>
      apply get_rows_inr in H; destruct H as [-> ->]
  | set_rows _ _ = (inr _, _) =>
      apply set_rows_inr in H; subst
  | nextval _ _ _ = (inr _, _) =>
      let Hv := fresh "Hseq" in
      let Hb := fresh "Hmax" in
      apply nextval_inr in H; destruct H as (Hv & Hb & ->)
  | _ => idtac
  end.

(** What [call] leaves behind. *)
Lemma call_returned {A : Type} (c : plpgsql A) db a db' :
  call c db = (Returned a, db') <-> c db = (inr a, db').
Proof.
  unfold call. destruct (c db) as [[e | x] w]; split; intros H;
    inversion H; subst; reflexivity.
Qed.

Lemma call_raised {A : Type} (c : plpgsql A) db e db' :
  call c db = (Raised e, db') <->
  exists w, c db = (inl e, w) /\ db' = rollback_to db w.
Proof.
  unfold call. destruct (c db) as [[e1 | x] w]; split.
  - intros H; inversion H; subst. exists w. auto.
  - intros (w' & H & ->). inversion H; subst. reflexivity.
  - discriminate.
  - intros (w' & H & _). discriminate.
Qed.

(** A loop raises what its first failing iteration raises. *)
Lemma for_each_raises {X : Type} (body : X -> plpgsql unit) done x rest :
  forall db mid e w,
    for_each done body db = (inr tt, mid) ->
    body x mid = (inl e, w) ->
    for_each (done ++ x :: rest) body db = (inl e, w).
Proof.
  induction done as [| y done IH]; intros db mid e w Hdone Hx.
  - cbn in Hdone. inversion Hdone; subst. cbn. unfold bind. rewrite Hx. reflexivity.
  - cbn in Hdone. apply bind_inr in Hdone. destruct Hdone as ([] & db1 & Hy & Hrest).
    cbn. unfold bind at 1. rewrite Hy. eapply IH; eauto.
Qed.


(** ** create_full_program: failure *)

Section CreateFullProgramCall.

Variables (auth_uid : option uuid) (program_name program_description : option text)
          (client_id_in : option uuid) (days : option jsonb).

#[local] Abbreviation the_call :=
  (create_full_program auth_uid program_name program_description
     client_id_in days).

(** The only value the function ever returns is the success object. *)
Lemma create_full_program_returns_success db v db' :
  call the_call db = (Returned v, db') ->
  exists new_program_id, v = msg_program_created new_program_id.
Proof.
  intros H. apply call_returned in H.
  unfold create_full_program in H.
  apply bind_inr in H. destruct H as (new_program_id & db1 & _ & H).
  apply bind_inr in H. destruct H as (day_rows & db2 & _ & H).
  apply bind_inr in H. destruct H as (u & db3 & _ & H).
  apply ret_inr in H. destruct H as [-> _].
  exists new_program_id. reflexivity.
Qed.

(** So an error inside the function is never turned into a value: the
    caller gets the error itself. *)
Lemma create_full_program_error_is_raised db e w :
  the_call db = (inl e, w) ->
  fst (call the_call db) = Raised e.
Proof.
  intros H. unfold call. rewrite H. reflexivity.
Qed.


End CreateFullProgramCall.

(** The failing assignment is the second one of the second day; the
    working state held the program, both days and two assignments. *)
Lemma rolled_back_rows_were_there :
  exists w,
    create_full_program (Some Sample.trainer1) (Some "Push Pull Legs") None
      (Some Sample.client1) (Some (JArray Sample.bad_exercise)) Sample.base
    = (inl foreign_key_violation, w) /\
    List.length (training_programs (rows w)) = 1%nat /\
    List.length (training_days (rows w)) = 2%nat /\
    List.length (program_exercises (rows w)) = 2%nat.
Proof.
  eexists. split; [ vm_compute; reflexivity | ]. repeat split.
Qed.


(** ** create_full_program: a failure at position (i, j) *)

(** The program row is in, the days before the [i]-th are in, the [i]-th
    day row is in, its first [j] assignments are in, and the next
    assignment insert fails: the call raises that error, and the tables
    are those before the call. *)
Lemma failing_assignment_rolls_back
    (auth_uid : option uuid) (program_name program_description : option text)
    (client_id_in : option uuid)
    (days_before days_after : list jsonb) (day : jsonb)
    (before after : list jsonb) (x : jsonb)
    (db db1 db2 db3 db4 w : database) (new_program_id new_day_id : Z)
    (e : sqlstate) :
  insert_training_programs auth_uid program_name program_description
    auth_uid client_id_in db = (inr new_program_id, db1) ->
  for_each days_before (insert_day_of auth_uid new_program_id) db1
  = (inr tt, db2) ->
  insert_training_days auth_uid (Some new_program_id)
    (arrow_text (Some day) "name")
    (cast int4in (arrow_text (Some day) "day_order")) db2
  = (inr new_day_id, db3) ->
  jsonb_array_elements (arrow (Some day) "exercises")
  = inr (before ++ x :: after)%list ->
  for_each before (insert_exercise_of auth_uid new_day_id) db3 = (inr tt, db4) ->
  insert_exercise_of auth_uid new_day_id x db4 = (inl e, w) ->
  exists db',
    call (create_full_program auth_uid program_name program_description
            client_id_in (Some (JArray (days_before ++ day :: days_after))))
      db
    = (Raised e, db') /\
    rows db' = rows db.
Proof.
  intros Hprogram Hdays Hday Hitems Hbefore Hx.
  assert (Hthis : insert_day_of auth_uid new_program_id day db2 = (inl e, w)).
  { unfold insert_day_of, bind at 1. rewrite Hday.
    unfold bind at 1. rewrite Hitems. cbn [eval ret].
    eapply for_each_raises; eauto. }
  exists (rollback_to db w). split; [ | reflexivity ].
  apply call_raised. exists w. split; [ | reflexivity ].
  unfold create_full_program, bind at 1. rewrite Hprogram.
  unfold bind at 1. cbn [eval jsonb_array_elements ret].
  unfold bind at 1.
  rewrite (for_each_raises _ days_before day days_after db1 db2 e w Hdays Hthis).
  reflexivity.
Qed.

(** C4, at a failing input.  A program for a client id that is no
    profile: the foreign key fails, and the call raises; it does not
    return an object with an error status. *)
Theorem create_full_program_unknown_client_raises :
  fst (call (create_full_program (Some Sample.trainer1)
               (Some "Push Pull Legs") None (Some Sample.nobody)
               (Some (JArray Sample.push_pull_legs)))
         Sample.base)
  = Raised foreign_key_violation.
Proof. vm_compute. reflexivity. Qed.

(** ** create_full_program: no days *)




(** ** add_client_by_email *)

Lemma find_profile_exists (f : profile -> bool) (t : tables) (p : profile) :
  find f (profiles t) = Some p -> profile_exists t (p_id p) = true.
Proof.
  intros H. apply find_some in H. destruct H as [Hin _].
  unfold profile_exists. apply existsb_exists. exists p. split; [ exact Hin | ].
  apply String.eqb_refl.
Qed.

Lemma in_profile_exists (t : tables) (p : profile) :
  In p (profiles t) -> profile_exists t (p_id p) = true.
Proof.
  intros H. unfold profile_exists. apply existsb_exists. exists p.
  split; [ exact H | apply String.eqb_refl ].
Qed.


(** C9.  The caller's role is never looked at: whoever the caller is,
    as long as it is a profile, a client found by email and not yet
    linked to the caller is linked, with the caller as [trainer_id]; the
    caller may be a client, and may be the target itself. *)
Theorem add_client_by_email_any_caller (caller target : profile)
    (email : text) (db : database) :
  In caller (profiles (rows db)) ->
  find (fun p => is_true_eq (p_email p) (Some email)) (profiles (rows db))
  = Some target ->
  p_role target = "client" ->
  link_exists (rows db) (p_id caller) (p_id target) = false ->
  exists db',
    call (add_client_by_email (Some (p_id caller)) (Some email)) db
    = (Returned (msg_client_added (Some (p_id target))), db') /\
    clients (rows db')
    = (clients (rows db)
         ++ [ {| c_trainer_id := p_id caller;
                 c_client_id := p_id target |} ])%list.
Proof.
  intros Hcaller Hfind Hrole Hlink.
  unfold call, add_client_by_email, block_exception, select_profile_by_email,
    bind, get_rows, ret.
  rewrite Hfind. unfold record_is_null, role_is_not_client.
  cbn [cr_id cr_role]. rewrite Hrole. cbn [String.eqb Ascii.eqb Bool.eqb negb].
  unfold insert_clients, bind, not_null, get_rows, require, set_rows, ret.
  rewrite Hlink. cbn [negb].
  rewrite (in_profile_exists _ _ Hcaller), (find_profile_exists _ _ _ Hfind).
  eexists. split; reflexivity.
Qed.

(** A client who adds their own email becomes their own trainer. *)
Lemma add_client_by_email_any_caller_witness :
  let me := {| p_id := Sample.client1; p_full_name := None;
               p_email := Some "client@example.org"; p_role := "client" |} in
  exists db',
    call (add_client_by_email (Some Sample.client1)
            (Some "client@example.org")) Sample.base
    = (Returned (msg_client_added (Some Sample.client1)), db') /\
    clients (rows db')
    = [ {| c_trainer_id := Sample.client1; c_client_id := Sample.client1 |} ].
Proof.
  intros me.
  apply (add_client_by_email_any_caller me me "client@example.org" Sample.base).
  - cbn. right. left. reflexivity.
  - reflexivity.
  - reflexivity.
  - reflexivity.
Defined.


(** ** handle_new_user *)

Lemma fresh_account_has_no_profile (t : tables) (id : uuid) :
  fk_profiles t = true ->
  account_exists t id = false ->
  profile_exists t id = false.
Proof.
  intros Hfk Hnew. unfold profile_exists.
  destruct (existsb _ (profiles t)) eqn:E; [ | reflexivity ].
  apply existsb_exists in E. destruct E as (p & Hin & Heq).
  unfold fk_profiles in Hfk. rewrite forallb_forall in Hfk.
  apply String.eqb_eq in Heq. rewrite <- Heq, (Hfk p Hin) in Hnew.
  discriminate.
Qed.

Lemma role_allowed_iff (r : text) :
  role_allowed r = true <-> r = "trainer" \/ r = "client".
Proof.
  unfold role_allowed. rewrite orb_true_iff, !String.eqb_eq. tauto.
Qed.

Lemma account_exists_app (t : tables) (new : auth_user) :
  account_exists (with_auth_users (auth_users t ++ [new]) t) (au_id new) = true.
Proof.
  unfold account_exists. cbn. rewrite existsb_app. cbn.
  rewrite String.eqb_refl. apply orb_true_iff. right. reflexivity.
Qed.

(** C10.  Registering a new account, on a database that respects the
    foreign key of [profiles.id]: the trigger, and with it the whole
    registration, fails exactly when the metadata's [role] is neither
    ['trainer'] nor ['client'] (absent included) or the email is already
    that of a profile; a failed registration leaves no account row.
    Otherwise the registration succeeds and the new profile carries the
    metadata's [full_name], which is [NULL] when the metadata has none. *)
Theorem handle_new_user_fails_iff (new : auth_user) (db : database) :
  let role := arrow_text (au_raw_user_meta_data new) "role" in
  let full_name := arrow_text (au_raw_user_meta_data new) "full_name" in
  let invalid :=
    (role <> Some "trainer" /\ role <> Some "client")
    \/ email_taken (rows db) (au_email new) = true in
  fk_profiles (rows db) = true ->
  account_exists (rows db) (au_id new) = false ->
  ((exists e w,
      handle_new_user new
        {| rows := with_auth_users (auth_users (rows db) ++ [new]) (rows db);
           seqs := seqs db |}
      = (inl e, w)) <-> invalid) /\
  ((exists e db',
      call (insert_auth_users new) db = (Raised e, db') /\
      rows db' = rows db) <-> invalid) /\
  (~ invalid ->
   exists r db',
     role = Some r /\
     call (insert_auth_users new) db = (Returned tt, db') /\
     profiles (rows db')
     = (profiles (rows db)
          ++ [ {| p_id := au_id new; p_full_name := full_name;
                  p_email := au_email new; p_role := r |} ])%list) /\
  (arrow (au_raw_user_meta_data new) "full_name" = None -> full_name = None).
Proof.
  intros role full_name invalid Hfk Hnew.
  pose proof (fresh_account_has_no_profile _ _ Hfk Hnew) as Hnoprofile.
  pose proof (account_exists_app (rows db) new) as Hacc.
  assert (Hhook :
    forall db1, db1 = {| rows := with_auth_users (auth_users (rows db) ++ [new]) (rows db);
                         seqs := seqs db |} ->
    (invalid /\ exists e, handle_new_user new db1 = (inl e, db1)) \/
    (~ invalid /\ exists r, role = Some r /\
       handle_new_user new db1
       = (inr new,
          {| rows := with_profiles
                       (profiles (rows db)
                          ++ [ {| p_id := au_id new; p_full_name := full_name;
                                  p_email := au_email new; p_role := r |} ])
                       (rows db1);
             seqs := seqs db |}))).
  { intros db1 ->.
    unfold handle_new_user, insert_profiles, bind, not_null, get_rows, ret.
    fold role. fold full_name. cbn.
    destruct role as [r |] eqn:Hr; cbn.
    - destruct (role_allowed r) eqn:Hallowed; cbn.
      + unfold profile_exists in *. cbn. rewrite Hnoprofile. cbn.
        unfold email_taken in *. cbn.
        destruct (existsb _ (profiles (rows db))) eqn:Hemail; cbn.
        * left. split; [ right; reflexivity | eauto ].
        * unfold account_exists in Hacc. cbn in Hacc. rewrite Hacc. cbn.
          right. split.
          -- intros [[Ht Hc] | Htaken]; [ | discriminate ].
             apply role_allowed_iff in Hallowed.
             destruct Hallowed as [E | E]; [ apply Ht | apply Hc ];
               rewrite E; reflexivity.
          -- exists r. split; reflexivity.
      + left. split; [ | eauto ]. left.
        split; intros H; inversion H; subst; discriminate.
    - left. split; [ | eauto ]. left. split; discriminate. }
  specialize (Hhook _ eq_refl).
  assert (Hinsert :
    forall c : plpgsql auth_user,
      c = handle_new_user new ->
      insert_auth_users new db
      = match c {| rows := with_auth_users (auth_users (rows db) ++ [new]) (rows db);
                   seqs := seqs db |} with
        | (inr _, d) => (inr tt, d)
        | (inl e, d) => (inl e, d)
        end).
  { intros c ->. unfold insert_auth_users, bind, get_rows, set_rows, require, ret.
    rewrite Hnew. cbn.
    destruct (handle_new_user new _) as [[e | a] d]; reflexivity. }
  specialize (Hinsert _ eq_refl).
  repeat split.
  - intros (e & w & Hfail).
    destruct Hhook as [[Hinv _] | [_ (r & _ & Hok)]]; [ exact Hinv | ].
    rewrite Hok in Hfail. discriminate.
  - intros Hinv.
    destruct Hhook as [[_ (e & Hfail)] | [Hvalid _]]; [ eauto | contradiction ].
  - intros (e & db' & Hcall & _).
    destruct Hhook as [[Hinv _] | [_ (r & _ & Hok)]]; [ exact Hinv | ].
    unfold call in Hcall. rewrite Hinsert, Hok in Hcall. discriminate.
  - intros Hinv.
    destruct Hhook as [[_ (e & Hfail)] | [Hvalid _]]; [ | contradiction ].
    exists e. eexists. unfold call. rewrite Hinsert, Hfail. split; reflexivity.
  - intros Hvalid.
    destruct Hhook as [[Hinv _] | [_ (r & Hr & Hok)]]; [ contradiction | ].
    exists r. eexists. split; [ exact Hr | ].
    unfold call. rewrite Hinsert, Hok. split; reflexivity.
  - intros Hmissing. unfold full_name, arrow_text. rewrite Hmissing. reflexivity.
Qed.

(** A registration without [full_name]. *)
Lemma handle_new_user_fails_iff_witness :
  let new := {| au_id := "33333333-3333-3333-3333-333333333333";
                au_email := Some "new@example.org";
                au_raw_user_meta_data :=
                  Some (JObject [("role", JString "client")]) |} in
  exists db',
    call (insert_auth_users new) Sample.base = (Returned tt, db') /\
    profiles (rows db')
    = (profiles (rows Sample.base)
         ++ [ {| p_id := au_id new; p_full_name := None;
                 p_email := au_email new; p_role := "client" |} ])%list.
Proof.
  intros new.
  destruct (handle_new_user_fails_iff new Sample.base)
    as (_ & _ & Hok & _).
  - vm_compute. reflexivity.
  - vm_compute. reflexivity.
  - destruct Hok as (r & db' & Hr & Hcall & Hrows).
    + intros [[_ Hc] | Htaken]; [ apply Hc; reflexivity | discriminate ].
    + exists db'. split; [ exact Hcall | ].
      rewrite Hrows. inversion Hr; subst. reflexivity.
Defined.


(** ** create_full_program: the rows of a successful call *)

Lemma cast_given input (j : jsonb) (k : text) (v : option Z) :
  cast input (arrow_text (Some j) k) = inr v -> given input j k = v.
Proof.
  unfold given. intros ->. reflexivity.
Qed.

Lemma after_exercises_nil db : after_exercises db [] = db.
Proof.
  destruct db as [t s]. destruct t, s. unfold after_exercises. cbn.
  rewrite app_nil_r, Z.add_0_r. reflexivity.
Qed.

Lemma after_exercises_cons db x xs :
  after_exercises (after_exercises db [x]) xs = after_exercises db (x :: xs).
Proof.
  destruct db as [t s]. destruct t, s. unfold after_exercises.
  cbn -[Z.add Z.of_nat]. rewrite <- app_assoc. cbn [app].
  f_equal. unfold set_program_exercises_id_seq.
  cbn [training_programs_id_seq training_days_id_seq program_exercises_id_seq].
  f_equal. lia.
Qed.

(** Using what the successful statements established. *)
Ltac use_values :=
  repeat match goal with
         | E : Some _ = Some _ |- _ => inversion E; subst; clear E
         | E : cast _ (arrow_text (Some _) _) = inr _ |- _ =>
             apply cast_given in E
         end.

Ltac rewrite_given :=
  repeat match goal with
         | E : given _ _ _ = _ |- _ => rewrite E; clear E
         end.

(** One assignment insert that succeeds appends the row the descriptor
    describes, under the next id. *)
Lemma insert_exercise_of_ok auth_uid new_day_id exercise_data db db' :
  insert_exercise_of auth_uid new_day_id exercise_data db = (inr tt, db') ->
  db' = after_exercises db
          [ exercise_row (program_exercises_id_seq (seqs db)) new_day_id
              exercise_data ].
Proof.
  unfold insert_exercise_of, insert_program_exercises. intros H.
  run_inv H. use_values.
  unfold after_exercises, exercise_row, exercise_id_of. cbn.
  rewrite_given. reflexivity.
Qed.

Lemma inner_loop_ok auth_uid new_day_id xs :
  forall db db',
    for_each xs (insert_exercise_of auth_uid new_day_id) db = (inr tt, db') ->
    db' = after_exercises db
            (exercise_rows (program_exercises_id_seq (seqs db)) new_day_id xs).
Proof.
  induction xs as [| x xs IH]; intros db db' H.
  - cbn in H. inversion H; subst. symmetry. apply after_exercises_nil.
  - cbn [for_each] in H. apply bind_inr in H.
    destruct H as ([] & db1 & Hx & Hrest).
    apply insert_exercise_of_ok in Hx. apply IH in Hrest. subst db1.
    rewrite Hrest. cbn [exercise_rows].
    rewrite after_exercises_cons. reflexivity.
Qed.

(** One day of the outer loop: the day row under the next day id, then
    its assignments; the day id was not in use. *)
Lemma insert_day_of_ok auth_uid new_program_id day_data db db' :
  insert_day_of auth_uid new_program_id day_data db = (inr tt, db') ->
  db' = after_one_day new_program_id db day_data /\
  day_exists (rows db) (training_days_id_seq (seqs db)) = false.
Proof.
  unfold insert_day_of, insert_training_days. intros H.
  run_inv H. use_values.
  match goal with
  | L : for_each _ _ _ = _ |- _ => apply inner_loop_ok in L; rewrite L
  end.
  split.
  - unfold after_one_day, after_day, day_row, exercises_of.
    rewrite_given.
    repeat match goal with
           | E : arrow_text _ _ = Some _ |- _ => rewrite E; clear E
           | E : jsonb_array_elements _ = inr _ |- _ => rewrite E; clear E
           end.
    reflexivity.
  - match goal with
    | F : negb (day_exists _ _) = true |- _ =>
        apply negb_true_iff in F; exact F
    end.
Qed.

Lemma day_exists_app t row id :
  day_exists (with_training_days (training_days t ++ [row]) t) id = false ->
  day_exists t id = false.
Proof.
  unfold day_exists. cbn. rewrite existsb_app.
  intros H. apply orb_false_iff in H. tauto.
Qed.

Lemma outer_loop_ok auth_uid new_program_id ds :
  forall db db',
    for_each ds (insert_day_of auth_uid new_program_id) db = (inr tt, db') ->
    db' = after_days new_program_id db ds /\
    forall i, (i < List.length ds)%nat ->
      day_exists (rows db) (training_days_id_seq (seqs db) + Z.of_nat i) = false.
Proof.
  induction ds as [| d ds IH]; intros db db' H.
  - cbn in H. inversion H; subst. split; [ reflexivity | ].
    cbn. intros i Hi. lia.
  - cbn [for_each] in H. apply bind_inr in H.
    destruct H as ([] & db1 & Hd & Hrest).
    apply insert_day_of_ok in Hd. destruct Hd as [-> Hfresh].
    apply IH in Hrest. destruct Hrest as [-> Hlater].
    split; [ reflexivity | ].
    intros [| i] Hi.
    + rewrite Z.add_0_r. exact Hfresh.
    + cbn [List.length] in Hi. specialize (Hlater i ltac:(lia)).
      cbn in Hlater. apply day_exists_app in Hlater.
      replace (training_days_id_seq (seqs db) + Z.of_nat (S i))
        with (training_days_id_seq (seqs db) + 1 + Z.of_nat i) by lia.
      exact Hlater.
Qed.


Lemma exercise_rows_length id day_id xs :
  List.length (exercise_rows id day_id xs) = List.length xs.
Proof.
  revert id. induction xs as [| x xs IH]; intros id; cbn; [ | rewrite IH ];
    reflexivity.
Qed.

Lemma exercise_rows_day id day_id xs x :
  In x (exercise_rows id day_id xs) -> pe_day_id x = day_id.
Proof.
  revert id. induction xs as [| y xs IH]; intros id; cbn.
  - intros [].
  - intros [<- | H]; [ reflexivity | eapply IH; eauto ].
Qed.

Lemma exercise_rows_orders id day_id xs :
  map pe_exercise_order (exercise_rows id day_id xs)
  = map (fun x => given int4in x "exercise_order") xs.
Proof.
  revert id. induction xs as [| y xs IH]; intros id; cbn;
    [ | rewrite IH ]; reflexivity.
Qed.

Lemma day_rows_length id program_id ds :
  List.length (day_rows id program_id ds) = List.length ds.
Proof.
  revert id. induction ds as [| d ds IH]; intros id; cbn; [ | rewrite IH ];
    reflexivity.
Qed.

Lemma day_rows_orders id program_id ds :
  map td_day_order (day_rows id program_id ds)
  = map (fun d => given int4in d "day_order") ds.
Proof.
  revert id. induction ds as [| d ds IH]; intros id; cbn;
    [ | rewrite IH ]; reflexivity.
Qed.

Lemma day_rows_nth id program_id ds :
  forall i row,
    nth_error (day_rows id program_id ds) i = Some row ->
    td_id row = id + Z.of_nat i /\ td_program_id row = program_id.
Proof.
  revert id. induction ds as [| d ds IH]; intros id [| i] row; cbn;
    try discriminate.
  - intros H. inversion H; subst. cbn. split; [ lia | reflexivity ].
  - intros H. apply IH in H. destruct H as [-> ->]. split; [ lia | reflexivity ].
Qed.

(** The assignment rows of a list of days point at the ids of its days. *)
Lemma tree_exercise_rows_day id day_id ds x :
  In x (tree_exercise_rows id day_id ds) ->
  day_id <= pe_day_id x < day_id + Z.of_nat (List.length ds).
Proof.
  revert id day_id. induction ds as [| d ds IH]; intros id day_id; cbn [tree_exercise_rows].
  - intros [].
  - intros H. apply in_app_or in H. destruct H as [H | H].
    + apply exercise_rows_day in H. cbn [List.length]. lia.
    + apply IH in H. cbn [List.length]. lia.
Qed.

Lemma tree_exercise_rows_length id day_id ds :
  List.length (tree_exercise_rows id day_id ds) = count_exercises ds.
Proof.
  unfold count_exercises.
  revert id day_id. induction ds as [| d ds IH]; intros id day_id; cbn.
  - reflexivity.
  - rewrite length_app, exercise_rows_length, IH. reflexivity.
Qed.

Lemma filter_none {A : Type} (f : A -> bool) (l : list A) :
  (forall x, In x l -> f x = false) -> filter f l = [].
Proof.
  induction l as [| a l IH]; intros H; cbn.
  - reflexivity.
  - rewrite (H a (or_introl eq_refl)). apply IH. intros x Hx. apply H. right. exact Hx.
Qed.

Lemma filter_all {A : Type} (f : A -> bool) (l : list A) :
  (forall x, In x l -> f x = true) -> filter f l = l.
Proof.
  induction l as [| a l IH]; intros H; cbn.
  - reflexivity.
  - rewrite (H a (or_introl eq_refl)). f_equal. apply IH. intros x Hx. apply H. right. exact Hx.
Qed.

(** Among the assignment rows of a list of days, those of the [i]-th day
    are the rows of its descriptor, in input order. *)
Lemma tree_exercise_rows_of_day ds :
  forall id day_id i d,
    nth_error ds i = Some d ->
    exists id',
      filter (fun x => pe_day_id x =? day_id + Z.of_nat i)
        (tree_exercise_rows id day_id ds)
      = exercise_rows id' (day_id + Z.of_nat i) (exercises_of d).
Proof.
  induction ds as [| d0 ds IH]; intros id day_id [| i] d Hnth; cbn in Hnth;
    try discriminate.
  - inversion Hnth; subst. exists id. cbn [tree_exercise_rows].
    rewrite filter_app, Z.add_0_r.
    rewrite filter_all, filter_none.
    + apply app_nil_r.
    + intros x Hx. apply tree_exercise_rows_day in Hx. apply Z.eqb_neq. lia.
    + intros x Hx. apply exercise_rows_day in Hx. apply Z.eqb_eq. exact Hx.
  - destruct (IH (id + Z.of_nat (List.length (exercises_of d0))) (day_id + 1) i d Hnth)
      as (id' & Heq).
    exists id'. cbn [tree_exercise_rows]. rewrite filter_app.
    replace (day_id + Z.of_nat (S i)) with (day_id + 1 + Z.of_nat i) by lia.
    rewrite Heq, filter_none; [ reflexivity | ].
    intros x Hx. apply exercise_rows_day in Hx. apply Z.eqb_neq. lia.
Qed.

(** The tables after the outer loop. *)
Lemma after_days_rows program_id ds :
  forall db,
    training_programs (rows (after_days program_id db ds))
    = training_programs (rows db) /\
    training_days (rows (after_days program_id db ds))
    = (training_days (rows db)
         ++ day_rows (training_days_id_seq (seqs db)) program_id ds)%list /\
    program_exercises (rows (after_days program_id db ds))
    = (program_exercises (rows db)
         ++ tree_exercise_rows (program_exercises_id_seq (seqs db))
              (training_days_id_seq (seqs db)) ds)%list.
Proof.
  induction ds as [| d ds IH]; intros db.
  - cbn. rewrite !app_nil_r. auto.
  - unfold after_days in *. cbn [fold_left].
    destruct (IH (after_one_day program_id db d)) as (Hp & Hd & He).
    rewrite Hp, Hd, He. cbn [day_rows tree_exercise_rows].
    unfold after_one_day, after_exercises, after_day.
    cbn -[Z.add Z.of_nat]. rewrite exercise_rows_length, <- !app_assoc.
    auto.
Qed.

(** The program insert that succeeds: the id is the next of the sequence
    and was not in use; days and assignments are untouched. *)
Lemma insert_training_programs_ok auth_uid name description trainer_id
    client_id db id db1 :
  insert_training_programs auth_uid name description trainer_id client_id db
  = (inr id, db1) ->
  id = training_programs_id_seq (seqs db) /\
  program_exists (rows db) id = false /\
  training_days (rows db1) = training_days (rows db) /\
  program_exercises (rows db1) = program_exercises (rows db) /\
  training_days_id_seq (seqs db1) = training_days_id_seq (seqs db) /\
  program_exercises_id_seq (seqs db1) = program_exercises_id_seq (seqs db).
Proof.
  unfold insert_training_programs. intros H. run_inv H.
  match goal with
  | F : negb (program_exists _ _) = true |- _ => apply negb_true_iff in F
  end.
  cbn in *. repeat split; auto.
Qed.


Lemma day_rows_ids id program_id ds row :
  In row (day_rows id program_id ds) ->
  exists i, (i < List.length ds)%nat /\ td_id row = id + Z.of_nat i /\
            td_program_id row = program_id.
Proof.
  intros H. apply In_nth_error in H. destruct H as (i & Hi).
  exists i. split.
  - rewrite <- (day_rows_length id program_id ds).
    apply nth_error_Some. rewrite Hi. discriminate.
  - eapply day_rows_nth; eauto.
Qed.

Lemma day_rows_has_id id program_id ds k :
  id <= k < id + Z.of_nat (List.length ds) ->
  existsb (fun row => td_id row =? k) (day_rows id program_id ds) = true.
Proof.
  intros Hk. apply existsb_exists.
  destruct (nth_error (day_rows id program_id ds) (Z.to_nat (k - id)))
    as [row |] eqn:Hnth.
  - exists row. split; [ eapply nth_error_In; eauto | ].
    apply day_rows_nth in Hnth. apply Z.eqb_eq. lia.
  - apply nth_error_None in Hnth. rewrite day_rows_length in Hnth. lia.
Qed.

(** C2.  On a database whose stored days and assignments respect their
    foreign keys, a successful call with [N] day descriptors, the [i]-th
    carrying [M_i] assignment descriptors, returns the success object with
    the new program id and leaves: exactly [N] day rows of that program,
    whose [day_order]s are those given, in input order; for the day row
    of the [i]-th descriptor, exactly [M_i] assignment rows, whose
    [exercise_order]s are those given, in input order; and, over all the
    new days, as many assignment rows as the [M_i] sum to. *)
Theorem create_full_program_tree
    (auth_uid : option uuid) (program_name program_description : option text)
    (client_id_in : option uuid) (ds : list jsonb)
    (db : database) (v : jsonb) (db' : database) :
  fk_training_days (rows db) = true ->
  fk_program_exercises (rows db) = true ->
  call (create_full_program auth_uid program_name program_description
          client_id_in (Some (JArray ds))) db
  = (Returned v, db') ->
  let new_program_id := training_programs_id_seq (seqs db) in
  let new_days :=
    filter (fun d => td_program_id d =? new_program_id)
      (training_days (rows db')) in
  v = msg_program_created new_program_id /\
  List.length new_days = List.length ds /\
  map td_day_order new_days = map (fun d => given int4in d "day_order") ds /\
  (forall i d row,
      nth_error ds i = Some d ->
      nth_error new_days i = Some row ->
      let assignments :=
        filter (fun x => pe_day_id x =? td_id row)
          (program_exercises (rows db')) in
      List.length assignments = List.length (exercises_of d) /\
      map pe_exercise_order assignments
      = map (fun x => given int4in x "exercise_order") (exercises_of d)) /\
  List.length
    (filter (fun x => existsb (fun row => td_id row =? pe_day_id x) new_days)
       (program_exercises (rows db')))
  = count_exercises ds.
Proof.
  intros Hfk_days Hfk_ex Hcall new_program_id new_days.
  apply call_returned in Hcall. unfold create_full_program in Hcall.
  apply bind_inr in Hcall. destruct Hcall as (pid & db1 & Hprog & Hcall).
  apply bind_inr in Hcall. destruct Hcall as (day_list & db2 & Hdays & Hcall).
  apply bind_inr in Hcall. destruct Hcall as ([] & db3 & Hloop & Hret).
  apply ret_inr in Hret. destruct Hret as [-> ->].
  cbn in Hdays. inversion Hdays; subst day_list db2; clear Hdays.
  apply insert_training_programs_ok in Hprog.
  destruct Hprog as (-> & Hfresh & Hd1 & He1 & Hds1 & Hes1).
  fold new_program_id in Hfresh, Hloop.
  apply outer_loop_ok in Hloop. destruct Hloop as [-> Hnew_ids].
  destruct (after_days_rows new_program_id ds db1) as (_ & Hdays' & Hex').
  rewrite Hd1, Hds1 in Hdays'. rewrite He1, Hes1, Hds1 in Hex'.
  assert (Hids : forall i, (i < List.length ds)%nat ->
            day_exists (rows db) (training_days_id_seq (seqs db) + Z.of_nat i)
            = false).
  { intros i Hi. specialize (Hnew_ids i Hi). rewrite Hds1 in Hnew_ids.
    unfold day_exists in *. rewrite Hd1 in Hnew_ids. exact Hnew_ids. }
  clear Hnew_ids.
  (* the day rows of the new program are the rows the loop wrote *)
  assert (Hnew : new_days
                 = day_rows (training_days_id_seq (seqs db)) new_program_id ds).
  { unfold new_days. rewrite Hdays', filter_app, filter_none, filter_all.
    - reflexivity.
    - intros row Hrow. apply day_rows_ids in Hrow.
      destruct Hrow as (_ & _ & _ & ->). apply Z.eqb_refl.
    - intros d Hd. apply Z.eqb_neq. intros Heq.
      unfold fk_training_days in Hfk_days.
      rewrite forallb_forall in Hfk_days. specialize (Hfk_days d Hd).
      rewrite Heq, Hfresh in Hfk_days. discriminate. }
  (* no stored assignment points at a new day *)
  assert (Hold : forall x i, In x (program_exercises (rows db)) ->
            (i < List.length ds)%nat ->
            pe_day_id x <> training_days_id_seq (seqs db) + Z.of_nat i).
  { intros x i Hx Hi Heq.
    unfold fk_program_exercises in Hfk_ex.
    rewrite forallb_forall in Hfk_ex. specialize (Hfk_ex x Hx).
    rewrite Heq, (Hids i Hi) in Hfk_ex. discriminate. }
  split; [ reflexivity | ].
  split; [ rewrite Hnew; apply day_rows_length | ].
  split; [ rewrite Hnew; apply day_rows_orders | ].
  split.
  - intros i d row Hd Hrow assignments.
    rewrite Hnew in Hrow. apply day_rows_nth in Hrow. destruct Hrow as [Hid _].
    assert (Hi : (i < List.length ds)%nat).
    { apply nth_error_Some. rewrite Hd. discriminate. }
    destruct (tree_exercise_rows_of_day ds
                (program_exercises_id_seq (seqs db))
                (training_days_id_seq (seqs db)) i d Hd) as (id' & Hrows).
    assert (Has : assignments
                  = exercise_rows id'
                      (training_days_id_seq (seqs db) + Z.of_nat i)
                      (exercises_of d)).
    { unfold assignments. rewrite Hex', Hid, filter_app, Hrows, filter_none.
      - reflexivity.
      - intros x Hx. apply Z.eqb_neq. apply Hold; assumption. }
    rewrite Has. split.
    + apply exercise_rows_length.
    + apply exercise_rows_orders.
  - rewrite Hex', filter_app, filter_none, filter_all.
    + cbn [app]. apply tree_exercise_rows_length.
    + intros x Hx. apply tree_exercise_rows_day in Hx.
      rewrite Hnew. apply day_rows_has_id. exact Hx.
    + intros x Hx. rewrite Hnew.
      destruct (existsb _ (day_rows _ _ ds)) eqn:E; [ | reflexivity ].
      apply existsb_exists in E. destruct E as (row & Hrow & Heq).
      apply day_rows_ids in Hrow. destruct Hrow as (i & Hi & Hid & _).
      apply Z.eqb_eq in Heq. exfalso. apply (Hold x i Hx Hi). lia.
Qed.

(** The scenario of the specification: two days, one assignment each. *)
Lemma create_full_program_tree_witness :
  let db' :=
    snd (call (create_full_program (Some Sample.trainer1)
                 (Some "Push Pull Legs") None (Some Sample.client1)
                 (Some (JArray Sample.push_pull_legs)))
           Sample.base) in
  let new_days :=
    filter (fun d => td_program_id d =? 1) (training_days (rows db')) in
  List.length new_days = 2%nat /\
  map td_day_order new_days = [Some 1; Some 2] /\
  List.length
    (filter (fun x => existsb (fun row => td_id row =? pe_day_id x) new_days)
       (program_exercises (rows db')))
  = 2%nat.
Proof.
  intros db' new_days.
  destruct (create_full_program_tree (Some Sample.trainer1)
              (Some "Push Pull Legs") None (Some Sample.client1)
              Sample.push_pull_legs Sample.base (msg_program_created 1) db')
    as (_ & Hlen & Horders & _ & Hsum).
  - vm_compute. reflexivity.
  - vm_compute. reflexivity.
  - vm_compute. reflexivity.
  - split; [ exact Hlen | ].
    split; [ | exact Hsum ].
    etransitivity; [ exact Horders | vm_compute; reflexivity ].
Defined.


(** ** Integers written as JSON numbers are read back as themselves *)

Lemma string_of_uint_no_space d c :
  In c (list_ascii_of_string (NilEmpty.string_of_uint d)) -> isspace c = false.
Proof.
  induction d; cbn; try (intros []; fail);
    (intros [<- | H]; [ reflexivity | auto ]).
Qed.

Lemma skip_spaces_id s :
  (forall c, In c (list_ascii_of_string s) -> isspace c = false) ->
  skip_spaces s = s.
Proof.
  destruct s as [| c r]; cbn; intros H.
  - reflexivity.
  - rewrite (H c (or_introl eq_refl)). reflexivity.
Qed.

Lemma rev_text_involutive s : rev_text (rev_text s) = s.
Proof.
  unfold rev_text.
  rewrite list_ascii_of_string_of_list_ascii, rev_involutive.
  apply string_of_list_ascii_of_string.
Qed.

Lemma strip_spaces_id s :
  (forall c, In c (list_ascii_of_string s) -> isspace c = false) ->
  strip_spaces s = s.
Proof.
  intros H. unfold strip_spaces. rewrite (skip_spaces_id s H).
  rewrite skip_spaces_id.
  - apply rev_text_involutive.
  - intros c Hc. unfold rev_text in Hc.
    rewrite list_ascii_of_string_of_list_ascii in Hc.
    apply in_rev in Hc. auto.
Qed.

Lemma strtoint_digits lo hi d :
  d <> Decimal.Nil ->
  lo <= Z.of_uint d <= hi ->
  strtoint lo hi (NilEmpty.string_of_uint d) = inr (Z.of_uint d).
Proof.
  intros Hd Hrange. unfold strtoint.
  rewrite strip_spaces_id by apply string_of_uint_no_space.
  assert (Hparse : NilZero.uint_of_string (NilEmpty.string_of_uint d) = Some d).
  { pose proof (NilZero.usu d Hd) as H. destruct d; try contradiction; exact H. }
  assert (Hin : (lo <=? Z.of_uint d) && (Z.of_uint d <=? hi) = true).
  { apply andb_true_iff. split; apply Z.leb_le; lia. }
  destruct d; try contradiction; cbn [NilEmpty.string_of_uint] in *;
    cbv iota beta; rewrite Hparse; cbv iota beta; rewrite Hin; reflexivity.
Qed.

Lemma strtoint_minus_digits lo hi d :
  d <> Decimal.Nil ->
  lo <= - Z.of_uint d <= hi ->
  strtoint lo hi (String "-"%char (NilEmpty.string_of_uint d))
  = inr (- Z.of_uint d).
Proof.
  intros Hd Hrange. unfold strtoint.
  rewrite strip_spaces_id.
  - assert (Hparse : NilZero.uint_of_string (NilEmpty.string_of_uint d) = Some d).
    { pose proof (NilZero.usu d Hd) as H. destruct d; try contradiction; exact H. }
    assert (Hin : (lo <=? - Z.of_uint d) && (- Z.of_uint d <=? hi) = true).
    { apply andb_true_iff. split; apply Z.leb_le; lia. }
    cbv iota beta. rewrite Hparse. cbv iota beta. rewrite Hin. reflexivity.
  - cbn. intros c [<- | Hc]; [ reflexivity | ].
    eapply string_of_uint_no_space; eauto.
Qed.

Lemma strtoint_Z_to_text lo hi n :
  lo <= n <= hi -> strtoint lo hi (Z_to_text n) = inr n.
Proof.
  intros Hrange. unfold Z_to_text.
  pose proof (DecimalZ.of_to n) as Hn.
  destruct n as [| p | p]; cbn [Z.to_int NilZero.string_of_int] in *.
  - unfold strtoint. cbn. destruct Hrange as [Hlo Hhi].
    apply Z.leb_le in Hlo, Hhi. rewrite Hlo, Hhi. reflexivity.
  - pose proof (DecimalPos.Unsigned.to_uint_nonnil p) as Hnil.
    cbn [Z.of_int] in Hn.
    replace (NilZero.string_of_uint (Pos.to_uint p))
      with (NilEmpty.string_of_uint (Pos.to_uint p))
      by (destruct (Pos.to_uint p); try contradiction; reflexivity).
    rewrite strtoint_digits; [ rewrite Hn; reflexivity | exact Hnil | lia ].
  - pose proof (DecimalPos.Unsigned.to_uint_nonnil p) as Hnil.
    cbn [Z.of_int] in Hn.
    replace (NilZero.string_of_uint (Pos.to_uint p))
      with (NilEmpty.string_of_uint (Pos.to_uint p))
      by (destruct (Pos.to_uint p); try contradiction; reflexivity).
    rewrite strtoint_minus_digits; [ rewrite Hn; reflexivity | exact Hnil | lia ].
Qed.

(** A field written as the integer [n], within the range of [INT], is
    given as [n]. *)
Lemma given_int4_number (j : jsonb) (k : text) (n : Z) :
  arrow (Some j) k = Some (JNumber n 0) ->
  int4_min <= n <= int4_max ->
  given int4in j k = Some n.
Proof.
  intros Hfield Hrange. unfold given, arrow_text, cast. rewrite Hfield.
  cbn [jsonb_out]. unfold numeric_out.
  change (0 <=? 0) with true. cbv iota.
  rewrite Z.pow_0_r, Z.mul_1_r.
  unfold int4in. rewrite strtoint_Z_to_text by exact Hrange. reflexivity.
Qed.

(** An absent field, or a JSON [null], is given as [NULL]. *)
Lemma given_absent input (j : jsonb) (k : text) :
  arrow (Some j) k = None \/ arrow (Some j) k = Some JNull ->
  given input j k = None.
Proof.
  intros [H | H]; unfold given, arrow_text; rewrite H; reflexivity.
Qed.


(** ** create_full_program: a well-formed document is accepted *)

Lemma castable_cast input (j : jsonb) (k : text) :
  castable input (arrow_text (Some j) k) = true ->
  cast input (arrow_text (Some j) k) = inr (given input j k).
Proof.
  unfold castable, given.
  destruct (cast input (arrow_text (Some j) k)); [ discriminate | reflexivity ].
Qed.

Lemma forallb_weaken {A : Type} (f g : A -> bool) (l : list A) :
  (forall x, f x = true -> g x = true) ->
  forallb f l = true -> forallb g l = true.
Proof.
  intros Himp H. rewrite forallb_forall in *. auto.
Qed.

Lemma below_not_exists {A : Type} (key : A -> Z) (l : list A) (bound : Z) :
  forallb (fun x => key x <? bound) l = true ->
  forall k, bound <= k -> existsb (fun x => key x =? k) l = false.
Proof.
  intros H k Hk. destruct (existsb _ l) eqn:E; [ | reflexivity ].
  apply existsb_exists in E. destruct E as (x & Hx & Heq).
  rewrite forallb_forall in H. specialize (H x Hx).
  apply Z.ltb_lt in H. apply Z.eqb_eq in Heq. lia.
Qed.

Lemma exercise_rows_ids id day_id xs r :
  In r (exercise_rows id day_id xs) ->
  id <= pe_id r < id + Z.of_nat (List.length xs).
Proof.
  revert id. induction xs as [| x xs IH]; intros id; cbn [exercise_rows].
  - intros [].
  - intros [<- | H].
    + cbn. lia.
    + apply IH in H. cbn [List.length]. lia.
Qed.

(** One well-formed assignment, into a visible day, under a free id and
    a free slot, is inserted. *)
Lemma insert_exercise_of_succeeds auth_uid new_day_id x db :
  program_exercises_id_seq (seqs db) <= int8_max ->
  well_formed_exercise (exercises (rows db)) x = true ->
  exercise_policy auth_uid (rows db) (Some new_day_id) = true ->
  day_exists (rows db) new_day_id = true ->
  assignment_exists (rows db) (program_exercises_id_seq (seqs db)) = false ->
  assignment_taken (rows db) new_day_id (exercise_id_of x)
    (given int4in x "exercise_order") = false ->
  insert_exercise_of auth_uid new_day_id x db
  = (inr tt,
     after_exercises db
       [ exercise_row (program_exercises_id_seq (seqs db)) new_day_id x ]).
Proof.
  intros Hmax Hwf Hpolicy Hday Hid Hslot.
  unfold well_formed_exercise in Hwf. rewrite !andb_true_iff in Hwf.
  destruct Hwf as ((((Hc1 & Hc2) & Hc3) & Hc4) & Hexists).
  apply castable_cast in Hc1, Hc2, Hc3, Hc4.
  unfold exercise_id_of in Hslot.
  destruct (given int8in x "exercise_id") as [exercise_id |] eqn:Hgiven;
    [ | discriminate ].
  apply Z.leb_le in Hmax.
  unfold insert_exercise_of, insert_program_exercises, bind, nextval.
  rewrite Hmax, Hc1, Hc2, Hc3, Hc4.
  cbn [eval ret get_rows rows seqs not_null]. rewrite Hpolicy.
  cbn [require ret]. rewrite Hid. cbn [negb require ret].
  rewrite Hslot. cbn [negb require ret]. rewrite Hday. cbn [require ret].
  unfold exercise_exists. rewrite Hexists. cbn [require ret set_rows].
  unfold after_exercises, exercise_row, exercise_id_of. rewrite Hgiven.
  reflexivity.
Qed.

Lemma inner_loop_succeeds auth_uid new_day_id xs :
  forall db,
    program_exercises_id_seq (seqs db) + Z.of_nat (List.length xs)
    <= int8_max + 1 ->
    forallb (well_formed_exercise (exercises (rows db))) xs = true ->
    distinct_slots xs = true ->
    exercise_policy auth_uid (rows db) (Some new_day_id) = true ->
    day_exists (rows db) new_day_id = true ->
    forallb (fun r => pe_id r <? program_exercises_id_seq (seqs db))
      (program_exercises (rows db)) = true ->
    (forall x, In x xs ->
       assignment_taken (rows db) new_day_id (exercise_id_of x)
         (given int4in x "exercise_order") = false) ->
    for_each xs (insert_exercise_of auth_uid new_day_id) db
    = (inr tt,
       after_exercises db
         (exercise_rows (program_exercises_id_seq (seqs db)) new_day_id xs)).
Proof.
  induction xs as [| x xs IH];
    intros db Hmax Hwf Hdistinct Hpolicy Hday Hbelow Hfree.
  - cbn [for_each exercise_rows]. rewrite after_exercises_nil. reflexivity.
  - cbn [forallb] in Hwf. apply andb_true_iff in Hwf. destruct Hwf as [Hx Hxs].
    cbn [distinct_slots] in Hdistinct. apply andb_true_iff in Hdistinct.
    destruct Hdistinct as [Hx_distinct Hxs_distinct].
    cbn [List.length] in Hmax.
    cbn [for_each]. unfold bind at 1.
    rewrite insert_exercise_of_succeeds; try assumption.
    + rewrite IH.
      * cbn [exercise_rows]. rewrite after_exercises_cons.
        cbn -[Z.add Z.of_nat after_exercises exercise_rows]. reflexivity.
      * cbn -[Z.add Z.of_nat]. lia.
      * exact Hxs.
      * exact Hxs_distinct.
      * exact Hpolicy.
      * exact Hday.
      * cbn -[Z.add Z.of_nat]. rewrite forallb_app. apply andb_true_iff. split.
        -- eapply forallb_weaken; [ | exact Hbelow ].
           cbn beta. intros r Hr. apply Z.ltb_lt in Hr. apply Z.ltb_lt. lia.
        -- cbn. rewrite andb_true_r. apply Z.ltb_lt. lia.
      * intros y Hy. unfold assignment_taken. cbn [rows program_exercises
          after_exercises with_program_exercises].
        rewrite existsb_app. apply orb_false_iff. split.
        -- apply Hfree. right. exact Hy.
        -- cbn [existsb exercise_row pe_day_id pe_exercise_id pe_exercise_order].
           rewrite orb_false_r, Z.eqb_refl. cbn [andb].
           rewrite forallb_forall in Hx_distinct.
           specialize (Hx_distinct y Hy). apply negb_true_iff in Hx_distinct.
           exact Hx_distinct.
    + lia.
    + apply (below_not_exists pe_id _ _ Hbelow). lia.
    + apply Hfree. left. reflexivity.
Qed.

(** The day row of a well-formed descriptor, under a visible program and
    a free id, is inserted. *)
Lemma insert_training_days_succeeds auth_uid new_program_id d db :
  training_days_id_seq (seqs db) <= int8_max ->
  (exists n, arrow_text (Some d) "name" = Some n) ->
  castable int4in (arrow_text (Some d) "day_order") = true ->
  day_policy auth_uid (rows db) (Some new_program_id) = true ->
  day_exists (rows db) (training_days_id_seq (seqs db)) = false ->
  program_exists (rows db) new_program_id = true ->
  insert_training_days auth_uid (Some new_program_id)
    (arrow_text (Some d) "name")
    (cast int4in (arrow_text (Some d) "day_order")) db
  = (inr (training_days_id_seq (seqs db)),
     after_day db (day_row (training_days_id_seq (seqs db)) new_program_id d)).
Proof.
  intros Hmax (n & Hname) Horder Hpolicy Hid Hprogram.
  apply castable_cast in Horder. apply Z.leb_le in Hmax.
  unfold insert_training_days, bind, nextval.
  rewrite Hmax, Horder, Hname.
  cbn [eval ret get_rows rows seqs not_null]. rewrite Hpolicy.
  cbn [require ret not_null]. rewrite Hid. cbn [negb require ret].
  rewrite Hprogram. cbn [require ret set_rows].
  unfold after_day, day_row. rewrite Hname. reflexivity.
Qed.

Lemma insert_day_of_succeeds auth_uid new_program_id d db :
  training_days_id_seq (seqs db) <= int8_max ->
  program_exercises_id_seq (seqs db)
    + Z.of_nat (List.length (exercises_of d)) <= int8_max + 1 ->
  well_formed_day (exercises (rows db)) d = true ->
  day_policy auth_uid (rows db) (Some new_program_id) = true ->
  program_exists (rows db) new_program_id = true ->
  forallb (fun r => td_id r <? training_days_id_seq (seqs db))
    (training_days (rows db)) = true ->
  forallb (fun r => pe_id r <? program_exercises_id_seq (seqs db))
    (program_exercises (rows db)) = true ->
  forallb (fun r => pe_day_id r <? training_days_id_seq (seqs db))
    (program_exercises (rows db)) = true ->
  insert_day_of auth_uid new_program_id d db
  = (inr tt, after_one_day new_program_id db d).
Proof.
  intros Hdmax Hemax Hwf Hpolicy Hprogram Hdays Hids Hrefs.
  unfold well_formed_day in Hwf. rewrite !andb_true_iff in Hwf.
  destruct Hwf as ((((Hname & Horder) & Harray) & Hxs) & Hdistinct).
  assert (Hnamed : exists n, arrow_text (Some d) "name" = Some n).
  { destruct (arrow_text (Some d) "name") as [n |]; [ eauto | discriminate ]. }
  assert (Helements : jsonb_array_elements (arrow (Some d) "exercises")
                      = inr (exercises_of d)).
  { unfold exercises_of.
    destruct (jsonb_array_elements (arrow (Some d) "exercises"));
      [ discriminate | reflexivity ]. }
  unfold insert_day_of, bind at 1.
  rewrite insert_training_days_succeeds; try assumption.
  - unfold bind. rewrite Helements. cbn [eval ret].
    rewrite inner_loop_succeeds.
    + reflexivity.
    + exact Hemax.
    + exact Hxs.
    + exact Hdistinct.
    + unfold exercise_policy, visible_days.
      cbn [rows after_day with_training_days training_days].
      rewrite filter_app, existsb_app. apply orb_true_iff. right.
      cbn [filter day_row td_program_id].
      change (day_policy auth_uid
                (with_training_days
                   (training_days (rows db)
                      ++ [day_row (training_days_id_seq (seqs db))
                            new_program_id d]) (rows db))
                (Some new_program_id))
        with (day_policy auth_uid (rows db) (Some new_program_id)).
      rewrite Hpolicy. cbn [existsb is_true_eqZ td_id].
      rewrite Z.eqb_refl. reflexivity.
    + unfold day_exists. cbn [rows after_day with_training_days training_days].
      rewrite existsb_app. apply orb_true_iff. right.
      cbn [existsb day_row td_id]. rewrite Z.eqb_refl. reflexivity.
    + exact Hids.
    + intros x Hx. unfold assignment_taken.
      cbn [rows after_day with_training_days program_exercises].
      destruct (existsb _ (program_exercises (rows db))) eqn:E; [ | reflexivity ].
      apply existsb_exists in E. destruct E as (r & Hr & Hsame).
      rewrite forallb_forall in Hrefs. specialize (Hrefs r Hr).
      apply Z.ltb_lt in Hrefs.
      rewrite !andb_true_iff in Hsame. destruct Hsame as [[Hday _] _].
      apply Z.eqb_eq in Hday. lia.
  - apply (below_not_exists td_id _ _ Hdays). lia.
Qed.

Lemma count_exercises_cons d ds :
  count_exercises (d :: ds)
  = (List.length (exercises_of d) + count_exercises ds)%nat.
Proof. reflexivity. Qed.

Lemma outer_loop_succeeds auth_uid new_program_id ds :
  forall db,
    training_days_id_seq (seqs db) + Z.of_nat (List.length ds)
    <= int8_max + 1 ->
    program_exercises_id_seq (seqs db) + Z.of_nat (count_exercises ds)
    <= int8_max + 1 ->
    forallb (well_formed_day (exercises (rows db))) ds = true ->
    day_policy auth_uid (rows db) (Some new_program_id) = true ->
    program_exists (rows db) new_program_id = true ->
    forallb (fun r => td_id r <? training_days_id_seq (seqs db))
      (training_days (rows db)) = true ->
    forallb (fun r => pe_id r <? program_exercises_id_seq (seqs db))
      (program_exercises (rows db)) = true ->
    forallb (fun r => pe_day_id r <? training_days_id_seq (seqs db))
      (program_exercises (rows db)) = true ->
    for_each ds (insert_day_of auth_uid new_program_id) db
    = (inr tt, after_days new_program_id db ds).
Proof.
  induction ds as [| d ds IH];
    intros db Hdmax Hemax Hwf Hpolicy Hprogram Hdays Hids Hrefs.
  - reflexivity.
  - cbn [forallb] in Hwf. apply andb_true_iff in Hwf. destruct Hwf as [Hd Hds].
    cbn [List.length] in Hdmax.
    rewrite count_exercises_cons in Hemax.
    cbn [for_each]. unfold bind.
    rewrite insert_day_of_succeeds; try assumption; try lia.
    unfold after_days. cbn [fold_left]. apply IH.
    + cbn -[Z.add Z.of_nat]. lia.
    + cbn -[Z.add Z.of_nat]. rewrite exercise_rows_length. lia.
    + exact Hds.
    + exact Hpolicy.
    + exact Hprogram.
    + cbn -[Z.add Z.of_nat]. rewrite forallb_app. apply andb_true_iff. split.
      * eapply forallb_weaken; [ | exact Hdays ].
        cbn beta. intros r Hr. apply Z.ltb_lt in Hr. apply Z.ltb_lt. lia.
      * cbn. rewrite andb_true_r. apply Z.ltb_lt. lia.
    + cbn -[Z.add Z.of_nat]. rewrite forallb_app. apply andb_true_iff. split.
      * eapply forallb_weaken; [ | exact Hids ].
        cbn beta. intros r Hr. apply Z.ltb_lt in Hr. apply Z.ltb_lt. lia.
      * apply forallb_forall. intros r Hr. apply exercise_rows_ids in Hr.
        rewrite exercise_rows_length. apply Z.ltb_lt. lia.
    + cbn -[Z.add Z.of_nat]. rewrite forallb_app. apply andb_true_iff. split.
      * eapply forallb_weaken; [ | exact Hrefs ].
        cbn beta. intros r Hr. apply Z.ltb_lt in Hr. apply Z.ltb_lt. lia.
      * apply forallb_forall. intros r Hr. apply exercise_rows_day in Hr.
        apply Z.ltb_lt. lia.
Qed.

(** X1.  Well-formed input is accepted: for a caller and a client that are
    profiles, a program name, day descriptors that are well formed, and a
    database whose ids came from its sequences, with enough values left,
    the call returns the success object. *)
Lemma create_full_program_succeeds (caller client : uuid) (name : text)
    (description : option text) (ds : list jsonb) (db : database) :
  profile_exists (rows db) caller = true ->
  profile_exists (rows db) client = true ->
  ids_below_sequences db = true ->
  fk_program_exercises (rows db) = true ->
  training_programs_id_seq (seqs db) <= int8_max ->
  training_days_id_seq (seqs db) + Z.of_nat (List.length ds) <= int8_max + 1 ->
  program_exercises_id_seq (seqs db) + Z.of_nat (count_exercises ds)
  <= int8_max + 1 ->
  forallb (well_formed_day (exercises (rows db))) ds = true ->
  exists db',
    call (create_full_program (Some caller) (Some name) description
            (Some client) (Some (JArray ds))) db
    = (Returned (msg_program_created (training_programs_id_seq (seqs db))), db').
Proof.
  intros Hcaller Hclient Hbelow Hfk Hpmax Hdmax Hemax Hwf.
  unfold ids_below_sequences in Hbelow. rewrite !andb_true_iff in Hbelow.
  destruct Hbelow as [[Hprograms Hdays] Hids].
  assert (Hrefs : forallb (fun r => pe_day_id r <? training_days_id_seq (seqs db))
                    (program_exercises (rows db)) = true).
  { apply forallb_forall. intros r Hr.
    unfold fk_program_exercises in Hfk. rewrite forallb_forall in Hfk.
    specialize (Hfk r Hr). unfold day_exists in Hfk.
    apply existsb_exists in Hfk. destruct Hfk as (d & Hd & Heq).
    rewrite forallb_forall in Hdays. specialize (Hdays d Hd).
    apply Z.ltb_lt in Hdays. apply Z.eqb_eq in Heq. apply Z.ltb_lt. lia. }
  assert (Hfresh : program_exists (rows db) (training_programs_id_seq (seqs db))
                   = false).
  { apply (below_not_exists tp_id _ _ Hprograms). lia. }
  eexists. apply call_returned.
  unfold create_full_program, bind at 1.
  unfold insert_training_programs, bind, nextval.
  apply Z.leb_le in Hpmax. rewrite Hpmax.
  cbn [is_true_eq require ret not_null get_rows rows seqs].
  rewrite String.eqb_refl. cbn [require ret not_null get_rows rows seqs].
  rewrite Hfresh. cbn [negb require ret]. rewrite Hcaller. cbn [require ret].
  rewrite Hclient. cbn [require ret set_rows eval jsonb_array_elements rows seqs].
  rewrite outer_loop_succeeds; try assumption.
  - reflexivity.
  - unfold day_policy, visible_programs.
    cbn [with_training_programs training_programs rows].
    rewrite filter_app, existsb_app. apply orb_true_iff. right.
    cbn [filter tp_trainer_id tp_client_id is_true_eq].
    rewrite String.eqb_refl. cbn [orb existsb is_true_eqZ tp_id].
    rewrite Z.eqb_refl. reflexivity.
  - unfold program_exists. cbn [with_training_programs training_programs rows].
    rewrite existsb_app. apply orb_true_iff. right.
    cbn [existsb tp_id]. rewrite Z.eqb_refl. reflexivity.
Qed.

(** ** The declared constraints are kept *)

Lemma existsb_app_one {A : Type} (f : A -> bool) (l : list A) (x : A) :
  existsb f (l ++ [x]) = existsb f l || f x.
Proof. rewrite existsb_app. cbn. rewrite orb_false_r. reflexivity. Qed.

Lemma forallb_app_one {A : Type} (f : A -> bool) (l : list A) (x : A) :
  forallb f (l ++ [x]) = forallb f l && f x.
Proof. rewrite forallb_app. cbn. rewrite andb_true_r. reflexivity. Qed.

Lemma pairwise_app_one {A : Type} (clash : A -> A -> bool) (l : list A) (x : A) :
  pairwise clash l = true ->
  existsb (fun a => clash a x) l = false ->
  pairwise clash (l ++ [x]) = true.
Proof.
  induction l as [| a l IH]; cbn [pairwise existsb app]; intros Hl Hx.
  - reflexivity.
  - apply andb_true_iff in Hl. destruct Hl as [Ha Hl].
    apply orb_false_iff in Hx. destruct Hx as [Hax Hx].
    rewrite existsb_app_one, Hax, orb_false_r, Ha. cbn [andb].
    apply IH; assumption.
Qed.

Lemma existsb_filter {A : Type} (f g : A -> bool) (l : list A) :
  existsb g (filter f l) = true -> existsb g l = true.
Proof.
  intros H. apply existsb_exists in H. destruct H as (x & Hx & Hg).
  apply filter_In in Hx. apply existsb_exists. exists x. tauto.
Qed.

Lemma pairwise_filter {A : Type} (clash : A -> A -> bool) (f : A -> bool)
    (l : list A) :
  pairwise clash l = true -> pairwise clash (filter f l) = true.
Proof.
  induction l as [| a l IH]; cbn [pairwise filter]; intros H.
  - reflexivity.
  - apply andb_true_iff in H. destruct H as [Ha Hl].
    destruct (f a); [ | apply IH; exact Hl ].
    cbn [pairwise]. rewrite (IH Hl), andb_true_r.
    apply negb_true_iff. apply negb_true_iff in Ha.
    destruct (existsb (clash a) (filter f l)) eqn:E; [ | reflexivity ].
    apply existsb_filter in E. congruence.
Qed.

(** Taking a conjunction of checks apart, and putting one together. *)
Ltac split_checks :=
  repeat match goal with
         | H : _ && _ = true |- _ =>
             apply andb_true_iff in H; destruct H
         end.

Ltac join_checks :=
  repeat match goal with
         | |- _ && _ = true => apply andb_true_iff; split
         end.

Lemma profile_exists_more (t t' : tables) (more : list profile) (id : uuid) :
  profiles t' = (profiles t ++ more)%list ->
  profile_exists t id = true -> profile_exists t' id = true.
Proof.
  unfold profile_exists. intros -> H. rewrite existsb_app, H. reflexivity.
Qed.

(** The constraints that only read the programs, days and assignments. *)
Lemma programs_hold_same (t t' : tables) (more : list profile) :
  profiles t' = (profiles t ++ more)%list ->
  exercises t' = exercises t ->
  training_programs t' = training_programs t ->
  training_days t' = training_days t ->
  program_exercises t' = program_exercises t ->
  programs_hold t = true -> programs_hold t' = true.
Proof.
  intros Hp Hx Hprograms Hdays Hassignments H.
  unfold programs_hold, pk_training_programs, fk_training_programs,
    pk_training_days, fk_training_days, pk_program_exercises,
    unique_program_exercises, fk_program_exercises,
    fk_program_exercises_exercise, program_exists, day_exists,
    exercise_exists in *.
  rewrite Hx, Hprograms, Hdays, Hassignments. split_checks. join_checks;
    try assumption.
  eapply forallb_weaken; [ | eassumption ].
  cbn beta. intros p Hprofile. split_checks. join_checks;
    eapply profile_exists_more; eauto.
Qed.

Lemma library_holds_same (t t' : tables) (more : list profile) :
  profiles t' = (profiles t ++ more)%list ->
  exercises t' = exercises t ->
  library_holds t = true -> library_holds t' = true.
Proof.
  intros Hp Hx H. unfold library_holds, pk_exercises, fk_exercises in *.
  rewrite Hx. split_checks. join_checks; try assumption.
  eapply forallb_weaken; [ | eassumption ].
  cbn beta. intros x. destruct (e_creator_id x); [ | reflexivity ].
  eapply profile_exists_more; eauto.
Qed.

Lemma links_hold_same (t t' : tables) (more : list profile) :
  profiles t' = (profiles t ++ more)%list ->
  clients t' = clients t ->
  links_hold t = true -> links_hold t' = true.
Proof.
  intros Hp Hc H. unfold links_hold, pk_clients, fk_clients in *.
  rewrite Hc. split_checks. join_checks; try assumption.
  eapply forallb_weaken; [ | eassumption ].
  cbn beta. intros c Hprofile. split_checks. join_checks;
    eapply profile_exists_more; eauto.
Qed.

Lemma accounts_hold_same (t t' : tables) :
  auth_users t' = auth_users t ->
  profiles t' = profiles t ->
  accounts_hold t = true -> accounts_hold t' = true.
Proof.
  intros Hu Hp H.
  unfold accounts_hold, pk_auth_users, pk_profiles, unique_profiles_email,
    check_profiles_role, fk_profiles, account_exists in *.
  rewrite Hu, Hp. exact H.
Qed.

(** *** Registration *)

(** What a registration that succeeds has checked and written. *)
Lemma insert_auth_users_returned (new : auth_user) (db db' : database) :
  insert_auth_users new db = (inr tt, db') ->
  exists role,
    arrow_text (au_raw_user_meta_data new) "role" = Some role /\
    role_allowed role = true /\
    account_exists (rows db) (au_id new) = false /\
    profile_exists (rows db) (au_id new) = false /\
    email_taken (rows db) (au_email new) = false /\
    db' = {| rows :=
               with_profiles
                 (profiles (rows db)
                    ++ [ {| p_id := au_id new;
                            p_full_name :=
                              arrow_text (au_raw_user_meta_data new) "full_name";
                            p_email := au_email new;
                            p_role := role |} ])
                 (with_auth_users (auth_users (rows db) ++ [new]) (rows db));
             seqs := seqs db |}.
Proof.
  unfold insert_auth_users, handle_new_user, insert_profiles. intros H.
  run_inv H. use_values.
  repeat match goal with
         | F : negb _ = true |- _ => apply negb_true_iff in F
         end.
  match goal with
  | R : ret _ _ = _ |- _ => cbn in R; inversion R; subst; clear R
  end.
  eexists. repeat split; try eassumption.
Qed.

(** X2.  A registration, whether it succeeds or fails, keeps every
    declared constraint: keys and unique emails, the allowed roles, and
    every foreign key.  It writes to [auth.users] and [profiles] only,
    and takes no value from a sequence. *)
Theorem insert_auth_users_keeps_constraints (new : auth_user) (db : database) :
  constraints_hold (rows db) = true ->
  let db' := snd (call (insert_auth_users new) db) in
  constraints_hold (rows db') = true /\
  clients (rows db') = clients (rows db) /\
  exercises (rows db') = exercises (rows db) /\
  training_programs (rows db') = training_programs (rows db) /\
  training_days (rows db') = training_days (rows db) /\
  program_exercises (rows db') = program_exercises (rows db) /\
  seqs db' = seqs db.
Proof.
  intros Hholds. cbn zeta. unfold call.
  destruct (insert_auth_users new db) as [[e | []] w] eqn:Hrun.
  - cbn [snd rollback_to rows seqs]. split; [ exact Hholds | ].
    repeat split.
    unfold insert_auth_users, handle_new_user, insert_profiles, bind,
      get_rows, set_rows, require, not_null, ret, raise in Hrun.
    repeat match type of Hrun with
           | context [if ?c then _ else _] => destruct c
           | context [match ?x with Some _ => _ | None => _ end] => destruct x
           end; cbn in Hrun; inversion Hrun; reflexivity.
  - apply insert_auth_users_returned in Hrun.
    destruct Hrun as (role & Hrole & Hallowed & Haccount & Hprofile & Hemail & ->).
    cbn [snd rows seqs]. split; [ | repeat split ].
    unfold constraints_hold in *. split_checks. join_checks.
    + unfold accounts_hold, pk_auth_users, pk_profiles, unique_profiles_email,
        check_profiles_role, fk_profiles, account_exists in *.
      cbn [with_profiles with_auth_users auth_users profiles].
      split_checks. join_checks.
      * apply pairwise_app_one; assumption.
      * apply pairwise_app_one; assumption.
      * apply pairwise_app_one; assumption.
      * rewrite forallb_app_one. join_checks; assumption.
      * rewrite forallb_app_one. join_checks.
        -- eapply forallb_weaken; [ | eassumption ].
           cbn beta. intros p Hp. rewrite existsb_app, Hp. reflexivity.
        -- cbn [p_id]. rewrite existsb_app_one, String.eqb_refl.
           apply orb_true_r.
    + eapply links_hold_same; [ | | eassumption ]; reflexivity.
    + eapply library_holds_same; [ | | eassumption ]; reflexivity.
    + eapply programs_hold_same; [ | | | | | eassumption ]; reflexivity.
Qed.

(** *** Adding a client *)

(** Either no table changes, or one link is added, which was not there
    and whose two ends are profiles. *)
Lemma add_client_by_email_rows (auth_uid : option uuid)
    (client_email : option text) (db : database) :
  exists v db',
    call (add_client_by_email auth_uid client_email) db = (Returned v, db') /\
    seqs db' = seqs db /\
    (rows db' = rows db /\ (forall id, v <> msg_client_added id)
     \/ exists caller target,
          auth_uid = Some caller /\
          find (fun p => is_true_eq (p_email p) client_email)
            (profiles (rows db)) = Some target /\
          v = msg_client_added (Some (p_id target)) /\
          link_exists (rows db) caller (p_id target) = false /\
          profile_exists (rows db) caller = true /\
          profile_exists (rows db) (p_id target) = true /\
          rows db'
          = with_clients
              (clients (rows db)
                 ++ [ {| c_trainer_id := caller;
                         c_client_id := p_id target |} ])
              (rows db)).
Proof.
  unfold call, add_client_by_email, block_exception, select_profile_by_email,
    bind, get_rows, ret.
  destruct (find _ (profiles (rows db))) as [target |] eqn:Hfind; cbn.
  - destruct (String.eqb (p_role target) "client") eqn:Hrole; cbn.
    + unfold insert_clients, bind, not_null, get_rows.
      destruct auth_uid as [caller |]; cbn.
      * destruct (link_exists (rows db) caller (p_id target)) eqn:Hlink; cbn.
        -- do 2 eexists. split; [ reflexivity | ]. split; [ reflexivity | ].
           left. split; [ reflexivity | discriminate ].
        -- destruct (profile_exists (rows db) caller) eqn:Hcaller; cbn.
           ++ rewrite (find_profile_exists _ _ _ Hfind). cbn.
              do 2 eexists. split; [ reflexivity | ]. split; [ reflexivity | ].
              right. exists caller, target.
              repeat split; try assumption.
              eapply find_profile_exists; eauto.
           ++ do 2 eexists. split; [ reflexivity | ]. split; [ reflexivity | ].
              left. split; [ reflexivity | discriminate ].
      * do 2 eexists. split; [ reflexivity | ]. split; [ reflexivity | ].
        left. split; [ reflexivity | discriminate ].
    + do 2 eexists. split; [ reflexivity | ]. split; [ reflexivity | ].
      left. split; [ reflexivity | discriminate ].
  - do 2 eexists. split; [ reflexivity | ]. split; [ reflexivity | ].
    left. split; [ reflexivity | discriminate ].
Qed.

(** X3.  [add_client_by_email], whatever it returns, keeps every declared
    constraint; in particular a pair (trainer, client) is never stored
    twice and both ends of a link are profiles.  It writes to [clients]
    only. *)
Theorem add_client_by_email_keeps_constraints (auth_uid : option uuid)
    (client_email : option text) (db : database) :
  constraints_hold (rows db) = true ->
  let db' := snd (call (add_client_by_email auth_uid client_email) db) in
  constraints_hold (rows db') = true /\
  auth_users (rows db') = auth_users (rows db) /\
  profiles (rows db') = profiles (rows db) /\
  exercises (rows db') = exercises (rows db) /\
  training_programs (rows db') = training_programs (rows db) /\
  training_days (rows db') = training_days (rows db) /\
  program_exercises (rows db') = program_exercises (rows db) /\
  seqs db' = seqs db.
Proof.
  intros Hholds. cbn zeta.
  destruct (add_client_by_email_rows auth_uid client_email db)
    as (v & db' & Hcall & Hseqs & Hrows).
  rewrite Hcall. cbn [snd].
  destruct Hrows as [[Hsame _] | (caller & target & _ & _ & _ & Hlink & Hcaller & Htarget & Hrows)].
  - rewrite Hsame. repeat split; assumption.
  - rewrite Hrows. split; [ | repeat split; assumption ].
    unfold constraints_hold in *. split_checks. join_checks.
    + eapply accounts_hold_same; [ | | eassumption ]; reflexivity.
    + unfold links_hold, pk_clients, fk_clients, link_exists in *.
      cbn [with_clients clients]. split_checks. join_checks.
      * apply pairwise_app_one; assumption.
      * rewrite forallb_app_one. join_checks; assumption.
    + eapply (library_holds_same _ _ []); [ | | eassumption ];
        [ symmetry; apply app_nil_r | reflexivity ].
    + eapply (programs_hold_same _ _ []); [ | | | | | eassumption ];
        try reflexivity. symmetry. apply app_nil_r.
Qed.

(** X4.  After a call of [add_client_by_email] that reports success, the
    same call by the same caller reports that the client was already
    added, and changes nothing. *)
Theorem add_client_by_email_twice (auth_uid : option uuid)
    (client_email : option text) (id : option uuid) (db db1 : database) :
  call (add_client_by_email auth_uid client_email) db
  = (Returned (msg_client_added id), db1) ->
  exists db2,
    call (add_client_by_email auth_uid client_email) db1
    = (Returned msg_already_added, db2) /\
    rows db2 = rows db1.
Proof.
  intros Hfirst.
  destruct (add_client_by_email_rows auth_uid client_email db)
    as (v & db' & Hcall & _ & Hrows).
  rewrite Hcall in Hfirst. inversion Hfirst; subst v db'; clear Hfirst.
  destruct Hrows as [[_ Hnot] | (caller & target & -> & Hfind & _ & _ & _ & _ & Hrows)];
    [ exfalso; exact (Hnot id eq_refl) | ].
  assert (Hlinked : link_exists (rows db1) caller (p_id target) = true).
  { rewrite Hrows. unfold link_exists. cbn [clients with_clients].
    rewrite existsb_app_one. cbn [c_trainer_id c_client_id].
    rewrite !String.eqb_refl. apply orb_true_r. }
  assert (Hfind1 : find (fun p => is_true_eq (p_email p) client_email)
                     (profiles (rows db1)) = Some target).
  { rewrite Hrows. exact Hfind. }
  unfold call, add_client_by_email, block_exception, select_profile_by_email,
    bind, get_rows, ret.
  rewrite Hfind1.
  unfold record_is_null, role_is_not_client. cbn [cr_id cr_role].
  destruct (String.eqb (p_role target) "client") eqn:Hrole.
  - cbn [negb]. unfold insert_clients, bind, not_null, get_rows, ret.
    rewrite Hlinked. cbn.
    eexists. split; reflexivity.
  - exfalso.
    unfold call, add_client_by_email, block_exception, select_profile_by_email,
      bind, get_rows, ret in Hcall.
    rewrite Hfind in Hcall. unfold record_is_null, role_is_not_client in Hcall.
    cbn [cr_id cr_role] in Hcall. rewrite Hrole in Hcall. cbn in Hcall.
    inversion Hcall.
Qed.

(** *** Sequences only go forward *)

Lemma seqs_le_refl (s : sequences) : seqs_le s s.
Proof. unfold seqs_le. lia. Qed.

Lemma seqs_le_trans (a b c : sequences) :
  seqs_le a b -> seqs_le b c -> seqs_le a c.
Proof. unfold seqs_le. lia. Qed.

Lemma advances_ret {A : Type} (a : A) : advances (ret a).
Proof. intros db r db' H. inversion H; subst. apply seqs_le_refl. Qed.

Lemma advances_raise {A : Type} (e : sqlstate) : advances (@raise A e).
Proof. intros db r db' H. inversion H; subst. apply seqs_le_refl. Qed.

Lemma advances_eval {A : Type} (x : sqlstate + A) : advances (eval x).
Proof. destruct x; [ apply advances_raise | apply advances_ret ]. Qed.

Lemma advances_require (holds : bool) (e : sqlstate) :
  advances (require holds e).
Proof. destruct holds; [ apply advances_ret | apply advances_raise ]. Qed.

Lemma advances_not_null {A : Type} (x : option A) : advances (not_null x).
Proof. destruct x; [ apply advances_ret | apply advances_raise ]. Qed.

Lemma advances_get_rows : advances get_rows.
Proof. intros db r db' H. inversion H; subst. apply seqs_le_refl. Qed.

Lemma advances_set_rows (t : tables) : advances (set_rows t).
Proof. intros db r db' H. inversion H; subst. apply seqs_le_refl. Qed.

Lemma advances_bind {A B : Type} (c : plpgsql A) (k : A -> plpgsql B) :
  advances c -> (forall a, advances (k a)) -> advances (bind c k).
Proof.
  intros Hc Hk db r db' H. unfold bind in H.
  destruct (c db) as [[e | a] db1] eqn:E.
  - inversion H; subst. eapply Hc; eauto.
  - eapply seqs_le_trans; [ eapply Hc; eauto | eapply Hk; eauto ].
Qed.

Lemma advances_nextval_programs :
  advances (nextval training_programs_id_seq set_training_programs_id_seq).
Proof.
  intros db r db' H. unfold nextval in H.
  destruct (_ <=? _); inversion H; subst; unfold seqs_le; cbn; lia.
Qed.

Lemma advances_nextval_days :
  advances (nextval training_days_id_seq set_training_days_id_seq).
Proof.
  intros db r db' H. unfold nextval in H.
  destruct (_ <=? _); inversion H; subst; unfold seqs_le; cbn; lia.
Qed.

Lemma advances_nextval_exercises :
  advances (nextval program_exercises_id_seq set_program_exercises_id_seq).
Proof.
  intros db r db' H. unfold nextval in H.
  destruct (_ <=? _); inversion H; subst; unfold seqs_le; cbn; lia.
Qed.

Lemma advances_for_each {X : Type} (l : list X) (body : X -> plpgsql unit) :
  (forall x, advances (body x)) -> advances (for_each l body).
Proof.
  intros Hbody. induction l as [| x l IH]; cbn [for_each].
  - apply advances_ret.
  - apply advances_bind; [ apply Hbody | intros _; exact IH ].
Qed.

Create HintDb advances.
#[local] Hint Resolve advances_ret advances_raise advances_eval
  advances_require advances_not_null advances_get_rows advances_set_rows
  advances_nextval_programs advances_nextval_days advances_nextval_exercises
  : advances.

Ltac prove_advances :=
  repeat (apply advances_bind; [ | intros ]); auto with advances.

Lemma advances_create_full_program auth_uid program_name program_description
    client_id_in days :
  advances (create_full_program auth_uid program_name program_description
              client_id_in days).
Proof.
  unfold create_full_program, insert_training_programs. prove_advances.
  apply advances_for_each. intros day_data.
  unfold insert_day_of, insert_training_days. prove_advances.
  apply advances_for_each. intros exercise_data.
  unfold insert_exercise_of, insert_program_exercises. prove_advances.
Qed.

Lemma ids_below_sequences_later (db : database) (s' : sequences) :
  ids_below_sequences db = true ->
  seqs_le (seqs db) s' ->
  ids_below_sequences {| rows := rows db; seqs := s' |} = true.
Proof.
  unfold ids_below_sequences, seqs_le. cbn [rows seqs].
  intros H (Hp & Hd & Hx). split_checks. join_checks;
    (eapply forallb_weaken; [ | eassumption ]); cbn beta; intros r Hr;
    apply Z.ltb_lt in Hr; apply Z.ltb_lt; lia.
Qed.

(** *** One more row *)

Lemma same_accounts_and_library_refl (t : tables) :
  same_accounts_and_library t t.
Proof. unfold same_accounts_and_library. auto. Qed.

Lemma same_accounts_and_library_trans (a b c : tables) :
  same_accounts_and_library a b -> same_accounts_and_library b c ->
  same_accounts_and_library a c.
Proof.
  unfold same_accounts_and_library.
  intros (H1 & H2 & H3 & H4) (H5 & H6 & H7 & H8).
  repeat split; congruence.
Qed.

(** The constraints of the other tables read nothing that
    [create_full_program] writes. *)
Lemma constraints_hold_programs (t t' : tables) :
  same_accounts_and_library t t' ->
  constraints_hold t = true ->
  programs_hold t' = true ->
  constraints_hold t' = true.
Proof.
  intros (Hu & Hp & Hc & Hx) H Hprograms.
  unfold constraints_hold in *. split_checks. join_checks.
  - eapply accounts_hold_same; [ | | eassumption ]; assumption.
  - eapply (links_hold_same _ _ []); [ | | eassumption ];
      [ rewrite app_nil_r | ]; assumption.
  - eapply (library_holds_same _ _ []); [ | | eassumption ];
      [ rewrite app_nil_r | ]; assumption.
  - exact Hprograms.
Qed.

Lemma programs_hold_add_program (t : tables) (row : training_program) :
  programs_hold t = true ->
  program_exists t (tp_id row) = false ->
  profile_exists t (tp_trainer_id row) = true ->
  profile_exists t (tp_client_id row) = true ->
  programs_hold
    (with_training_programs (training_programs t ++ [row]) t) = true.
Proof.
  intros H Hfresh Htrainer Hclient.
  unfold programs_hold, pk_training_programs, fk_training_programs,
    pk_training_days, fk_training_days, pk_program_exercises,
    unique_program_exercises, fk_program_exercises,
    fk_program_exercises_exercise, program_exists, day_exists,
    exercise_exists, profile_exists in *.
  cbn [with_training_programs training_programs training_days
         program_exercises exercises profiles].
  split_checks. join_checks; try assumption.
  - apply pairwise_app_one; assumption.
  - rewrite forallb_app_one. join_checks; assumption.
  - match goal with
    | F : forallb _ _ = true |- _ =>
        eapply forallb_weaken; [ | exact F ];
        cbn beta; intros d Hd; rewrite existsb_app, Hd; reflexivity
    end.
Qed.

Lemma programs_hold_add_day (t : tables) (row : training_day) :
  programs_hold t = true ->
  day_exists t (td_id row) = false ->
  program_exists t (td_program_id row) = true ->
  programs_hold (with_training_days (training_days t ++ [row]) t) = true.
Proof.
  intros H Hfresh Hprogram.
  unfold programs_hold, pk_training_programs, fk_training_programs,
    pk_training_days, fk_training_days, pk_program_exercises,
    unique_program_exercises, fk_program_exercises,
    fk_program_exercises_exercise, program_exists, day_exists,
    exercise_exists, profile_exists in *.
  cbn [with_training_days training_programs training_days
         program_exercises exercises profiles].
  split_checks. join_checks; try assumption.
  - apply pairwise_app_one; assumption.
  - rewrite forallb_app_one. join_checks; assumption.
  - match goal with
    | F : forallb _ _ = true |- _ =>
        eapply forallb_weaken; [ | exact F ];
        cbn beta; intros x Hx; rewrite existsb_app, Hx; reflexivity
    end.
Qed.

Lemma programs_hold_add_assignment (t : tables) (row : program_exercise) :
  programs_hold t = true ->
  assignment_exists t (pe_id row) = false ->
  assignment_taken t (pe_day_id row) (pe_exercise_id row)
    (pe_exercise_order row) = false ->
  day_exists t (pe_day_id row) = true ->
  exercise_exists t (pe_exercise_id row) = true ->
  programs_hold
    (with_program_exercises (program_exercises t ++ [row]) t) = true.
Proof.
  intros H Hfresh Hslot Hday Hexercise.
  unfold programs_hold, pk_training_programs, fk_training_programs,
    pk_training_days, fk_training_days, pk_program_exercises,
    unique_program_exercises, fk_program_exercises,
    fk_program_exercises_exercise, program_exists, day_exists,
    exercise_exists, profile_exists, assignment_exists, assignment_taken in *.
  cbn [with_program_exercises training_programs training_days
         program_exercises exercises profiles].
  split_checks. join_checks; try assumption.
  - apply pairwise_app_one; assumption.
  - apply pairwise_app_one; assumption.
  - rewrite forallb_app_one. join_checks; assumption.
  - rewrite forallb_app_one. join_checks; assumption.
Qed.

Lemma forallb_below_later {A : Type} (key : A -> Z) (l : list A) (a b : Z) :
  a <= b ->
  forallb (fun x => key x <? a) l = true ->
  forallb (fun x => key x <? b) l = true.
Proof.
  intros Hab H. eapply forallb_weaken; [ | exact H ].
  cbn beta. intros x Hx. apply Z.ltb_lt in Hx. apply Z.ltb_lt. lia.
Qed.

(** *** The statements of create_full_program *)

Lemma insert_training_programs_keeps auth_uid name description trainer_id
    client_id db id db1 :
  consistent db = true ->
  insert_training_programs auth_uid name description trainer_id client_id db
  = (inr id, db1) ->
  consistent db1 = true /\ same_accounts_and_library (rows db) (rows db1).
Proof.
  unfold consistent, insert_training_programs. intros Hdb H.
  run_inv H. use_values. split_checks.
  repeat match goal with
         | F : negb _ = true |- _ => apply negb_true_iff in F
         end.
  split; [ | repeat split ].
  join_checks.
  - cbn [rows]. eapply constraints_hold_programs; [ | eassumption | ].
    + repeat split.
    + unfold constraints_hold in *. split_checks.
      apply programs_hold_add_program; assumption.
  - unfold ids_below_sequences in *.
    cbn [rows seqs with_training_programs training_programs training_days
           program_exercises set_training_programs_id_seq
           training_programs_id_seq training_days_id_seq
           program_exercises_id_seq].
    split_checks. join_checks; try assumption.
    rewrite forallb_app_one. join_checks.
    + eapply forallb_below_later; [ | eassumption ]. lia.
    + cbn [tp_id]. apply Z.ltb_lt. lia.
Qed.

Lemma insert_training_days_keeps auth_uid program_id name day_order db id db1 :
  consistent db = true ->
  insert_training_days auth_uid program_id name day_order db = (inr id, db1) ->
  consistent db1 = true /\ same_accounts_and_library (rows db) (rows db1).
Proof.
  unfold consistent, insert_training_days. intros Hdb H.
  run_inv H. use_values. split_checks.
  repeat match goal with
         | F : negb _ = true |- _ => apply negb_true_iff in F
         end.
  split; [ | repeat split ].
  join_checks.
  - cbn [rows]. eapply constraints_hold_programs; [ | eassumption | ].
    + repeat split.
    + unfold constraints_hold in *. split_checks.
      apply programs_hold_add_day; assumption.
  - unfold ids_below_sequences in *.
    cbn [rows seqs with_training_days training_programs training_days
           program_exercises set_training_days_id_seq
           training_programs_id_seq training_days_id_seq
           program_exercises_id_seq].
    split_checks. join_checks; try assumption.
    rewrite forallb_app_one. join_checks.
    + eapply forallb_below_later; [ | eassumption ]. lia.
    + cbn [td_id]. apply Z.ltb_lt. lia.
Qed.

Lemma insert_program_exercises_keeps auth_uid day_id exercise_id sets reps
    rest_period_seconds exercise_order notes db db1 :
  consistent db = true ->
  insert_program_exercises auth_uid day_id exercise_id sets reps
    rest_period_seconds exercise_order notes db = (inr tt, db1) ->
  consistent db1 = true /\ same_accounts_and_library (rows db) (rows db1).
Proof.
  unfold consistent, insert_program_exercises. intros Hdb H.
  run_inv H. use_values. split_checks.
  repeat match goal with
         | F : negb _ = true |- _ => apply negb_true_iff in F
         end.
  split; [ | repeat split ].
  join_checks.
  - cbn [rows]. eapply constraints_hold_programs; [ | eassumption | ].
    + repeat split.
    + unfold constraints_hold in *. split_checks.
      apply programs_hold_add_assignment; assumption.
  - unfold ids_below_sequences in *.
    cbn [rows seqs with_program_exercises training_programs training_days
           program_exercises set_program_exercises_id_seq
           training_programs_id_seq training_days_id_seq
           program_exercises_id_seq].
    split_checks. join_checks; try assumption.
    rewrite forallb_app_one. join_checks.
    + eapply forallb_below_later; [ | eassumption ]. lia.
    + cbn [pe_id]. apply Z.ltb_lt. lia.
Qed.

Lemma for_each_keeps {X : Type} (body : X -> plpgsql unit) (l : list X) :
  (forall x db db1,
      consistent db = true -> body x db = (inr tt, db1) ->
      consistent db1 = true /\ same_accounts_and_library (rows db) (rows db1)) ->
  forall db db1,
    consistent db = true -> for_each l body db = (inr tt, db1) ->
    consistent db1 = true /\ same_accounts_and_library (rows db) (rows db1).
Proof.
  intros Hbody. induction l as [| x l IH]; intros db db1 Hdb H.
  - cbn in H. inversion H; subst. split; [ exact Hdb | ].
    apply same_accounts_and_library_refl.
  - cbn [for_each] in H. apply bind_inr in H.
    destruct H as ([] & mid & Hx & Hrest).
    destruct (Hbody x db mid Hdb Hx) as [Hmid Hsame].
    destruct (IH mid db1 Hmid Hrest) as [Hend Hsame'].
    split; [ exact Hend | ].
    eapply same_accounts_and_library_trans; eauto.
Qed.

Lemma insert_day_of_keeps auth_uid new_program_id day_data db db1 :
  consistent db = true ->
  insert_day_of auth_uid new_program_id day_data db = (inr tt, db1) ->
  consistent db1 = true /\ same_accounts_and_library (rows db) (rows db1).
Proof.
  unfold insert_day_of. intros Hdb H.
  apply bind_inr in H. destruct H as (new_day_id & mid & Hday & H).
  apply bind_inr in H. destruct H as (xs & mid' & Hxs & H).
  apply eval_inr in Hxs. destruct Hxs as [_ ->].
  destruct (insert_training_days_keeps _ _ _ _ _ _ _ Hdb Hday) as [Hmid Hsame].
  destruct (for_each_keeps (insert_exercise_of auth_uid new_day_id) xs
              (fun x d d1 Hd Hx =>
                 insert_program_exercises_keeps _ _ _ _ _ _ _ _ d d1 Hd Hx)
              mid db1 Hmid H) as [Hend Hsame'].
  split; [ exact Hend | ].
  eapply same_accounts_and_library_trans; eauto.
Qed.

(** X5.  [create_full_program], whether it returns or raises, keeps every
    declared constraint (the keys, the unique index on the slot of an
    assignment, every foreign key) and keeps the ids in use below the
    next values of their sequences; it writes to no table but
    [training_programs], [training_days] and [program_exercises]. *)
Theorem create_full_program_keeps_constraints
    (auth_uid : option uuid) (program_name program_description : option text)
    (client_id_in : option uuid) (days : option jsonb) (db : database) :
  constraints_hold (rows db) = true ->
  ids_below_sequences db = true ->
  let db' :=
    snd (call (create_full_program auth_uid program_name program_description
                 client_id_in days) db) in
  constraints_hold (rows db') = true /\
  ids_below_sequences db' = true /\
  auth_users (rows db') = auth_users (rows db) /\
  profiles (rows db') = profiles (rows db) /\
  clients (rows db') = clients (rows db) /\
  exercises (rows db') = exercises (rows db).
Proof.
  intros Hholds Hbelow. cbn zeta. unfold call.
  destruct (create_full_program auth_uid program_name program_description
              client_id_in days db) as [[e | v] w] eqn:Hrun.
  - cbn [snd]. unfold rollback_to. cbn [rows].
    split; [ exact Hholds | ]. split; [ | repeat split ].
    apply ids_below_sequences_later; [ exact Hbelow | ].
    eapply advances_create_full_program; eauto.
  - cbn [snd]. unfold create_full_program in Hrun.
    apply bind_inr in Hrun. destruct Hrun as (new_program_id & db1 & Hprogram & Hrun).
    apply bind_inr in Hrun. destruct Hrun as (ds & db2 & Hds & Hrun).
    apply eval_inr in Hds. destruct Hds as [_ ->].
    apply bind_inr in Hrun. destruct Hrun as ([] & db3 & Hloop & Hret).
    apply ret_inr in Hret. destruct Hret as [_ ->].
    assert (Hdb : consistent db = true).
    { unfold consistent. rewrite Hholds, Hbelow. reflexivity. }
    destruct (insert_training_programs_keeps _ _ _ _ _ _ _ _ Hdb Hprogram)
      as [Hdb1 Hsame1].
    destruct (for_each_keeps (insert_day_of auth_uid new_program_id) ds
                (fun d a b Ha Hd => insert_day_of_keeps _ _ _ a b Ha Hd)
                db1 db3 Hdb1 Hloop) as [Hdb3 Hsame3].
    unfold consistent in Hdb3. apply andb_true_iff in Hdb3.
    destruct Hdb3 as [Hholds3 Hbelow3].
    destruct (same_accounts_and_library_trans _ _ _ Hsame1 Hsame3)
      as (Hu & Hp & Hc & Hx).
    repeat split; assumption.
Qed.

(** ** Deleting a program *)

Lemma forallb_filter {A : Type} (f g : A -> bool) (l : list A) :
  forallb f l = true -> forallb f (filter g l) = true.
Proof.
  intros H. apply forallb_forall. intros x Hx. apply filter_In in Hx.
  rewrite forallb_forall in H. apply H. tauto.
Qed.

(** A row that was referenced, and is not referenced among the rows that
    go, is referenced among the rows that stay. *)
Lemma kept_reference {A : Type} (key : A -> Z) (k : Z) (gone : A -> bool)
    (l : list A) :
  existsb (fun a => key a =? k) l = true ->
  existsb (fun a => key a =? k) (filter gone l) = false ->
  existsb (fun a => key a =? k) (filter (fun a => negb (gone a)) l) = true.
Proof.
  intros Hthere Hgone. apply existsb_exists in Hthere.
  destruct Hthere as (a & Ha & Hk). apply existsb_exists. exists a.
  split; [ | exact Hk ]. apply filter_In. split; [ exact Ha | ].
  destruct (gone a) eqn:E; [ | reflexivity ].
  assert (Hin : existsb (fun a => key a =? k) (filter gone l) = true).
  { apply existsb_exists. exists a. split; [ | exact Hk ].
    apply filter_In. auto. }
  congruence.
Qed.

Lemma pairwise_in {A : Type} (clash : A -> A -> bool) (l : list A) (a b : A) :
  (forall x y, clash x y = clash y x) ->
  pairwise clash l = true ->
  In a l -> In b l -> a = b \/ clash a b = false.
Proof.
  intros Hsym. induction l as [| c l IH]; cbn [pairwise In]; intros H Ha Hb.
  - contradiction.
  - apply andb_true_iff in H. destruct H as [Hc Hl].
    apply negb_true_iff in Hc.
    assert (Hlater : forall x, In x l -> clash c x = false).
    { intros x Hx. destruct (clash c x) eqn:E; [ | reflexivity ].
      assert (existsb (clash c) l = true)
        by (apply existsb_exists; exists x; auto).
      congruence. }
    destruct Ha as [<- | Ha], Hb as [<- | Hb].
    + left. reflexivity.
    + right. apply Hlater. exact Hb.
    + right. rewrite Hsym. apply Hlater. exact Ha.
    + apply IH; assumption.
Qed.

(** X6.  When the caller deletes a program of theirs, the program goes
    and so does everything below it: no day of the program, no
    assignment of one of its days, and no workout log of one of those
    assignments is left. *)
Theorem delete_training_programs_cascades (caller : uuid)
    (p : training_program) (s : store) :
  pk_training_programs (core s) = true ->
  In p (training_programs (core s)) ->
  tp_trainer_id p = caller ->
  let s' := delete_training_programs (Some caller) (tp_id p) s in
  program_exists (core s') (tp_id p) = false /\
  (forall d, In d (training_days (core s')) -> td_program_id d <> tp_id p) /\
  (forall d x,
      In d (training_days (core s)) -> td_program_id d = tp_id p ->
      In x (program_exercises (core s')) -> pe_day_id x <> td_id d) /\
  (forall d x l,
      In d (training_days (core s)) -> td_program_id d = tp_id p ->
      In x (program_exercises (core s)) -> pe_day_id x = td_id d ->
      In l (workout_logs s') -> wl_program_exercise_id l <> pe_id x).
Proof.
  intros Hpk Hp Hcaller. cbn zeta.
  assert (Hdeleted : deleted_program (Some caller) (tp_id p) p = true).
  { unfold deleted_program. rewrite Z.eqb_refl, Hcaller. cbn.
    apply String.eqb_refl. }
  assert (Hgone : In p (filter (deleted_program (Some caller) (tp_id p))
                          (training_programs (core s)))).
  { apply filter_In. auto. }
  assert (Hday : forall d,
             In d (training_days (core s)) -> td_program_id d = tp_id p ->
             In d (filter
                     (fun d =>
                        existsb (fun q => tp_id q =? td_program_id d)
                          (filter (deleted_program (Some caller) (tp_id p))
                             (training_programs (core s))))
                     (training_days (core s)))).
  { intros d Hd Hof. apply filter_In. split; [ exact Hd | ].
    apply existsb_exists. exists p. split; [ exact Hgone | ].
    apply Z.eqb_eq. symmetry. exact Hof. }
  unfold delete_training_programs.
  cbn [core workout_logs with_program_exercises with_training_days
         with_training_programs training_programs training_days
         program_exercises].
  split; [ | split; [ | split ] ].
  - unfold program_exists.
    cbn [with_program_exercises with_training_days with_training_programs
           training_programs].
    destruct (existsb _ (filter _ _)) eqn:E; [ | reflexivity ].
    apply existsb_exists in E. destruct E as (q & Hq & Hid).
    apply filter_In in Hq. destruct Hq as [Hq Hkept].
    apply Z.eqb_eq in Hid.
    destruct (pairwise_in (fun a b => tp_id a =? tp_id b) _ q p
                (fun x y => Z.eqb_sym _ _) Hpk Hq Hp) as [-> | Hne].
    + rewrite Hdeleted in Hkept. discriminate.
    + apply Z.eqb_neq in Hne. contradiction.
  - intros d Hd Hof. apply filter_In in Hd. destruct Hd as [Hd Hkept].
    apply negb_true_iff in Hkept.
    assert (existsb (fun q => tp_id q =? td_program_id d)
              (filter (deleted_program (Some caller) (tp_id p))
                 (training_programs (core s))) = true).
    { apply existsb_exists. exists p. split; [ exact Hgone | ].
      apply Z.eqb_eq. symmetry. exact Hof. }
    congruence.
  - intros d x Hd Hof Hx Hrefers. apply filter_In in Hx.
    destruct Hx as [Hx Hkept]. apply negb_true_iff in Hkept.
    assert (existsb (fun d => td_id d =? pe_day_id x)
              (filter
                 (fun d =>
                    existsb (fun q => tp_id q =? td_program_id d)
                      (filter (deleted_program (Some caller) (tp_id p))
                         (training_programs (core s))))
                 (training_days (core s))) = true).
    { apply existsb_exists. exists d. split; [ apply Hday; assumption | ].
      apply Z.eqb_eq. symmetry. exact Hrefers. }
    congruence.
  - intros d x l Hd Hof Hx Hrefers Hl Hlog. apply filter_In in Hl.
    destruct Hl as [Hl Hkept]. apply negb_true_iff in Hkept.
    match type of Hkept with
    | existsb ?f ?gone = false =>
        assert (Hthere : existsb f gone = true)
    end.
    { apply existsb_exists. exists x. split.
      - apply filter_In. split; [ exact Hx | ].
        apply existsb_exists. exists d. split; [ apply Hday; assumption | ].
        apply Z.eqb_eq. symmetry. exact Hrefers.
      - apply Z.eqb_eq. symmetry. exact Hlog. }
    congruence.
Qed.

(** X7.  Deleting a program keeps every declared constraint, those of
    [workout_logs] included: no row that stays refers to a row that
    went.  The rows that go are below the program: a day of another
    program, an assignment of such a day and every account, link and
    library exercise stay. *)
Theorem delete_training_programs_keeps_constraints (auth_uid : option uuid)
    (id : Z) (s : store) :
  store_constraints_hold s = true ->
  let s' := delete_training_programs auth_uid id s in
  store_constraints_hold s' = true /\
  same_accounts_and_library (core s) (core s') /\
  (forall q, In q (training_programs (core s)) -> tp_id q <> id ->
             In q (training_programs (core s'))) /\
  (forall d, In d (training_days (core s)) -> td_program_id d <> id ->
             In d (training_days (core s'))) /\
  (forall d x, In d (training_days (core s)) -> td_program_id d <> id ->
               In x (program_exercises (core s)) -> pe_day_id x = td_id d ->
               In x (program_exercises (core s'))).
Proof.
  intros H. cbn zeta.
  assert (Hpk : pk_training_days (core s) = true).
  { unfold store_constraints_hold, constraints_hold, programs_hold in H.
    split_checks. assumption. }
  assert (Hnot_gone : forall d,
             td_program_id d <> id ->
             existsb (fun q => tp_id q =? td_program_id d)
               (filter (deleted_program auth_uid id)
                  (training_programs (core s))) = false).
  { intros d Hother.
    destruct (existsb _ (filter _ _)) eqn:E; [ | reflexivity ].
    apply existsb_exists in E. destruct E as (q & Hq & Hid).
    apply filter_In in Hq. destruct Hq as [_ Hq].
    unfold deleted_program in Hq. apply andb_true_iff in Hq.
    destruct Hq as [Hq _]. apply Z.eqb_eq in Hq, Hid. congruence. }
  unfold delete_training_programs.
  split; [ | split; [ | split; [ | split ] ] ].
  - unfold store_constraints_hold in *.
    cbn [core workout_logs]. split_checks. join_checks.
    + eapply constraints_hold_programs; [ | eassumption | ].
      * repeat split.
      * unfold constraints_hold in *. split_checks.
        unfold programs_hold, pk_training_programs, fk_training_programs,
          pk_training_days, fk_training_days, pk_program_exercises,
          unique_program_exercises, fk_program_exercises,
          fk_program_exercises_exercise, program_exists, day_exists,
          exercise_exists, profile_exists in *.
        cbn [with_program_exercises with_training_days with_training_programs
               training_programs training_days program_exercises exercises
               profiles].
        split_checks. join_checks.
        -- apply pairwise_filter. assumption.
        -- apply forallb_filter. assumption.
        -- apply pairwise_filter. assumption.
        -- apply forallb_forall. intros d Hd. apply filter_In in Hd.
           destruct Hd as [Hd Hkept]. apply negb_true_iff in Hkept.
           apply (kept_reference tp_id); [ | exact Hkept ].
           match goal with
           | F : forallb _ (training_days (core s)) = true |- _ =>
               rewrite forallb_forall in F; exact (F d Hd)
           end.
        -- apply pairwise_filter. assumption.
        -- apply pairwise_filter. assumption.
        -- apply forallb_forall. intros x Hx. apply filter_In in Hx.
           destruct Hx as [Hx Hkept]. apply negb_true_iff in Hkept.
           apply (kept_reference td_id); [ | exact Hkept ].
           match goal with
           | F : forallb (fun x => existsb _ (training_days (core s))) _ = true
             |- _ => rewrite forallb_forall in F; exact (F x Hx)
           end.
        -- apply forallb_filter. assumption.
    + unfold pk_workout_logs in *. cbn [workout_logs].
      apply pairwise_filter. assumption.
    + unfold unique_workout_logs in *. cbn [workout_logs].
      apply pairwise_filter. assumption.
    + unfold fk_workout_logs, assignment_exists, profile_exists in *.
      cbn [core workout_logs with_program_exercises with_training_days
             with_training_programs program_exercises profiles].
      apply forallb_forall. intros l Hl. apply filter_In in Hl.
      destruct Hl as [Hl Hkept]. apply negb_true_iff in Hkept.
      match goal with
      | F : forallb _ (workout_logs s) = true |- _ =>
          rewrite forallb_forall in F; specialize (F l Hl);
          apply andb_true_iff in F; destruct F as [Hassignment Hprofile]
      end.
      join_checks; [ | exact Hprofile ].
      apply (kept_reference pe_id); [ exact Hassignment | exact Hkept ].
  - cbn [core]. repeat split.
  - intros q Hq Hother. cbn [core with_program_exercises with_training_days
                               with_training_programs training_programs].
    apply filter_In. split; [ exact Hq | ]. apply negb_true_iff.
    unfold deleted_program. apply andb_false_iff. left.
    apply Z.eqb_neq. exact Hother.
  - intros d Hd Hother. cbn [core with_program_exercises with_training_days
                               training_days].
    apply filter_In. split; [ exact Hd | ]. apply negb_true_iff.
    apply Hnot_gone. exact Hother.
  - intros d x Hd Hother Hx Hrefers.
    cbn [core with_program_exercises program_exercises].
    apply filter_In. split; [ exact Hx | ]. apply negb_true_iff.
    destruct (existsb _ (filter _ _)) eqn:E; [ | reflexivity ].
    apply existsb_exists in E. destruct E as (d' & Hd' & Hid).
    apply filter_In in Hd'. destruct Hd' as [Hd' Hgone].
    apply Z.eqb_eq in Hid.
    destruct (pairwise_in (fun a b => td_id a =? td_id b) _ d d'
                (fun a b => Z.eqb_sym _ _) Hpk Hd Hd') as [<- | Hne].
    + rewrite (Hnot_gone d Hother) in Hgone. discriminate.
    + apply Z.eqb_neq in Hne. congruence.
Qed.

Lemma tables_eq (t t' : tables) :
  auth_users t' = auth_users t ->
  profiles t' = profiles t ->
  clients t' = clients t ->
  exercises t' = exercises t ->
  training_programs t' = training_programs t ->
  training_days t' = training_days t ->
  program_exercises t' = program_exercises t ->
  t' = t.
Proof.
  destruct t, t'. cbn. intros. subst. reflexivity.
Qed.

(** X8.  Nobody but its trainer deletes a program: a delete by anyone
    else, the client of the program and a caller without identity
    included, removes no row of any table. *)
Theorem delete_training_programs_by_another_user (auth_uid : option uuid)
    (id : Z) (s : store) :
  (forall p, In p (training_programs (core s)) -> tp_id p = id ->
             auth_uid <> Some (tp_trainer_id p)) ->
  delete_training_programs auth_uid id s = s.
Proof.
  destruct s as [t logs]. cbn [core workout_logs]. intros Hother.
  assert (Hnone : filter (deleted_program auth_uid id) (training_programs t)
                  = []).
  { apply filter_none. intros p Hp. unfold deleted_program.
    destruct (tp_id p =? id) eqn:Hid; [ | reflexivity ].
    apply Z.eqb_eq in Hid. specialize (Hother p Hp Hid).
    destruct auth_uid as [u |]; [ | reflexivity ].
    cbn. apply String.eqb_neq. congruence. }
  unfold delete_training_programs. cbn zeta. cbn [core workout_logs].
  assert (Hfalse : forall (A : Type) (l : list A),
             filter (fun _ => false) l = []).
  { intros A l. apply filter_none. reflexivity. }
  rewrite Hnone. cbn [existsb]. rewrite (Hfalse training_day).
  cbn [existsb]. rewrite (Hfalse program_exercise). cbn [existsb negb].
  f_equal.
  - apply tables_eq;
      cbn [with_program_exercises with_training_days with_training_programs
             auth_users profiles clients exercises training_programs
             training_days program_exercises];
      try reflexivity.
    + apply filter_all. intros p Hp. apply negb_true_iff.
      assert (Hin : In p (filter (deleted_program auth_uid id)
                            (training_programs t)) -> False)
        by (rewrite Hnone; intros []).
      destruct (deleted_program auth_uid id p) eqn:E; [ | reflexivity ].
      exfalso. apply Hin. apply filter_In. auto.
    + apply filter_all. reflexivity.
    + apply filter_all. reflexivity.
  - apply filter_all. reflexivity.
Qed.

(** ** create_full_program: what a successful call writes *)

Lemma is_true_eq_true (a b : option text) :
  is_true_eq a b = true -> exists x, a = Some x /\ b = Some x.
Proof.
  destruct a as [x |], b as [y |]; cbn; try discriminate.
  intros H. apply String.eqb_eq in H. subst. eauto.
Qed.

Lemma insert_training_programs_row auth_uid name description trainer_id
    client_id db id db1 :
  insert_training_programs auth_uid name description trainer_id client_id db
  = (inr id, db1) ->
  exists caller name' client',
    auth_uid = Some caller /\ trainer_id = Some caller /\
    name = Some name' /\ client_id = Some client' /\
    id = training_programs_id_seq (seqs db) /\
    db1 = {| rows :=
               with_training_programs
                 (training_programs (rows db)
                    ++ [ {| tp_id := id; tp_name := name';
                            tp_description := description;
                            tp_trainer_id := caller;
                            tp_client_id := client' |} ])
                 (rows db);
             seqs := set_training_programs_id_seq (id + 1) (seqs db) |}.
Proof.
  unfold insert_training_programs. intros H. run_inv H.
  match goal with
  | F : is_true_eq _ _ = true |- _ =>
      apply is_true_eq_true in F; destruct F as (caller & Hcaller & Htrainer)
  end.
  subst. use_values. do 3 eexists. repeat split.
Qed.

Lemma after_days_same program_id ds :
  forall db,
    same_accounts_and_library (rows db) (rows (after_days program_id db ds)).
Proof.
  induction ds as [| d ds IH]; intros db.
  - apply same_accounts_and_library_refl.
  - unfold after_days in *. cbn [fold_left].
    eapply same_accounts_and_library_trans; [ | apply IH ].
    repeat split.
Qed.

Lemma after_days_seqs program_id ds :
  forall db,
    training_programs_id_seq (seqs (after_days program_id db ds))
    = training_programs_id_seq (seqs db).
Proof.
  induction ds as [| d ds IH]; intros db.
  - reflexivity.
  - unfold after_days in *. cbn [fold_left]. rewrite IH. reflexivity.
Qed.

(** The rows of a call that returned. *)
Lemma create_full_program_rows auth_uid program_name program_description
    client_id_in days db v db' :
  call (create_full_program auth_uid program_name program_description
          client_id_in days) db = (Returned v, db') ->
  exists caller name client ds,
    auth_uid = Some caller /\ program_name = Some name /\
    client_id_in = Some client /\
    jsonb_array_elements days = inr ds /\
    v = msg_program_created (training_programs_id_seq (seqs db)) /\
    rows db'
    = with_program_exercises
        (program_exercises (rows db)
           ++ tree_exercise_rows (program_exercises_id_seq (seqs db))
                (training_days_id_seq (seqs db)) ds)
        (with_training_days
           (training_days (rows db)
              ++ day_rows (training_days_id_seq (seqs db))
                   (training_programs_id_seq (seqs db)) ds)
           (with_training_programs
              (training_programs (rows db)
                 ++ [ {| tp_id := training_programs_id_seq (seqs db);
                         tp_name := name;
                         tp_description := program_description;
                         tp_trainer_id := caller;
                         tp_client_id := client |} ])
              (rows db))).
Proof.
  intros Hcall. apply call_returned in Hcall.
  unfold create_full_program in Hcall.
  apply bind_inr in Hcall. destruct Hcall as (pid & db1 & Hprogram & Hcall).
  apply bind_inr in Hcall. destruct Hcall as (ds & db2 & Hds & Hcall).
  apply eval_inr in Hds. destruct Hds as [Hds ->].
  apply bind_inr in Hcall. destruct Hcall as ([] & db3 & Hloop & Hret).
  apply ret_inr in Hret. destruct Hret as [-> ->].
  apply insert_training_programs_row in Hprogram.
  destruct Hprogram as (caller & name & client & -> & _ & -> & -> & -> & ->).
  apply outer_loop_ok in Hloop. destruct Hloop as [-> _].
  exists caller, name, client, ds.
  repeat split; try assumption.
  match goal with
  | |- rows (after_days ?p ?d ds) = _ =>
      destruct (after_days_rows p ds d) as (Hp & Hd & Hx);
      destruct (after_days_same p ds d) as (Hs1 & Hs2 & Hs3 & Hs4)
  end.
  symmetry. apply tables_eq; cbn in *; congruence.
Qed.

(** X9.  A call of [create_full_program] that returns has written one
    program row, whose trainer is the caller, and after the rows that
    were there the day rows and the assignment rows of the descriptors, in
    input order and under consecutive ids; every field of a row is the
    one its descriptor gives.  No other table changes. *)
Theorem create_full_program_writes
    (auth_uid : option uuid) (program_name program_description : option text)
    (client_id_in : option uuid) (days : option jsonb)
    (db : database) (v : jsonb) (db' : database) :
  call (create_full_program auth_uid program_name program_description
          client_id_in days) db = (Returned v, db') ->
  let id := training_programs_id_seq (seqs db) in
  exists caller name client ds,
    auth_uid = Some caller /\ program_name = Some name /\
    client_id_in = Some client /\
    jsonb_array_elements days = inr ds /\
    training_programs (rows db')
    = (training_programs (rows db)
         ++ [ {| tp_id := id; tp_name := name;
                 tp_description := program_description;
                 tp_trainer_id := caller; tp_client_id := client |} ])%list /\
    training_days (rows db')
    = (training_days (rows db)
         ++ day_rows (training_days_id_seq (seqs db)) id ds)%list /\
    program_exercises (rows db')
    = (program_exercises (rows db)
         ++ tree_exercise_rows (program_exercises_id_seq (seqs db))
              (training_days_id_seq (seqs db)) ds)%list /\
    same_accounts_and_library (rows db) (rows db').
Proof.
  intros Hcall id.
  destruct (create_full_program_rows _ _ _ _ _ _ _ _ Hcall)
    as (caller & name & client & ds & Hu & Hn & Hc & Hds & _ & Hrows).
  exists caller, name, client, ds. rewrite Hrows.
  repeat split; assumption.
Qed.

Lemma filter_keeps_old {A : Type} (f : A -> bool) (old new : list A) :
  (forall x, In x old -> f x = true) ->
  (forall x, In x new -> f x = false) ->
  filter f (old ++ new) = old.
Proof.
  intros Hold Hnew.
  rewrite filter_app, (filter_all f old Hold), (filter_none f new Hnew).
  apply app_nil_r.
Qed.

Lemma filter_keeps_new {A : Type} (f : A -> bool) (old new : list A) :
  (forall x, In x old -> f x = false) ->
  (forall x, In x new -> f x = true) ->
  filter f (old ++ new) = new.
Proof.
  intros Hold Hnew.
  rewrite filter_app, (filter_none f old Hold), (filter_all f new Hnew).
  reflexivity.
Qed.

Lemma tree_exercise_rows_ids id day_id ds x :
  In x (tree_exercise_rows id day_id ds) -> id <= pe_id x.
Proof.
  revert id day_id.
  induction ds as [| d ds IH]; intros id day_id; cbn [tree_exercise_rows].
  - intros [].
  - intros H. apply in_app_or in H. destruct H as [H | H].
    + apply exercise_rows_ids in H. lia.
    + apply IH in H. lia.
Qed.

(** X10.  Creating a program and then deleting it, by the same caller,
    gives the tables back as they were: the delete removes the program
    row, the day rows and the assignment rows of the call, and nothing
    that was there before.  (The sequences keep the values they handed
    out.) *)
Theorem create_then_delete_restores
    (auth_uid : option uuid) (program_name program_description : option text)
    (client_id_in : option uuid) (days : option jsonb)
    (db : database) (logs : list workout_log) (v : jsonb) (db' : database) :
  fk_training_days (rows db) = true ->
  fk_program_exercises (rows db) = true ->
  ids_below_sequences db = true ->
  fk_workout_logs {| core := rows db; workout_logs := logs |} = true ->
  call (create_full_program auth_uid program_name program_description
          client_id_in days) db = (Returned v, db') ->
  delete_training_programs auth_uid (training_programs_id_seq (seqs db))
    {| core := rows db'; workout_logs := logs |}
  = {| core := rows db; workout_logs := logs |}.
Proof.
  intros Hfk_days Hfk_x Hbelow Hfk_logs Hcall.
  destruct (create_full_program_rows _ _ _ _ _ _ _ _ Hcall)
    as (caller & name & client & ds & -> & _ & _ & _ & _ & Hrows).
  unfold ids_below_sequences in Hbelow. split_checks.
  rename H into Hprograms, H1 into Hdays, H0 into Hids.
  unfold fk_training_days, program_exists in Hfk_days.
  unfold fk_program_exercises, day_exists in Hfk_x.
  unfold fk_workout_logs, assignment_exists in Hfk_logs.
  cbn [core workout_logs] in Hfk_logs.
  rewrite forallb_forall in Hprograms, Hdays, Hids, Hfk_days, Hfk_x, Hfk_logs.
  set (id := training_programs_id_seq (seqs db)) in *.
  set (row := {| tp_id := id; tp_name := name;
                 tp_description := program_description;
                 tp_trainer_id := caller; tp_client_id := client |}) in *.
  set (DR := day_rows (training_days_id_seq (seqs db)) id ds) in *.
  set (XR := tree_exercise_rows (program_exercises_id_seq (seqs db))
               (training_days_id_seq (seqs db)) ds) in *.
  assert (Hold_day : forall d, In d (training_days (rows db)) ->
                               (id =? td_program_id d) = false).
  { intros d Hd. specialize (Hfk_days d Hd).
    apply existsb_exists in Hfk_days. destruct Hfk_days as (p & Hp & Heq).
    specialize (Hprograms p Hp). apply Z.ltb_lt in Hprograms.
    apply Z.eqb_eq in Heq. apply Z.eqb_neq. lia. }
  assert (Hold_x : forall x, In x (program_exercises (rows db)) ->
                             existsb (fun d => td_id d =? pe_day_id x) DR
                             = false).
  { intros x Hx. specialize (Hfk_x x Hx).
    apply existsb_exists in Hfk_x. destruct Hfk_x as (d & Hd & Heq).
    specialize (Hdays d Hd). apply Z.ltb_lt in Hdays. apply Z.eqb_eq in Heq.
    destruct (existsb _ DR) eqn:E; [ | reflexivity ].
    apply existsb_exists in E. destruct E as (d' & Hd' & Heq').
    apply day_rows_ids in Hd'. destruct Hd' as (i & _ & Hid & _).
    apply Z.eqb_eq in Heq'. lia. }
  assert (Hnew_x : forall x, In x XR ->
                             existsb (fun d => td_id d =? pe_day_id x) DR
                             = true).
  { intros x Hx. apply tree_exercise_rows_day in Hx.
    apply day_rows_has_id. exact Hx. }
  assert (Hgp : filter (deleted_program (Some caller) id)
                  (training_programs (rows db) ++ [row]) = [row]).
  { apply filter_keeps_new.
    - intros p Hp. specialize (Hprograms p Hp). apply Z.ltb_lt in Hprograms.
      unfold deleted_program. apply andb_false_iff. left.
      apply Z.eqb_neq. lia.
    - intros p [<- | []]. unfold deleted_program. cbn.
      rewrite Z.eqb_refl. apply String.eqb_refl. }
  assert (Hkp : filter (fun p => negb (deleted_program (Some caller) id p))
                  (training_programs (rows db) ++ [row])
                = training_programs (rows db)).
  { apply filter_keeps_old.
    - intros p Hp. specialize (Hprograms p Hp). apply Z.ltb_lt in Hprograms.
      unfold deleted_program. apply negb_true_iff. apply andb_false_iff. left.
      apply Z.eqb_neq. lia.
    - intros p [<- | []]. unfold deleted_program. cbn.
      rewrite Z.eqb_refl, String.eqb_refl. reflexivity. }
  assert (Hgd : filter (fun d => existsb (fun p => tp_id p =? td_program_id d)
                                   [row])
                  (training_days (rows db) ++ DR) = DR).
  { apply filter_keeps_new.
    - intros d Hd. cbn. rewrite (Hold_day d Hd). reflexivity.
    - intros d Hd. apply day_rows_ids in Hd. destruct Hd as (_ & _ & _ & ->).
      cbn. rewrite Z.eqb_refl. reflexivity. }
  assert (Hkd : filter (fun d => negb (existsb
                                         (fun p => tp_id p =? td_program_id d)
                                         [row]))
                  (training_days (rows db) ++ DR)
                = training_days (rows db)).
  { apply filter_keeps_old.
    - intros d Hd. cbn. rewrite (Hold_day d Hd). reflexivity.
    - intros d Hd. apply day_rows_ids in Hd. destruct Hd as (_ & _ & _ & ->).
      cbn. rewrite Z.eqb_refl. reflexivity. }
  assert (Hgx : filter (fun x => existsb (fun d => td_id d =? pe_day_id x) DR)
                  (program_exercises (rows db) ++ XR) = XR).
  { apply filter_keeps_new; assumption. }
  assert (Hkx : filter (fun x => negb (existsb
                                         (fun d => td_id d =? pe_day_id x) DR))
                  (program_exercises (rows db) ++ XR)
                = program_exercises (rows db)).
  { apply filter_keeps_old.
    - intros x Hx. rewrite (Hold_x x Hx). reflexivity.
    - intros x Hx. rewrite (Hnew_x x Hx). reflexivity. }
  assert (Hkl : filter (fun l => negb (existsb
                                         (fun x => pe_id x =? wl_program_exercise_id l)
                                         XR)) logs = logs).
  { apply filter_all. intros l Hl. apply negb_true_iff.
    specialize (Hfk_logs l Hl). apply andb_true_iff in Hfk_logs.
    destruct Hfk_logs as [Hthere _].
    apply existsb_exists in Hthere. destruct Hthere as (x & Hx & Heq).
    specialize (Hids x Hx). apply Z.ltb_lt in Hids. apply Z.eqb_eq in Heq.
    destruct (existsb _ XR) eqn:E; [ | reflexivity ].
    apply existsb_exists in E. destruct E as (x' & Hx' & Heq').
    apply tree_exercise_rows_ids in Hx'. apply Z.eqb_eq in Heq'. lia. }
  unfold delete_training_programs. cbn zeta. cbn [core workout_logs].
  rewrite Hrows.
  cbn [with_program_exercises with_training_days with_training_programs
         training_programs training_days program_exercises].
  rewrite Hgp, Hkp, Hgd, Hkd, Hgx, Hkx, Hkl.
  f_equal. apply tables_eq; reflexivity.
Qed.

(** ** create_full_program: the shape of [days] *)

Lemma insert_training_programs_succeeds (caller client : uuid) (name : text)
    (description : option text) (db : database) :
  profile_exists (rows db) caller = true ->
  profile_exists (rows db) client = true ->
  training_programs_id_seq (seqs db) <= int8_max ->
  program_exists (rows db) (training_programs_id_seq (seqs db)) = false ->
  insert_training_programs (Some caller) (Some name) description
    (Some caller) (Some client) db
  = (inr (training_programs_id_seq (seqs db)),
     {| rows :=
          with_training_programs
            (training_programs (rows db)
               ++ [ {| tp_id := training_programs_id_seq (seqs db);
                       tp_name := name; tp_description := description;
                       tp_trainer_id := caller; tp_client_id := client |} ])
            (rows db);
        seqs := set_training_programs_id_seq
                  (training_programs_id_seq (seqs db) + 1) (seqs db) |}).
Proof.
  intros Hcaller Hclient Hmax Hfresh.
  unfold insert_training_programs, bind, nextval.
  apply Z.leb_le in Hmax. rewrite Hmax.
  cbn [is_true_eq require ret not_null get_rows rows seqs].
  rewrite String.eqb_refl. cbn [require ret not_null get_rows rows seqs].
  rewrite Hfresh. cbn [negb require ret]. rewrite Hcaller. cbn [require ret].
  rewrite Hclient. reflexivity.
Qed.

(** X11.  When [days] is JSON but not an array (an object, a string, a
    number, a boolean, [null]), the call raises after the program row
    went in: the row is rolled back, and the id it had taken from the
    sequence is not given again. *)
Theorem create_full_program_days_not_an_array (caller client : uuid)
    (name : text) (description : option text) (days : jsonb) (db : database) :
  profile_exists (rows db) caller = true ->
  profile_exists (rows db) client = true ->
  training_programs_id_seq (seqs db) <= int8_max ->
  program_exists (rows db) (training_programs_id_seq (seqs db)) = false ->
  match days with
  | JArray _ => False
  | _ => True
  end ->
  exists db',
    call (create_full_program (Some caller) (Some name) description
            (Some client) (Some days)) db
    = (Raised invalid_parameter_value, db') /\
    rows db' = rows db /\
    training_programs_id_seq (seqs db')
    = training_programs_id_seq (seqs db) + 1.
Proof.
  intros Hcaller Hclient Hmax Hfresh Hdays.
  eexists. split; [ | split ].
  - unfold call, create_full_program, bind at 1.
    rewrite insert_training_programs_succeeds by assumption.
    destruct days; try contradiction; reflexivity.
  - reflexivity.
  - reflexivity.
Qed.

(** X12.  With [days] SQL [NULL] the loop has nothing to run over: the
    call succeeds as with an empty array, leaving the program row
    alone. *)
Theorem create_full_program_null_days (caller client : uuid)
    (name : text) (description : option text) (db : database) :
  profile_exists (rows db) caller = true ->
  profile_exists (rows db) client = true ->
  training_programs_id_seq (seqs db) <= int8_max ->
  program_exists (rows db) (training_programs_id_seq (seqs db)) = false ->
  exists db',
    call (create_full_program (Some caller) (Some name) description
            (Some client) None) db
    = (Returned (msg_program_created (training_programs_id_seq (seqs db))),
       db') /\
    training_programs (rows db')
    = (training_programs (rows db)
         ++ [ {| tp_id := training_programs_id_seq (seqs db);
                 tp_name := name; tp_description := description;
                 tp_trainer_id := caller; tp_client_id := client |} ])%list /\
    training_days (rows db') = training_days (rows db) /\
    program_exercises (rows db') = program_exercises (rows db).
Proof.
  intros Hcaller Hclient Hmax Hfresh.
  eexists. split.
  - unfold call, create_full_program, bind at 1.
    rewrite insert_training_programs_succeeds by assumption.
    reflexivity.
  - cbn. auto.
Qed.

(** X13.  Without a caller identity [create_full_program] never returns
    and never writes: the policy of [training_programs] refuses the
    program row (or the sequence is exhausted before that). *)
Theorem create_full_program_needs_caller
    (program_name program_description : option text)
    (client_id_in : option uuid) (days : option jsonb) (db : database) :
  exists e db',
    call (create_full_program None program_name program_description
            client_id_in days) db = (Raised e, db') /\
    rows db' = rows db /\
    (e = insufficient_privilege \/ e = sequence_generator_limit_exceeded).
Proof.
  unfold call, create_full_program, insert_training_programs, bind, nextval.
  destruct (training_programs_id_seq (seqs db) <=? int8_max).
  - cbn. do 2 eexists. split; [ reflexivity | ]. split; [ reflexivity | ].
    left. reflexivity.
  - cbn. do 2 eexists. split; [ reflexivity | ]. split; [ reflexivity | ].
    right. reflexivity.
Qed.

(** ** The integer casts *)

Lemma list_ascii_of_string_app (a b : text) :
  list_ascii_of_string (a ++ b)
  = (list_ascii_of_string a ++ list_ascii_of_string b)%list.
Proof.
  induction a as [| c a IH]; cbn; [ | rewrite IH ]; reflexivity.
Qed.

Lemma skip_spaces_keeps (c : ascii) (s : text) :
  isspace c = false ->
  In c (list_ascii_of_string s) ->
  In c (list_ascii_of_string (skip_spaces s)).
Proof.
  intros Hc. induction s as [| a r IH]; cbn [skip_spaces]; intros H.
  - exact H.
  - destruct (isspace a) eqn:Ha; [ | exact H ].
    cbn in H. destruct H as [-> | H]; [ congruence | auto ].
Qed.

Lemma rev_text_keeps (c : ascii) (s : text) :
  In c (list_ascii_of_string s) -> In c (list_ascii_of_string (rev_text s)).
Proof.
  intros H. unfold rev_text. rewrite list_ascii_of_string_of_list_ascii.
  apply in_rev. rewrite rev_involutive. exact H.
Qed.

Lemma strip_spaces_keeps (c : ascii) (s : text) :
  isspace c = false ->
  In c (list_ascii_of_string s) ->
  In c (list_ascii_of_string (strip_spaces s)).
Proof.
  intros Hc H. unfold strip_spaces.
  apply rev_text_keeps, skip_spaces_keeps, rev_text_keeps, skip_spaces_keeps;
    assumption.
Qed.

Lemma uint_of_string_point (s : text) :
  In "."%char (list_ascii_of_string s) -> NilEmpty.uint_of_string s = None.
Proof.
  induction s as [| c r IH]; cbn [list_ascii_of_string In NilEmpty.uint_of_string].
  - intros [].
  - intros [-> | H].
    + destruct (NilEmpty.uint_of_string r); reflexivity.
    + rewrite (IH H). reflexivity.
Qed.

Lemma uint_of_string_point_zero (s : text) :
  In "."%char (list_ascii_of_string s) -> NilZero.uint_of_string s = None.
Proof.
  intros H. destruct s; [ reflexivity | ].
  exact (uint_of_string_point _ H).
Qed.

(** A text with a decimal point is no integer. *)
Lemma strtoint_point (lo hi : Z) (s : text) :
  In "."%char (list_ascii_of_string s) ->
  strtoint lo hi s = inl invalid_text_representation.
Proof.
  intros H. apply (strip_spaces_keeps "."%char s eq_refl) in H.
  unfold strtoint. destruct (strip_spaces s) as [| c r]; [ destruct H | ].
  assert (Hbody : NilZero.uint_of_string (String c r) = None)
    by (apply uint_of_string_point_zero; exact H).
  assert (Hrest : c <> "."%char -> NilZero.uint_of_string r = None).
  { intros Hc. apply uint_of_string_point_zero.
    cbn in H. destruct H as [-> | H]; [ contradiction | exact H ]. }
  destruct c as [[] [] [] [] [] [] [] []];
    first [ rewrite Hbody; reflexivity
          | rewrite Hrest by discriminate; reflexivity ].
Qed.

Lemma numeric_out_point (m e : Z) :
  e < 0 -> In "."%char (list_ascii_of_string (numeric_out m e)).
Proof.
  intros He. unfold numeric_out.
  assert (Hneg : (0 <=? e) = false) by (apply Z.leb_gt; exact He).
  rewrite Hneg. cbv zeta.
  rewrite !list_ascii_of_string_app.
  apply in_or_app. right. apply in_or_app. right.
  apply in_or_app. left. left. reflexivity.
Qed.

Lemma strtoint_digits_any lo hi d :
  d <> Decimal.Nil ->
  strtoint lo hi (NilEmpty.string_of_uint d)
  = if (lo <=? Z.of_uint d) && (Z.of_uint d <=? hi) then inr (Z.of_uint d)
    else inl numeric_value_out_of_range.
Proof.
  intros Hd. unfold strtoint.
  rewrite strip_spaces_id by apply string_of_uint_no_space.
  assert (Hparse : NilZero.uint_of_string (NilEmpty.string_of_uint d) = Some d).
  { pose proof (NilZero.usu d Hd) as H. destruct d; try contradiction; exact H. }
  destruct d; try contradiction; cbn [NilEmpty.string_of_uint] in *;
    cbv iota beta; rewrite Hparse; reflexivity.
Qed.

Lemma strtoint_minus_digits_any lo hi d :
  d <> Decimal.Nil ->
  strtoint lo hi (String "-"%char (NilEmpty.string_of_uint d))
  = if (lo <=? - Z.of_uint d) && (- Z.of_uint d <=? hi)
    then inr (- Z.of_uint d)
    else inl numeric_value_out_of_range.
Proof.
  intros Hd. unfold strtoint.
  rewrite strip_spaces_id.
  - assert (Hparse : NilZero.uint_of_string (NilEmpty.string_of_uint d) = Some d).
    { pose proof (NilZero.usu d Hd) as H. destruct d; try contradiction; exact H. }
    cbv iota beta. rewrite Hparse. reflexivity.
  - cbn. intros c [<- | Hc]; [ reflexivity | ].
    eapply string_of_uint_no_space; eauto.
Qed.

Lemma strtoint_Z_to_text_any lo hi n :
  strtoint lo hi (Z_to_text n)
  = if (lo <=? n) && (n <=? hi) then inr n
    else inl numeric_value_out_of_range.
Proof.
  unfold Z_to_text.
  pose proof (DecimalZ.of_to n) as Hn.
  destruct n as [| p | p]; cbn [Z.to_int NilZero.string_of_int] in *.
  - reflexivity.
  - pose proof (DecimalPos.Unsigned.to_uint_nonnil p) as Hnil.
    cbn [Z.of_int] in Hn.
    replace (NilZero.string_of_uint (Pos.to_uint p))
      with (NilEmpty.string_of_uint (Pos.to_uint p))
      by (destruct (Pos.to_uint p); try contradiction; reflexivity).
    rewrite strtoint_digits_any by exact Hnil. rewrite Hn. reflexivity.
  - pose proof (DecimalPos.Unsigned.to_uint_nonnil p) as Hnil.
    cbn [Z.of_int] in Hn.
    replace (NilZero.string_of_uint (Pos.to_uint p))
      with (NilEmpty.string_of_uint (Pos.to_uint p))
      by (destruct (Pos.to_uint p); try contradiction; reflexivity).
    rewrite strtoint_minus_digits_any by exact Hnil. rewrite Hn. reflexivity.
Qed.

Lemma strtoint_in_range lo hi s v :
  strtoint lo hi s = inr v -> lo <= v <= hi.
Proof.
  unfold strtoint.
  destruct (match strip_spaces s with
            | String "-"%char r => (true, r)
            | String "+"%char r => (false, r)
            | _ => (false, strip_spaces s)
            end) as [negative digits].
  destruct (NilZero.uint_of_string digits) as [d |]; [ | discriminate ].
  destruct (_ && _) eqn:E; [ | discriminate ].
  intros H. inversion H; subst. apply andb_true_iff in E.
  destruct E as [Hlo Hhi]. apply Z.leb_le in Hlo, Hhi. lia.
Qed.

(** X14.  A field written as the JSON integer [n] is cast to [n] when
    [n] is within the range of [INT], and the cast raises "out of range"
    otherwise: what a cast to [INT] yields is never outside the range,
    so no value wraps around. *)
Theorem integer_field_is_read_back (j : jsonb) (k : text) (n : Z) :
  arrow (Some j) k = Some (JNumber n 0) ->
  cast int4in (arrow_text (Some j) k)
  = (if (int4_min <=? n) && (n <=? int4_max) then inr (Some n)
     else inl numeric_value_out_of_range) /\
  forall x v, cast int4in x = inr (Some v) -> int4_min <= v <= int4_max.
Proof.
  intros Hfield. split.
  - unfold arrow_text, cast. rewrite Hfield.
    cbn [jsonb_out]. unfold numeric_out.
    change (0 <=? 0) with true. cbv iota.
    rewrite Z.pow_0_r, Z.mul_1_r.
    unfold int4in. rewrite strtoint_Z_to_text_any.
    destruct (_ && _); reflexivity.
  - intros [s |] v; unfold cast; [ | discriminate ].
    destruct (int4in s) as [e | v'] eqn:E; [ discriminate | ].
    intros H. inversion H; subst. eapply strtoint_in_range; exact E.
Qed.

Lemma insert_day_of_bad_order auth_uid new_program_id d e db :
  training_days_id_seq (seqs db) <= int8_max ->
  cast int4in (arrow_text (Some d) "day_order") = inl e ->
  insert_day_of auth_uid new_program_id d db
  = (inl e,
     {| rows := rows db;
        seqs := set_training_days_id_seq
                  (training_days_id_seq (seqs db) + 1) (seqs db) |}).
Proof.
  intros Hmax Hcast. apply Z.leb_le in Hmax.
  unfold insert_day_of, insert_training_days, bind, nextval.
  rewrite Hmax, Hcast. reflexivity.
Qed.

(** X15.  A [day_order] written with a decimal point, as the JSON number
    [2.0] or [1.5] or as a string holding one, is no [INT]: the cast
    raises, and with it the call, which leaves no row. *)
Theorem fractional_day_order_is_rejected (caller client : uuid)
    (name : text) (description : option text) (d : jsonb) (rest : list jsonb)
    (db : database) :
  profile_exists (rows db) caller = true ->
  profile_exists (rows db) client = true ->
  training_programs_id_seq (seqs db) <= int8_max ->
  program_exists (rows db) (training_programs_id_seq (seqs db)) = false ->
  training_days_id_seq (seqs db) <= int8_max ->
  (exists m e, arrow (Some d) "day_order" = Some (JNumber m e) /\ e < 0)
  \/ (exists s, arrow (Some d) "day_order" = Some (JString s) /\
                In "."%char (list_ascii_of_string s)) ->
  exists db',
    call (create_full_program (Some caller) (Some name) description
            (Some client) (Some (JArray (d :: rest)))) db
    = (Raised invalid_text_representation, db') /\
    rows db' = rows db.
Proof.
  intros Hcaller Hclient Hmax Hfresh Hdmax Hfield.
  assert (Hcast : cast int4in (arrow_text (Some d) "day_order")
                  = inl invalid_text_representation).
  { unfold arrow_text, cast.
    destruct Hfield as [(m & e & -> & He) | (s & -> & Hs)].
    - cbn [jsonb_out]. unfold int4in.
      rewrite (strtoint_point _ _ _ (numeric_out_point m e He)). reflexivity.
    - unfold int4in. rewrite (strtoint_point _ _ _ Hs). reflexivity. }
  eexists. split.
  - unfold call, create_full_program, bind at 1.
    rewrite insert_training_programs_succeeds by assumption.
    unfold bind at 1. cbn [eval jsonb_array_elements ret for_each].
    unfold bind at 1. unfold bind at 1.
    rewrite (insert_day_of_bad_order _ _ d invalid_text_representation)
      by assumption.
    reflexivity.
  - reflexivity.
Qed.

(** ** Who may add a day to a program *)

Lemma day_policy_iff (auth_uid : option uuid) (t : tables) (program_id : Z) :
  day_policy auth_uid t (Some program_id) = true <->
  exists p,
    In p (training_programs t) /\ tp_id p = program_id /\
    (auth_uid = Some (tp_trainer_id p) \/ auth_uid = Some (tp_client_id p)).
Proof.
  unfold day_policy, visible_programs. rewrite existsb_exists. split.
  - intros (p & Hp & Hid). apply filter_In in Hp. destruct Hp as [Hp Hsees].
    cbn in Hid. apply Z.eqb_eq in Hid. exists p.
    split; [ exact Hp | ]. split; [ congruence | ].
    apply orb_true_iff in Hsees.
    destruct Hsees as [H | H]; apply is_true_eq_true in H;
      destruct H as (x & -> & E); inversion E; subst; auto.
  - intros (p & Hp & Hid & Hsees). exists p. split.
    + apply filter_In. split; [ exact Hp | ]. apply orb_true_iff.
      destruct Hsees as [-> | ->]; [ left | right ]; cbn;
        apply String.eqb_refl.
    + cbn. apply Z.eqb_eq. congruence.
Qed.

(** X16.  A day row for an existing program, with a name, goes in exactly
    when the caller is the trainer or the client of that program; for
    anyone else the insert is refused by the policy of [training_days],
    and no row is written. *)
Theorem day_insert_needs_program_access (auth_uid : option uuid)
    (program_id : Z) (name : text) (day_order : option Z) (db : database) :
  training_days_id_seq (seqs db) <= int8_max ->
  day_exists (rows db) (training_days_id_seq (seqs db)) = false ->
  program_exists (rows db) program_id = true ->
  let allowed :=
    exists p,
      In p (training_programs (rows db)) /\ tp_id p = program_id /\
      (auth_uid = Some (tp_trainer_id p) \/ auth_uid = Some (tp_client_id p)) in
  (allowed ->
   exists db',
     insert_training_days auth_uid (Some program_id) (Some name)
       (inr day_order) db
     = (inr (training_days_id_seq (seqs db)), db') /\
     training_days (rows db')
     = (training_days (rows db)
          ++ [ {| td_id := training_days_id_seq (seqs db);
                  td_program_id := program_id; td_name := name;
                  td_day_order := day_order |} ])%list) /\
  (~ allowed ->
   exists w,
     insert_training_days auth_uid (Some program_id) (Some name)
       (inr day_order) db
     = (inl insufficient_privilege, w) /\
     rows w = rows db).
Proof.
  intros Hmax Hfresh Hprogram allowed.
  apply Z.leb_le in Hmax.
  split.
  - intros Hallowed. apply day_policy_iff in Hallowed.
    unfold insert_training_days, bind, nextval. rewrite Hmax.
    cbn [eval ret get_rows rows seqs]. rewrite Hallowed.
    cbn [require ret not_null]. rewrite Hfresh. cbn [negb require ret].
    rewrite Hprogram. cbn [require ret set_rows].
    eexists. split; reflexivity.
  - intros Hrefused.
    assert (Hpolicy : day_policy auth_uid (rows db) (Some program_id) = false).
    { destruct (day_policy _ _ _) eqn:E; [ | reflexivity ].
      apply day_policy_iff in E. contradiction. }
    unfold insert_training_days, bind, nextval. rewrite Hmax.
    cbn [eval ret get_rows rows seqs]. rewrite Hpolicy.
    eexists. split; reflexivity.
Qed.

(** ** Sign-up metadata and the trigger *)





(** ** The statements above, on the sample data *)

Lemma insert_auth_users_keeps_constraints_witness :
  let db' := snd (call (insert_auth_users Sample.new_account) Sample.base) in
  constraints_hold (rows db') = true /\
  clients (rows db') = clients (rows Sample.base) /\
  exercises (rows db') = exercises (rows Sample.base) /\
  training_programs (rows db') = training_programs (rows Sample.base) /\
  training_days (rows db') = training_days (rows Sample.base) /\
  program_exercises (rows db') = program_exercises (rows Sample.base) /\
  seqs db' = seqs Sample.base.
Proof.
  apply (insert_auth_users_keeps_constraints Sample.new_account Sample.base).
  vm_compute. reflexivity.
Defined.

Lemma add_client_by_email_keeps_constraints_witness :
  let db' :=
    snd (call (add_client_by_email (Some Sample.trainer1)
                 (Some "client@example.org")) Sample.base) in
  constraints_hold (rows db') = true /\
  List.length (clients (rows db')) = 1%nat.
Proof.
  intros db'.
  destruct (add_client_by_email_keeps_constraints (Some Sample.trainer1)
              (Some "client@example.org") Sample.base) as [Hholds _].
  - vm_compute. reflexivity.
  - split; [ exact Hholds | vm_compute; reflexivity ].
Defined.

Lemma add_client_by_email_twice_witness :
  let db1 :=
    snd (call (add_client_by_email (Some Sample.trainer1)
                 (Some "client@example.org")) Sample.base) in
  exists db2,
    call (add_client_by_email (Some Sample.trainer1)
            (Some "client@example.org")) db1
    = (Returned msg_already_added, db2) /\
    rows db2 = rows db1.
Proof.
  intros db1.
  apply (add_client_by_email_twice (Some Sample.trainer1)
           (Some "client@example.org") (Some Sample.client1) Sample.base db1).
  vm_compute. reflexivity.
Defined.

Lemma create_full_program_keeps_constraints_witness :
  constraints_hold (rows Sample.with_program) = true /\
  ids_below_sequences Sample.with_program = true.
Proof.
  destruct (create_full_program_keeps_constraints (Some Sample.trainer1)
              (Some "Push Pull Legs") None (Some Sample.client1)
              (Some (JArray Sample.push_pull_legs)) Sample.base)
    as (Hholds & Hbelow & _).
  - vm_compute. reflexivity.
  - vm_compute. reflexivity.
  - split; [ exact Hholds | exact Hbelow ].
Defined.

Lemma delete_training_programs_cascades_witness :
  let s' := delete_training_programs (Some Sample.trainer1) 1 Sample.logged in
  program_exists (core s') 1 = false /\
  forall d, In d (training_days (core s')) -> td_program_id d <> 1.
Proof.
  intros s'.
  destruct (delete_training_programs_cascades Sample.trainer1
              Sample.the_program Sample.logged)
    as (Hprogram & Hdays & _).
  - vm_compute. reflexivity.
  - vm_compute. left. reflexivity.
  - reflexivity.
  - split; [ exact Hprogram | exact Hdays ].
Defined.

Lemma delete_training_programs_keeps_constraints_witness :
  store_constraints_hold
    (delete_training_programs (Some Sample.trainer1) 1 Sample.logged) = true.
Proof.
  destruct (delete_training_programs_keeps_constraints (Some Sample.trainer1)
              1 Sample.logged) as [Hholds _].
  - vm_compute. reflexivity.
  - exact Hholds.
Defined.

(** The client of a program cannot delete it. *)
Lemma delete_training_programs_by_another_user_witness :
  delete_training_programs (Some Sample.client1) 1 Sample.logged
  = Sample.logged.
Proof.
  apply (delete_training_programs_by_another_user (Some Sample.client1) 1
           Sample.logged).
  intros p Hp _. vm_compute in Hp. destruct Hp as [<- | []].
  vm_compute. discriminate.
Defined.

Lemma create_full_program_writes_witness :
  training_days (rows Sample.with_program)
  = day_rows 1 1 Sample.push_pull_legs /\
  program_exercises (rows Sample.with_program)
  = tree_exercise_rows 1 1 Sample.push_pull_legs.
Proof.
  destruct (create_full_program_writes (Some Sample.trainer1)
              (Some "Push Pull Legs") None (Some Sample.client1)
              (Some (JArray Sample.push_pull_legs)) Sample.base
              (msg_program_created 1) Sample.with_program)
    as (caller & name & client & ds & _ & _ & _ & Hds & _ & Hdays & Hx & _).
  - vm_compute. reflexivity.
  - cbn [jsonb_array_elements] in Hds. inversion Hds; subst ds.
    split; [ exact Hdays | exact Hx ].
Defined.

(** A second program on top of the first, created and deleted again. *)
Lemma create_then_delete_restores_witness :
  let db' :=
    snd (call (create_full_program (Some Sample.trainer1) (Some "Second")
                 None (Some Sample.client1)
                 (Some (JArray Sample.push_pull_legs)))
           Sample.with_program) in
  delete_training_programs (Some Sample.trainer1) 2
    {| core := rows db'; workout_logs := Sample.logs |}
  = Sample.logged.
Proof.
  intros db'.
  apply (create_then_delete_restores (Some Sample.trainer1) (Some "Second")
           None (Some Sample.client1) (Some (JArray Sample.push_pull_legs))
           Sample.with_program Sample.logs (msg_program_created 2) db').
  - vm_compute. reflexivity.
  - vm_compute. reflexivity.
  - vm_compute. reflexivity.
  - vm_compute. reflexivity.
  - vm_compute. reflexivity.
Defined.

Lemma create_full_program_days_not_an_array_witness :
  exists db',
    call (create_full_program (Some Sample.trainer1) (Some "Push Pull Legs")
            None (Some Sample.client1)
            (Some (JObject [("days", JArray Sample.push_pull_legs)])))
      Sample.base
    = (Raised invalid_parameter_value, db') /\
    rows db' = rows Sample.base /\
    training_programs_id_seq (seqs db') = 2.
Proof.
  apply (create_full_program_days_not_an_array Sample.trainer1 Sample.client1
           "Push Pull Legs" None
           (JObject [("days", JArray Sample.push_pull_legs)]) Sample.base).
  - vm_compute. reflexivity.
  - vm_compute. reflexivity.
  - vm_compute. congruence.
  - vm_compute. reflexivity.
  - exact I.
Defined.

Lemma create_full_program_null_days_witness :
  exists db',
    call (create_full_program (Some Sample.trainer1) (Some "Empty") None
            (Some Sample.client1) None) Sample.base
    = (Returned (msg_program_created 1), db') /\
    training_programs (rows db')
    = [ {| tp_id := 1; tp_name := "Empty"; tp_description := None;
           tp_trainer_id := Sample.trainer1;
           tp_client_id := Sample.client1 |} ] /\
    training_days (rows db') = [] /\
    program_exercises (rows db') = [].
Proof.
  apply (create_full_program_null_days Sample.trainer1 Sample.client1 "Empty"
           None Sample.base).
  - vm_compute. reflexivity.
  - vm_compute. reflexivity.
  - vm_compute. congruence.
  - vm_compute. reflexivity.
Defined.

Lemma integer_field_is_read_back_witness :
  cast int4in (arrow_text (Some (Sample.assignment 1 3 "8-12" 1)) "sets")
  = inr (Some 3).
Proof.
  apply (integer_field_is_read_back (Sample.assignment 1 3 "8-12" 1) "sets" 3).
  reflexivity.
Defined.

Lemma fractional_day_order_is_rejected_witness :
  exists db',
    call (create_full_program (Some Sample.trainer1) (Some "Push Pull Legs")
            None (Some Sample.client1) (Some (JArray [Sample.half_day])))
      Sample.base
    = (Raised invalid_text_representation, db') /\
    rows db' = rows Sample.base.
Proof.
  apply (fractional_day_order_is_rejected Sample.trainer1 Sample.client1
           "Push Pull Legs" None Sample.half_day [] Sample.base).
  - vm_compute. reflexivity.
  - vm_compute. reflexivity.
  - vm_compute. congruence.
  - vm_compute. reflexivity.
  - vm_compute. congruence.
  - left. exists 15, (-1). split; [ reflexivity | lia ].
Defined.

(** The client of the program adds a day to it. *)
Lemma day_insert_needs_program_access_witness :
  exists db',
    insert_training_days (Some Sample.client1) (Some 1) (Some "Day 3")
      (inr (Some 3)) Sample.with_program
    = (inr 3, db') /\
    List.length (training_days (rows db')) = 3%nat.
Proof.
  destruct (day_insert_needs_program_access (Some Sample.client1) 1 "Day 3"
              (Some 3) Sample.with_program) as [Hallowed _].
  - vm_compute. congruence.
  - vm_compute. reflexivity.
  - vm_compute. reflexivity.
  - destruct Hallowed as (db' & Hrun & Hrows).
    + exists Sample.the_program. split; [ vm_compute; left; reflexivity | ].
      split; [ reflexivity | right; reflexivity ].
    + exists db'. split; [ exact Hrun | ]. rewrite Hrows. reflexivity.
Defined.

Lemma create_full_program_succeeds_witness :
  exists db',
    call (create_full_program (Some Sample.trainer1) (Some "Push Pull Legs")
            None (Some Sample.client1)
            (Some (JArray Sample.push_pull_legs))) Sample.base
    = (Returned (msg_program_created 1), db').
Proof.
  apply (create_full_program_succeeds Sample.trainer1 Sample.client1
           "Push Pull Legs" None Sample.push_pull_legs Sample.base).
  - vm_compute. reflexivity.
  - vm_compute. reflexivity.
  - vm_compute. reflexivity.
  - vm_compute. reflexivity.
  - vm_compute. congruence.
  - vm_compute. congruence.
  - vm_compute. congruence.
  - vm_compute. reflexivity.
Defined.

End PgFacts.

(* ================================================================= *)
(** * Part IV: properties of the food-scan function                   *)
(* ================================================================= *)

Module FoodScanFacts.

Import FoodScan.
#[local] Open Scope list_scope.
#[local] Open Scope N_scope.

(** ** Strings *)

Lemma eqb_str_eq (a b : jsstring) : eqb_str a b = true <-> a = b.
Proof.
  revert b. induction a as [| x a IH]; intros [| y b]; cbn; split;
    try discriminate; try reflexivity.
  - intros H. apply andb_true_iff in H. destruct H as [Hx Hr].
    apply N.eqb_eq in Hx. apply IH in Hr. subst. reflexivity.
  - intros H. inversion H; subst. rewrite N.eqb_refl. cbn. apply IH. reflexivity.
Qed.

Lemma eqb_str_neq (a b : jsstring) : a <> b -> eqb_str a b = false.
Proof.
  intros H. destruct (eqb_str a b) eqn:E; [ | reflexivity ].
  apply eqb_str_eq in E. contradiction.
Qed.

Lemma str_fence : str "```" = fence.
Proof. reflexivity. Qed.

Lemma str_fence_json : str "```json" = fence_json.
Proof. reflexivity. Qed.

(** Where the closing marker does not start, the opening one does not
    either, even with a closing marker appended. *)
Lemma no_fence_no_fence_json (s : jsstring) :
  is_prefix fence s = false -> is_prefix fence_json (s ++ fence) = false.
Proof.
  unfold fence, fence_json.
  destruct s as [| a [| b [| c s]]]; cbn -[N.eqb].
  - reflexivity.
  - intros _. destruct (96 =? a); reflexivity.
  - intros _. destruct (96 =? a), (96 =? b); reflexivity.
  - destruct (96 =? a), (96 =? b), (96 =? c); cbn; intros H;
      (discriminate || reflexivity).
Qed.

(** Removing the opening markers from a text that has no closing marker,
    followed by one closing marker, changes nothing. *)
Lemma remove_fence_json_none (inner : jsstring) :
  contains fence inner = false ->
  remove_from fence_json 0 (inner ++ fence) = inner ++ fence.
Proof.
  induction inner as [| c r IH]; intros H.
  - reflexivity.
  - cbn [contains] in H. apply orb_false_iff in H. destruct H as [Hhere Hlater].
    change ((c :: r) ++ fence) with (c :: (r ++ fence)).
    cbn [remove_from].
    change (c :: (r ++ fence)) with ((c :: r) ++ fence).
    rewrite (no_fence_no_fence_json _ Hhere).
    cbn [app]. f_equal. apply IH. exact Hlater.
Qed.

(** Removing the closing markers from a text that has none, followed by
    one closing marker, gives the text back. *)
Lemma remove_fence_last (inner : jsstring) :
  contains fence inner = false ->
  remove_from fence 0 (inner ++ fence) = inner.
Proof.
  induction inner as [| c r IH]; intros H.
  - reflexivity.
  - cbn [contains] in H. apply orb_false_iff in H. destruct H as [Hhere Hlater].
    specialize (IH Hlater).
    destruct r as [| d [| e r']].
    + unfold fence. cbn -[N.eqb].
      destruct (96 =? c) eqn:Ec; [ | reflexivity ].
      apply N.eqb_eq in Ec. subst c. reflexivity.
    + unfold fence in *. cbn -[N.eqb] in IH |- *.
      destruct (96 =? c) eqn:Ec; cbn -[N.eqb].
      * apply N.eqb_eq in Ec. subst c.
        destruct (96 =? d) eqn:Ed; [ | reflexivity ].
        apply N.eqb_eq in Ed. subst d. reflexivity.
      * f_equal. exact IH.
    + change ((c :: d :: e :: r') ++ fence) with (c :: ((d :: e :: r') ++ fence)).
      cbn [remove_from].
      assert (Hp : is_prefix fence (c :: ((d :: e :: r') ++ fence)) = false).
      { unfold fence in *. cbn -[N.eqb] in Hhere |- *. exact Hhere. }
      rewrite Hp. f_equal. exact IH.
Qed.

(** What the two replacements leave of a fenced text. *)
Lemma remove_markers_fenced (inner : jsstring) :
  contains (str "```") inner = false ->
  remove_all (str "```") (remove_all (str "```json") (fenced inner)) = inner.
Proof.
  rewrite str_fence. intros H. unfold fenced, remove_all.
  rewrite str_fence, str_fence_json.
  assert (Hfirst : remove_from fence_json 0 (fence_json ++ inner ++ fence)
                   = remove_from fence_json 0 (inner ++ fence)).
  { reflexivity. }
  rewrite Hfirst, remove_fence_json_none by exact H.
  apply remove_fence_last. exact H.
Qed.


(** ** No image, no upstream call *)

Section Handler.

Variable GEMINI_API_KEY : option jsstring.

(** Whatever stops the first statements of the [try] block is answered
    with a 400 before any call is made. *)
Lemma serve_before_fetch (req : request) (m : message) :
  method req <> str "OPTIONS" ->
  image_of req = inl m ->
  serve GEMINI_API_KEY req = Done (error_response m).
Proof.
  intros Hmethod Himage. unfold serve.
  rewrite (eqb_str_neq _ _ Hmethod), Himage. reflexivity.
Qed.


(** The preflight is answered before the body is looked at. *)
Lemma preflight_is_answered (req : request) :
  method req = str "OPTIONS" ->
  serve GEMINI_API_KEY req
  = Done {| status := 200; headers := corsHeaders;
            res_body := Plain (str "ok") |}.
Proof.
  intros Hmethod. unfold serve.
  rewrite (proj2 (eqb_str_eq _ _) Hmethod). reflexivity.
Qed.

(** A body that is not JSON, or is [null], has no image either. *)
Lemma no_body_no_upstream_call (req : request) :
  method req <> str "OPTIONS" ->
  JSON_parse (req_body req) = None \/ JSON_parse (req_body req) = Some Null ->
  exists m, serve GEMINI_API_KEY req = Done (error_response m).
Proof.
  intros Hmethod [Hparse | Hparse].
  - exists SyntaxErrorMessage. apply serve_before_fetch; [ exact Hmethod | ].
    unfold image_of, json_of. rewrite Hparse. reflexivity.
  - exists TypeErrorMessage. apply serve_before_fetch; [ exact Hmethod | ].
    unfold image_of, json_of. rewrite Hparse. reflexivity.
Qed.

(** ** The parsed reply *)


End Handler.

(** C6, amended.  When the upstream answers [ok] with JSON whose reply
    text is a text wrapped in the two markers, and the wrapped text holds
    no run of three backticks, the handler's [nutritionData] is the
    wrapped text trimmed and parsed (and the handler throws where that
    parse throws). *)
Theorem fenced_reply_is_parsed_wrapped_text (geminiResponse : fetch_response)
    (geminiData : value) (inner : jsstring) :
  ok geminiResponse = true ->
  JSON_parse (res_text geminiResponse) = Some geminiData ->
  reply_text geminiData = inr (Str (fenced inner)) ->
  contains (str "```") inner = false ->
  nutritionData_of (inr geminiResponse) = parse_wrapped inner.
Proof.
  intros Hok Hdata Htext Hinner.
  unfold nutritionData_of, json_of at 1. cbn [and_then]. rewrite Hok, Hdata.
  cbn [negb and_then]. rewrite Htext. cbn [and_then jsonString_of].
  rewrite (remove_markers_fenced inner Hinner). reflexivity.
Qed.

Lemma fenced_reply_is_parsed_wrapped_text_witness :
  nutritionData_of
    (inr {| ok := true; statusText := str "OK";
            res_text := Sample.four_fields_reply |})
  = parse_wrapped Sample.four_fields_inside
  /\ exists v, parse_wrapped Sample.four_fields_inside = inr v
               /\ four_numeric_fields v = true.
Proof.
  split.
  - eapply (fenced_reply_is_parsed_wrapped_text
              {| ok := true; statusText := str "OK";
                 res_text := Sample.four_fields_reply |}).
    + reflexivity.
    + vm_compute. reflexivity.
    + vm_compute. reflexivity.
    + vm_compute. reflexivity.
  - eexists. split; vm_compute; reflexivity.
Defined.

(** C6 as stated fails: the reply text is a JSON object wrapped in the
    markers, one of whose strings holds three backticks; the markers
    stripped and the rest parsed gives that string back, but the handler
    removes the backticks inside the string as well. *)
Lemma fenced_reply_with_backticks_inside :
  let geminiResponse := {| ok := true; statusText := str "OK";
                           res_text := Sample.backticks_reply |} in
  (exists geminiData,
      JSON_parse (res_text geminiResponse) = Some geminiData /\
      reply_text geminiData = inr (Str (fenced Sample.backticks_inside))) /\
  parse_wrapped Sample.backticks_inside
  = inr (Object [ (str "note", Str (str "```")) ]) /\
  nutritionData_of (inr geminiResponse)
  = inr (Object [ (str "note", Str []) ]) /\
  nutritionData_of (inr geminiResponse) <> parse_wrapped Sample.backticks_inside.
Proof.
  intros geminiResponse. split; [ | split; [ | split ] ].
  - eexists. split; vm_compute; reflexivity.
  - vm_compute. reflexivity.
  - vm_compute. reflexivity.
  - vm_compute. discriminate.
Qed.




(** ** More on the two replacements *)

Lemma fence_json_starts_with_fence (s : jsstring) :
  is_prefix fence_json s = true -> is_prefix fence s = true.
Proof.
  unfold fence, fence_json.
  destruct s as [| a [| b [| c s]]]; cbn -[N.eqb]; try discriminate.
  - destruct (96 =? a); discriminate.
  - destruct (96 =? a), (96 =? b); discriminate.
  - destruct (96 =? a), (96 =? b), (96 =? c); cbn -[N.eqb];
      intros H; (discriminate || reflexivity).
Qed.

Lemma no_fence_nowhere_fence_json (s : jsstring) :
  contains fence s = false -> contains fence_json s = false.
Proof.
  induction s as [| c r IH]; intros H.
  - reflexivity.
  - cbn [contains] in H |- *. apply orb_false_iff in H. destruct H as [Hhere Hlater].
    apply orb_false_iff. split; [ | apply IH; exact Hlater ].
    destruct (is_prefix fence_json (c :: r)) eqn:E; [ | reflexivity ].
    apply fence_json_starts_with_fence in E. congruence.
Qed.

(** A replacement whose pattern does not occur changes nothing. *)
Lemma remove_from_absent (p s : jsstring) :
  contains p s = false -> remove_from p 0 s = s.
Proof.
  induction s as [| c r IH]; intros H.
  - reflexivity.
  - cbn [contains] in H. apply orb_false_iff in H. destruct H as [Hhere Hlater].
    cbn [remove_from]. rewrite Hhere. f_equal. apply IH. exact Hlater.
Qed.

(** Where no match starts, the code unit is kept. *)
Lemma remove_from_keeps (p : jsstring) (c : N) (r : jsstring) :
  is_prefix p (c :: r) = false ->
  remove_from p 0 (c :: r) = c :: remove_from p 0 r.
Proof. intros H. cbn [remove_from]. rewrite H. reflexivity. Qed.

Lemma contains_later (p : jsstring) (c : N) (r : jsstring) :
  is_prefix p (c :: r) = false -> contains p (c :: r) = contains p r.
Proof. intros H. cbn [contains]. rewrite H. reflexivity. Qed.

Lemma fence_needs_backtick (c : N) (r : jsstring) :
  (96 =? c) = false -> is_prefix fence (c :: r) = false.
Proof. intros H. unfold fence. cbn [is_prefix]. rewrite H. reflexivity. Qed.

Lemma fence_needs_second_backtick (c d : N) (r : jsstring) :
  (96 =? d) = false -> is_prefix fence (c :: d :: r) = false.
Proof.
  intros H. unfold fence. cbn [is_prefix]. rewrite H.
  rewrite andb_false_r. reflexivity.
Qed.

Lemma fence_needs_third_backtick (c d e : N) (r : jsstring) :
  (96 =? e) = false -> is_prefix fence (c :: d :: e :: r) = false.
Proof.
  intros H. unfold fence. cbn [is_prefix]. rewrite H.
  rewrite !andb_false_r. reflexivity.
Qed.

(** What the removal of the closing markers leaves holds no closing
    marker: after a backtick that is kept no match starts, so two kept
    backticks are followed by a kept code unit that is not a backtick. *)
Lemma remove_fence_leaves_none_upto (n : nat) :
  forall s : jsstring,
    (List.length s <= n)%nat -> contains fence (remove_from fence 0 s) = false.
Proof.
  induction n as [| n IH]; intros s Hlen.
  - destruct s; [ reflexivity | cbn in Hlen; lia ].
  - destruct s as [| c r]; [ reflexivity | ].
    cbn [List.length] in Hlen.
    destruct (96 =? c) eqn:Ec.
    + apply N.eqb_eq in Ec. subst c.
      destruct r as [| d r2]; [ reflexivity | ].
      cbn [List.length] in Hlen.
      destruct (96 =? d) eqn:Ed.
      * apply N.eqb_eq in Ed. subst d.
        destruct r2 as [| e r3]; [ reflexivity | ].
        cbn [List.length] in Hlen.
        destruct (96 =? e) eqn:Ee.
        -- apply N.eqb_eq in Ee. subst e.
           change (remove_from fence 0 (96 :: 96 :: 96 :: r3))
             with (remove_from fence 0 r3).
           apply IH. lia.
        -- rewrite (remove_from_keeps fence 96 _
                      (fence_needs_third_backtick 96 96 e r3 Ee)).
           rewrite (remove_from_keeps fence 96 _
                      (fence_needs_second_backtick 96 e r3 Ee)).
           rewrite (remove_from_keeps fence e _ (fence_needs_backtick e r3 Ee)).
           rewrite (contains_later fence 96 _
                      (fence_needs_third_backtick 96 96 e _ Ee)).
           rewrite (contains_later fence 96 _
                      (fence_needs_second_backtick 96 e _ Ee)).
           rewrite (contains_later fence e _ (fence_needs_backtick e _ Ee)).
           apply IH. lia.
      * rewrite (remove_from_keeps fence 96 _
                   (fence_needs_second_backtick 96 d r2 Ed)).
        rewrite (remove_from_keeps fence d _ (fence_needs_backtick d r2 Ed)).
        rewrite (contains_later fence 96 _
                   (fence_needs_second_backtick 96 d _ Ed)).
        rewrite (contains_later fence d _ (fence_needs_backtick d _ Ed)).
        apply IH. lia.
    + rewrite (remove_from_keeps fence c _ (fence_needs_backtick c r Ec)).
      rewrite (contains_later fence c _ (fence_needs_backtick c _ Ec)).
      apply IH. lia.
Qed.

Lemma remove_fence_leaves_none (s : jsstring) :
  contains fence (remove_from fence 0 s) = false.
Proof. apply (remove_fence_leaves_none_upto (List.length s)). lia. Qed.

(** ** What [trim] keeps is a piece of the text *)

Lemma trim_start_is_suffix (s : jsstring) : exists a, s = a ++ trim_start s.
Proof.
  induction s as [| c r [a IH]].
  - exists []. reflexivity.
  - cbn [trim_start]. destruct (is_js_space c).
    + exists (c :: a). cbn [app]. f_equal. exact IH.
    + exists []. reflexivity.
Qed.

Lemma trim_is_infix (s : jsstring) : exists a b, s = a ++ trim s ++ b.
Proof.
  unfold trim.
  destruct (trim_start_is_suffix s) as [a Ha].
  destruct (trim_start_is_suffix (rev (trim_start s))) as [b Hb].
  exists a, (rev b).
  rewrite <- rev_app_distr, <- Hb, rev_involutive. exact Ha.
Qed.

Lemma is_prefix_app (p s b : jsstring) :
  is_prefix p s = true -> is_prefix p (s ++ b) = true.
Proof.
  revert s. induction p as [| x p IH]; intros s H.
  - reflexivity.
  - destruct s as [| y s]; [ discriminate | ].
    cbn [is_prefix app] in H |- *. apply andb_true_iff in H.
    destruct H as [Hx Hr]. rewrite Hx, (IH _ Hr). reflexivity.
Qed.

Lemma contains_app_r (p s b : jsstring) :
  contains p s = true -> contains p (s ++ b) = true.
Proof.
  induction s as [| c r IH]; intros H.
  - cbn [contains] in H. rewrite orb_false_r in H.
    destruct p; [ | discriminate ].
    destruct b; reflexivity.
  - cbn [contains] in H. apply orb_true_iff in H.
    change ((c :: r) ++ b) with (c :: (r ++ b)). cbn [contains].
    apply orb_true_iff. destruct H as [H | H].
    + left. exact (is_prefix_app _ (c :: r) b H).
    + right. apply IH. exact H.
Qed.

Lemma contains_app_l (p a s : jsstring) :
  contains p s = true -> contains p (a ++ s) = true.
Proof.
  intros H. induction a as [| c a IH]; [ exact H | ].
  cbn [app contains]. rewrite IH. apply orb_true_r.
Qed.

Lemma trim_keeps_absent (p s : jsstring) :
  contains p s = false -> contains p (trim s) = false.
Proof.
  intros H. destruct (contains p (trim s)) eqn:E; [ | reflexivity ].
  destruct (trim_is_infix s) as (a & b & Hs).
  rewrite Hs in H.
  rewrite (contains_app_l p a _ (contains_app_r p _ b E)) in H. discriminate.
Qed.

(** X18.  Whatever the reply text, the string handed to [JSON.parse] holds
    no run of three backticks. *)
Theorem cleaned_reply_has_no_fence (text : value) (jsonString : jsstring) :
  jsonString_of text = inr jsonString ->
  contains (str "```") jsonString = false.
Proof.
  destruct text as [ | | | | s | | ]; cbn [jsonString_of]; try discriminate.
  intros H. inversion H; subst. rewrite str_fence.
  apply trim_keeps_absent. unfold remove_all. apply remove_fence_leaves_none.
Qed.

Lemma cleaned_reply_has_no_fence_witness :
  jsonString_of (Str (fenced Sample.backticks_inside))
  = inr (Sample.quoted "{'note': ''}")
  /\ contains (str "```") (Sample.quoted "{'note': ''}") = false.
Proof.
  split.
  - vm_compute. reflexivity.
  - apply (cleaned_reply_has_no_fence (Str (fenced Sample.backticks_inside))).
    vm_compute. reflexivity.
Defined.

(** X19.  A reply text that holds no run of three backticks is handed to
    [JSON.parse] as it is, trimmed: the two replacements change nothing. *)
Theorem unfenced_reply_is_parsed_trimmed (geminiResponse : fetch_response)
    (geminiData : value) (text : jsstring) :
  ok geminiResponse = true ->
  JSON_parse (res_text geminiResponse) = Some geminiData ->
  reply_text geminiData = inr (Str text) ->
  contains (str "```") text = false ->
  jsonString_of (Str text) = inr (trim text) /\
  nutritionData_of (inr geminiResponse) = json_of (trim text).
Proof.
  intros Hok Hdata Htext Hnone. rewrite str_fence in Hnone.
  assert (Hclean : jsonString_of (Str text) = inr (trim text)).
  { cbn [jsonString_of]. unfold remove_all. rewrite str_fence, str_fence_json.
    rewrite (remove_from_absent fence_json text)
      by (apply no_fence_nowhere_fence_json; exact Hnone).
    rewrite (remove_from_absent fence text) by exact Hnone. reflexivity. }
  split; [ exact Hclean | ].
  unfold nutritionData_of, json_of at 1. cbn [and_then]. rewrite Hok, Hdata.
  cbn [negb and_then]. rewrite Htext. cbn [and_then]. rewrite Hclean.
  reflexivity.
Qed.

Lemma unfenced_reply_is_parsed_trimmed_witness :
  nutritionData_of
    (inr {| ok := true; statusText := str "OK";
            res_text := Sample.one_field_reply |})
  = json_of (trim (Sample.quoted "{'calories_kcal': 250}")).
Proof.
  apply (unfenced_reply_is_parsed_trimmed
           {| ok := true; statusText := str "OK";
              res_text := Sample.one_field_reply |}
           (Object
              [ (str "candidates",
                 Array
                   [ Object
                       [ (str "content",
                          Object
                            [ (str "parts",
                               Array
                                 [ Object
                                     [ (str "text",
                                        Str (Sample.quoted
                                               "{'calories_kcal': 250}")) ] ]) ]) ] ]) ])
           (Sample.quoted "{'calories_kcal': 250}")).
  - reflexivity.
  - vm_compute. reflexivity.
  - vm_compute. reflexivity.
  - vm_compute. reflexivity.
Defined.

(** X20.  A reply text wrapped in two bare markers (three backticks, no
    language tag), in which the tagged marker does not occur and whose
    wrapped text holds no run of three backticks, is cleaned to the
    wrapped text, trimmed. *)
Theorem bare_fence_is_removed (inner : jsstring) :
  contains (str "```json") (str "```" ++ inner ++ str "```") = false ->
  contains (str "```") inner = false ->
  jsonString_of (Str (str "```" ++ inner ++ str "```")) = inr (trim inner).
Proof.
  rewrite str_fence, str_fence_json. intros Htag Hinner.
  cbn [jsonString_of]. unfold remove_all. rewrite str_fence, str_fence_json.
  rewrite (remove_from_absent fence_json _ Htag).
  assert (Hfirst : remove_from fence 0 (fence ++ inner ++ fence)
                   = remove_from fence 0 (inner ++ fence)).
  { reflexivity. }
  rewrite Hfirst, (remove_fence_last inner Hinner). reflexivity.
Qed.

Lemma bare_fence_is_removed_witness :
  jsonString_of
    (Str (str "```" ++ Sample.four_fields_inside ++ str "```"))
  = inr (trim Sample.four_fields_inside).
Proof.
  apply (bare_fence_is_removed Sample.four_fields_inside).
  - vm_compute. reflexivity.
  - vm_compute. reflexivity.
Defined.

(** ** The handler, path by path *)

Lemma image_of_inr (req : request) (image : value) :
  image_of req = inr image <->
  exists parsed,
    JSON_parse (req_body req) = Some parsed /\
    get parsed (str "image") = inr image /\
    falsy image = false.
Proof.
  unfold image_of, json_of. split.
  - destruct (JSON_parse (req_body req)) as [parsed |]; cbn [and_then];
      [ | discriminate ].
    destruct (get parsed (str "image")) as [m | v] eqn:Hget; cbn [and_then];
      [ discriminate | ].
    destruct (falsy v) eqn:Hfalsy; [ discriminate | ].
    intros H. inversion H; subst. exists parsed. auto.
  - intros (parsed & Hparse & Hget & Hfalsy).
    rewrite Hparse. cbn [and_then]. rewrite Hget. cbn [and_then].
    rewrite Hfalsy. reflexivity.
Qed.

Section Paths.

Variable GEMINI_API_KEY : option jsstring.

(** X21.  Against any upstream the handler makes no call or one call.  It
    makes one exactly when the request is not the preflight and its body
    is JSON with a truthy [image]; the call is the POST of the payload
    that carries this value as it came, whatever its type. *)
Theorem upstream_called_once_for_an_image
    (upstream : fetch_call -> fetch_result) (req : request) :
  let calls := snd (run upstream (serve GEMINI_API_KEY req)) in
  (calls = [] \/ exists image, calls = [gemini_call GEMINI_API_KEY image]) /\
  forall image,
    calls = [gemini_call GEMINI_API_KEY image] <->
    method req <> str "OPTIONS" /\
    exists parsed,
      JSON_parse (req_body req) = Some parsed /\
      get parsed (str "image") = inr image /\
      falsy image = false.
Proof.
  cbn zeta. unfold serve.
  destruct (eqb_str (method req) (str "OPTIONS")) eqn:Hmethod.
  - apply eqb_str_eq in Hmethod. cbn [run snd]. split; [ left; reflexivity | ].
    intros image. split; [ discriminate | ].
    intros [Hnot _]. contradiction.
  - assert (Hnot : method req <> str "OPTIONS").
    { intros E. apply eqb_str_eq in E. congruence. }
    destruct (image_of req) as [m | image] eqn:Himage.
    + cbn [run snd]. split; [ left; reflexivity | ].
      intros image. split; [ discriminate | ].
      intros [_ Hex]. apply image_of_inr in Hex. congruence.
    + cbn [run snd]. split; [ right; exists image; reflexivity | ].
      intros image'. split.
      * intros H. split; [ exact Hnot | ]. apply image_of_inr.
        inversion H; subst. exact Himage.
      * intros [_ Hex]. apply image_of_inr in Hex.
        rewrite Himage in Hex. inversion Hex; subst. reflexivity.
Qed.

(** X22.  A failed upstream call is answered with status 400: a rejected
    [fetch] with the message of the rejection, and an answer that is not
    [ok] with the status text and the body of that answer after the text
    of the source, the body being passed on unparsed. *)
Theorem upstream_failure_is_answered_400
    (upstream : fetch_call -> fetch_result) (req : request) (image : value) :
  method req <> str "OPTIONS" ->
  image_of req = inr image ->
  (forall m,
      upstream (gemini_call GEMINI_API_KEY image) = inl m ->
      respond GEMINI_API_KEY upstream req = error_response m) /\
  (forall geminiResponse,
      upstream (gemini_call GEMINI_API_KEY image) = inr geminiResponse ->
      ok geminiResponse = false ->
      respond GEMINI_API_KEY upstream req
      = error_response
          (Text (str "Gemini API error: " ++ statusText geminiResponse
                   ++ str " - " ++ res_text geminiResponse))).
Proof.
  intros Hmethod Himage. unfold respond, serve.
  rewrite (eqb_str_neq _ _ Hmethod), Himage. cbn [run fst].
  split.
  - intros m Hfetch. rewrite Hfetch. reflexivity.
  - intros geminiResponse Hfetch Hok. rewrite Hfetch.
    unfold nutritionData_of. cbn [and_then]. rewrite Hok. reflexivity.
Qed.

(** X23.  When the upstream answers [ok] with JSON in which
    [candidates[0].content.parts[0].text] is a string that, once the
    markers are removed and the rest trimmed, parses as JSON, the handler
    answers 200 with the parsed value as the body. *)
Theorem parsed_reply_is_answered_200
    (upstream : fetch_call -> fetch_result) (req : request)
    (image : value) (geminiResponse : fetch_response)
    (geminiData : value) (text : jsstring) (nutritionData : value) :
  method req <> str "OPTIONS" ->
  image_of req = inr image ->
  upstream (gemini_call GEMINI_API_KEY image) = inr geminiResponse ->
  ok geminiResponse = true ->
  JSON_parse (res_text geminiResponse) = Some geminiData ->
  reply_text geminiData = inr (Str text) ->
  JSON_parse (trim (remove_all (str "```") (remove_all (str "```json") text)))
  = Some nutritionData ->
  respond GEMINI_API_KEY upstream req = ok_response nutritionData.
Proof.
  intros Hmethod Himage Hfetch Hok Hdata Htext Hnutrition.
  unfold respond, serve.
  rewrite (eqb_str_neq _ _ Hmethod), Himage. cbn [run fst].
  rewrite Hfetch. unfold nutritionData_of, json_of. cbn [and_then].
  rewrite Hok, Hdata. cbn [negb and_then]. rewrite Htext.
  cbn [and_then jsonString_of]. rewrite Hnutrition. reflexivity.
Qed.

(** X24.  A body that parses to something other than an object, or to an
    object whose [image] is [null], [false] or a zero, is answered with
    status 400 and no upstream call: with the engine's [TypeError] when
    the body is [null], with the message of the source otherwise. *)
Theorem unusable_image_is_answered_400 (req : request) (parsed : value) :
  method req <> str "OPTIONS" ->
  JSON_parse (req_body req) = Some parsed ->
  match parsed with
  | Object _ =>
      exists image,
        get parsed (str "image") = inr image /\
        (image = Null \/ image = Bool false \/ exists e, image = Number 0 e)
  | _ => True
  end ->
  serve GEMINI_API_KEY req
  = Done (error_response
            (match parsed with
             | Null | Undefined => TypeErrorMessage
             | _ => Text (str "No image data provided.")
             end)) /\
  forall upstream, snd (run upstream (serve GEMINI_API_KEY req)) = [].
Proof.
  intros Hmethod Hparse Himage.
  match goal with
  | |- ?s = Done ?r /\ _ => assert (Hserve : s = Done r)
  end.
  { apply serve_before_fetch; [ exact Hmethod | ].
    unfold image_of, json_of. rewrite Hparse. cbn [and_then].
    destruct parsed as [ | | b | m e | s | items | members ];
      try reflexivity.
    destruct Himage as (image & Hget & Himage). rewrite Hget. cbn [and_then].
    destruct Himage as [-> | [-> | [e ->]]]; reflexivity. }
  split; [ exact Hserve | ].
  intros upstream. rewrite Hserve. reflexivity.
Qed.

(** X25.  Every response carries the two CORS headers first, and its
    status is 200 or 400; a status 400 comes with an error body. *)
Theorem every_response_has_cors_headers
    (upstream : fetch_call -> fetch_result) (req : request) :
  let resp := respond GEMINI_API_KEY upstream req in
  (exists more, headers resp = corsHeaders ++ more) /\
  (status resp = 200%Z \/
   status resp = 400%Z /\ exists m, res_body resp = ErrorJson m).
Proof.
  cbn zeta. unfold respond, serve.
  destruct (eqb_str (method req) (str "OPTIONS")).
  - cbn [run fst headers status]. split; [ exists []; reflexivity | ].
    left. reflexivity.
  - destruct (image_of req) as [m | image]; cbn [run fst].
    + split; [ eexists; reflexivity | ]. right. split; [ reflexivity | ].
      exists m. reflexivity.
    + destruct (nutritionData_of _) as [m | nutritionData].
      * split; [ eexists; reflexivity | ]. right. split; [ reflexivity | ].
        exists m. reflexivity.
      * split; [ eexists; reflexivity | ]. left. reflexivity.
Qed.

End Paths.

(** An upstream that fails every call with [503] and the given body. *)
Lemma upstream_failure_is_answered_400_witness :
  let upstream : fetch_call -> fetch_result :=
    fun _ => inr {| ok := false; statusText := str "Service Unavailable";
                    res_text := str "busy" |} in
  respond None upstream Sample.scan_request
  = error_response (Text (str "Gemini API error: Service Unavailable - busy")).
Proof.
  intros upstream.
  refine (proj2 (upstream_failure_is_answered_400 None upstream
                   Sample.scan_request (Str (str "aGVsbG8=")) _ _)
            {| ok := false; statusText := str "Service Unavailable";
               res_text := str "busy" |} _ _).
  - vm_compute. discriminate.
  - vm_compute. reflexivity.
  - reflexivity.
  - reflexivity.
Defined.

Lemma parsed_reply_is_answered_200_witness :
  respond None (Sample.answering Sample.one_field_reply) Sample.scan_request
  = ok_response (Object [ (str "calories_kcal", Number 250 0) ]).
Proof.
  apply (parsed_reply_is_answered_200 None
           (Sample.answering Sample.one_field_reply) Sample.scan_request
           (Str (str "aGVsbG8="))
           {| ok := true; statusText := str "OK";
              res_text := Sample.one_field_reply |}
           (Object
              [ (str "candidates",
                 Array
                   [ Object
                       [ (str "content",
                          Object
                            [ (str "parts",
                               Array
                                 [ Object
                                     [ (str "text",
                                        Str (Sample.quoted
                                               "{'calories_kcal': 250}")) ] ]) ]) ] ]) ])
           (Sample.quoted "{'calories_kcal': 250}")).
  - vm_compute. discriminate.
  - vm_compute. reflexivity.
  - reflexivity.
  - reflexivity.
  - vm_compute. reflexivity.
  - vm_compute. reflexivity.
  - vm_compute. reflexivity.
Defined.

Lemma unusable_image_is_answered_400_witness :
  let req := Sample.post (Sample.quoted "{'image': 0.0}") in
  serve None req
  = Done (error_response (Text (str "No image data provided."))) /\
  forall upstream, snd (run upstream (serve None req)) = [].
Proof.
  intros req.
  apply (unusable_image_is_answered_400 None req
           (Object [ (str "image", Number 0 (-1)) ])).
  - vm_compute. discriminate.
  - vm_compute. reflexivity.
  - exists (Number 0 (-1)). split; [ vm_compute; reflexivity | ].
    right. right. exists (-1)%Z. reflexivity.
Defined.

End FoodScanFacts.
